(** * Tech_Sniper_IT command gateway: the webhook router and the scan endpoint

    A shallow embedding of [api/telegram-webhook.js] and [api/scan.js], and
    of the later revision of [api/scan.js], with the properties of their
    handlers.

    - JavaScript values are an inductive type [JsVal]; objects are association
      lists in insertion order, as [JSON.stringify] sees them.
    - Strings are [string]s whose characters stand for code units below 256;
      white space, letters and lower case are those of that range.
    - The handlers are [async] functions whose only effect is [fetch]: they
      live in a small monad [M] that threads the list of outbound calls made
      so far and consults a [Network], a function that answers every call
      with a response or a rejection. A JavaScript [throw] (or a rejected
      promise) is the [Abrupt] completion of that monad, and [tryCatch] is
      [try { } catch { }]. Reading the body of a response does not fail, and
      [response.ok] is a status from 200 to 299.
    - The Update of the chat transport is a record: the identifiers of a
      chat and of a sender are numbers, as the transport's schema has them;
      the text of a message is any JSON value, because the handler calls a
      string method on it before its [try] block. The body of the scan
      endpoint is any JSON value.
    - The built-ins of the JavaScript runtime that the handlers call but do
      not define ([JSON.parse], [Number], [String] on a number) are the
      fields of a [Runtime] record that the definitions are parametric in;
      [Number.parseInt] is defined, with its rounding to a double. *)

From Stdlib Require Import ZArith QArith List String Ascii Bool Lia.
From Stdlib Require Import DecimalString.
Import ListNotations.

Open Scope Z_scope.
Open Scope list_scope.
Open Scope string_scope.

(* ================================================================== *)
(** ** JavaScript values *)

Module Js.

(** A JavaScript number: a finite double is a rational; [-0] is identified
    with [0] (nothing below tells them apart: both are falsy, both print as
    ["0"], and [Math.max(1, -0)] is [1]). *)
Inductive JsNum : Type :=
| NaN
| Infty (negative : bool)
| Fin (q : Q).

#[warnings="-register-all"]
Inductive JsVal : Type :=
| JUndefined
| JNull
| JBool (b : bool)
| JNum (n : JsNum)
| JStr (s : string)
| JArr (items : list JsVal)
| JObj (props : list (string * JsVal)).

Definition num (z : Z) : JsVal := JNum (Fin (inject_Z z)).

(** [Number.isFinite]. *)
Definition isFinite (n : JsNum) : bool :=
  match n with Fin _ => true | _ => false end.

(** [a <= b] on numbers (false as soon as one side is [NaN]). *)
Definition num_leb (a b : JsNum) : bool :=
  match a, b with
  | NaN, _ | _, NaN => false
  | Infty true, _ => true
  | _, Infty false => true
  | Infty false, _ => false
  | _, Infty true => false
  | Fin x, Fin y => Qle_bool x y
  end.

(** [a < b] on numbers. *)
Definition num_ltb (a b : JsNum) : bool :=
  match a, b with
  | NaN, _ | _, NaN => false
  | Infty s, Infty s' => s && negb s'
  | Infty true, Fin _ => true
  | Fin _, Infty false => true
  | Infty false, Fin _ => false
  | Fin _, Infty true => false
  | Fin x, Fin y => negb (Qle_bool y x)
  end.

(** [Math.min] and [Math.max] of two numbers. *)
Definition Math_min (a b : JsNum) : JsNum :=
  match a, b with
  | NaN, _ | _, NaN => NaN
  | _, _ => if num_ltb a b then a else b
  end.

Definition Math_max (a b : JsNum) : JsNum :=
  match a, b with
  | NaN, _ | _, NaN => NaN
  | _, _ => if num_ltb b a then a else b
  end.

(** ToBoolean. *)
Definition truthy (v : JsVal) : bool :=
  match v with
  | JUndefined | JNull => false
  | JBool b => b
  | JNum NaN => false
  | JNum (Infty _) => true
  | JNum (Fin q) => negb (Qeq_bool q 0)
  | JStr s => negb (s =? "")
  | JArr _ | JObj _ => true
  end.

(** [typeof v === "object"] (true of [null] as well). *)
Definition typeof_object (v : JsVal) : bool :=
  match v with JNull | JArr _ | JObj _ => true | _ => false end.

(** [typeof v === "string"]. *)
Definition typeof_string (v : JsVal) : bool :=
  match v with JStr _ => true | _ => false end.

Definition isArray (v : JsVal) : bool :=
  match v with JArr _ => true | _ => false end.

(** Own-property lookup in an object literal or a parsed JSON object. *)
Fixpoint lookup (k : string) (props : list (string * JsVal)) : option JsVal :=
  match props with
  | [] => None
  | (k', v) :: rest => if k' =? k then Some v else lookup k rest
  end.

(** [v.k] for a [v] that is neither [null] nor [undefined], and a [k] that
    no built-in prototype defines (every property name read below). *)
Definition getProp (v : JsVal) (k : string) : JsVal :=
  match v with
  | JObj props => match lookup k props with Some x => x | None => JUndefined end
  | _ => JUndefined
  end.

(** [v?.k]. *)
Definition optProp (v : JsVal) (k : string) : JsVal :=
  match v with
  | JUndefined | JNull => JUndefined
  | _ => getProp v k
  end.

(** [a || b] and [a ?? b]. *)
Definition or_else (a b : JsVal) : JsVal := if truthy a then a else b.

Definition nullish (a b : JsVal) : JsVal :=
  match a with JUndefined | JNull => b | _ => a end.

(** Assignment of one property, as an object literal or a spread does it: an
    existing key keeps its place and takes the new value, a new key goes last. *)
Fixpoint setProp (k : string) (v : JsVal) (props : list (string * JsVal))
  : list (string * JsVal) :=
  match props with
  | [] => [(k, v)]
  | (k', v') :: rest =>
      if k' =? k then (k, v) :: rest else (k', v') :: setProp k v rest
  end.

(** What a thrown value looks like to [error instanceof Error]. *)
Inductive Thrown : Type :=
| ErrorObject (message : string)
| NonError.

Inductive Completion (A : Type) : Type :=
| Normal (a : A)
| Abrupt (e : Thrown).
Arguments Normal {A} a.
Arguments Abrupt {A} e.

(** The built-ins the handlers rely on. [JSON_parse] is [None] where
    [JSON.parse] throws its SyntaxError; [Number_] is [Number(v)], which
    throws on an object that cannot be made primitive; [NumberToString] is
    [String(n)] for a number [n]. *)
Record Runtime : Type := {
  JSON_parse : string -> option JsVal;
  Number_ : JsVal -> Completion JsNum;
  NumberToString : JsNum -> string
}.

End Js.
Export Js.

(* ================================================================== *)
(** ** String primitives *)

Module Str.

Definition isWhiteSpace (c : ascii) : bool :=
  let n := nat_of_ascii c in
  ((9 <=? n) && (n <=? 13) || (n =? 32) || (n =? 160))%nat.

(** [\n] and [\r], the characters that [.] of a regular expression skips. *)
Definition isLineTerminator (c : ascii) : bool :=
  let n := nat_of_ascii c in ((n =? 10) || (n =? 13))%nat.

Definition isAsciiLetter (c : ascii) : bool :=
  let n := nat_of_ascii c in
  ((65 <=? n) && (n <=? 90) || (97 <=? n) && (n <=? 122))%nat.

Definition isDigit (c : ascii) : bool :=
  let n := nat_of_ascii c in ((48 <=? n) && (n <=? 57))%nat.

Fixpoint dropWhile (p : ascii -> bool) (s : string) : string :=
  match s with
  | EmptyString => EmptyString
  | String c rest => if p c then dropWhile p rest else s
  end.

Fixpoint takeWhile (p : ascii -> bool) (s : string) : string :=
  match s with
  | EmptyString => EmptyString
  | String c rest => if p c then String c (takeWhile p rest) else EmptyString
  end.

Fixpoint existsChar (p : ascii -> bool) (s : string) : bool :=
  match s with
  | EmptyString => false
  | String c rest => p c || existsChar p rest
  end.

Definition trimStart (s : string) : string := dropWhile isWhiteSpace s.

Fixpoint trimEnd (s : string) : string :=
  match s with
  | EmptyString => EmptyString
  | String c rest =>
      match trimEnd rest with
      | EmptyString => if isWhiteSpace c then EmptyString else String c EmptyString
      | kept => String c kept
      end
  end.

Definition trim (s : string) : string := trimEnd (trimStart s).

Definition startsWith (s p : string) : bool := String.prefix p s.

Definition endsWith (s p : string) : bool :=
  (String.length p <=? String.length s)%nat
  && (substring (String.length s - String.length p) (String.length p) s =? p).

Definition slice (from : nat) (s : string) : string :=
  substring from (String.length s - from) s.

Definition lowerChar (c : ascii) : ascii :=
  let n := nat_of_ascii c in
  if ((65 <=? n) && (n <=? 90)
      || (192 <=? n) && (n <=? 222) && negb (n =? 215))%nat
  then ascii_of_nat (n + 32) else c.

Fixpoint toLowerCase (s : string) : string :=
  match s with
  | EmptyString => EmptyString
  | String c rest => String (lowerChar c) (toLowerCase rest)
  end.

(** [s.split(sep)] for a one-character separator. *)
Fixpoint split (sep : ascii) (s : string) : list string :=
  match s with
  | EmptyString => [EmptyString]
  | String c rest =>
      if Ascii.eqb c sep then EmptyString :: split sep rest
      else match split sep rest with
           | [] => [String c EmptyString]
           | first :: others => String c first :: others
           end
  end.

(** [s.split(/\s+/)[0]]: the characters before the first white space. *)
Definition firstToken (s : string) : string :=
  takeWhile (fun c => negb (isWhiteSpace c)) s.

Definition Z_to_string (z : Z) : string := NilZero.string_of_int (Z.to_int z).

Definition hexDigit (n : nat) : ascii :=
  ascii_of_nat (if (n <? 10)%nat then 48 + n else 55 + n).

Definition percent (n : nat) : string :=
  String "%" (String (hexDigit (n / 16)) (String (hexDigit (n mod 16)) EmptyString)).

Definition isUnreserved (c : ascii) : bool :=
  isAsciiLetter c || isDigit c
  || existsChar (Ascii.eqb c) "-_.!~*'()".

(** [encodeURIComponent]: the UTF-8 bytes of every reserved character. *)
Fixpoint encodeURIComponent (s : string) : string :=
  match s with
  | EmptyString => EmptyString
  | String c rest =>
      let n := nat_of_ascii c in
      (if isUnreserved c then String c EmptyString
       else if (n <? 128)%nat then percent n
       else percent (192 + n / 64) ++ percent (128 + n mod 64))
      ++ encodeURIComponent rest
  end.

End Str.
Export Str.

(* ================================================================== *)
(** ** Outbound calls and the effect monad *)

Module Net.

(** The three places where the router calls [fetch]. *)
Inductive Call : Type :=
| SendMessage (botToken : string) (chatId : JsVal) (text : string)
| Dispatch (githubToken owner repo eventType : string) (payload : JsVal)
| GitHubApi (githubToken method path : string) (body : option JsVal).

Record FetchRequest : Type := {
  url : string;
  http_method : string;
  http_headers : list (string * string);
  json_body : option JsVal   (* the value handed to JSON.stringify *)
}.

Definition TELEGRAM_API_BASE := "https://api.telegram.org".

Definition githubHeaders (githubToken : string) : list (string * string) :=
  [("Authorization", "Bearer " ++ githubToken);
   ("Accept", "application/vnd.github+json");
   ("X-GitHub-Api-Version", "2022-11-28");
   ("Content-Type", "application/json")].

(** The arguments of [fetch] at each call site. *)
Definition toFetch (c : Call) : FetchRequest :=
  match c with
  | SendMessage botToken chatId text =>
      {| url := TELEGRAM_API_BASE ++ "/bot" ++ botToken ++ "/sendMessage";
         http_method := "POST";
         http_headers := [("Content-Type", "application/json")];
         json_body := Some (JObj [("chat_id", chatId); ("text", JStr text);
                                  ("disable_web_page_preview", JBool true)]) |}
  | Dispatch githubToken owner repo eventType payload =>
      {| url := "https://api.github.com/repos/" ++ owner ++ "/" ++ repo ++ "/dispatches";
         http_method := "POST";
         http_headers := githubHeaders githubToken;
         json_body := Some (JObj [("event_type", JStr eventType);
                                  ("client_payload", payload)]) |}
  | GitHubApi githubToken method path body =>
      {| url := "https://api.github.com" ++ path;
         http_method := method;
         http_headers := githubHeaders githubToken;
         json_body := body |}
  end.

(** A [fetch] Response: [ok] is derived from the status, as the Fetch
    standard defines it. *)
Record Response : Type := { status : Z; text : string }.

Definition ok (r : Response) : bool :=
  ((200 <=? status r) && (status r <=? 299))%Z.

Inductive FetchOutcome : Type :=
| Rejected (e : Thrown)
| Fulfilled (r : Response).

(** The outside world: what each call is answered, given the calls made
    before it. *)
Definition Network : Type := list Call -> Call -> FetchOutcome.

Definition M (A : Type) : Type := Network -> list Call -> Completion A * list Call.

Definition ret {A} (a : A) : M A := fun _ tr => (Normal a, tr).

Definition throw {A} (e : Thrown) : M A := fun _ tr => (Abrupt e, tr).

Definition bind {A B} (m : M A) (k : A -> M B) : M B :=
  fun net tr =>
    match m net tr with
    | (Normal a, tr') => k a net tr'
    | (Abrupt e, tr') => (Abrupt e, tr')
    end.

(** [try { m } catch (e) { h e }]. *)
Definition tryCatch {A} (m : M A) (h : Thrown -> M A) : M A :=
  fun net tr =>
    match m net tr with
    | (Normal a, tr') => (Normal a, tr')
    | (Abrupt e, tr') => h e net tr'
    end.

(** A synchronous computation that may throw, run inside the handler. *)
Definition lift {A} (c : Completion A) : M A := fun _ tr => (c, tr).

Definition fetch (c : Call) : M Response :=
  fun net tr =>
    (match net tr c with
     | Rejected e => Abrupt e
     | Fulfilled r => Normal r
     end, (tr ++ [c])%list).

End Net.
Export Net.

Declare Scope js_scope.
Delimit Scope js_scope with js.
Notation "x <- m ;; k" := (bind m (fun x => k))
  (at level 100, m at next level, right associativity) : js_scope.
Notation "m ;;; k" := (bind m (fun _ => k))
  (at level 100, right associativity) : js_scope.
Open Scope js_scope.

(* ================================================================== *)
(** ** The serverless platform: environment, request headers, response *)

Module Vercel.

(** [process.env]. *)
Definition Env : Type := string -> option string.

(** What [res.status(code).json(body)] sends. *)
Record HttpResponse : Type := { code : Z; payload : JsVal }.

Definition json (code : Z) (props : list (string * JsVal)) : HttpResponse :=
  {| code := code; payload := JObj props |}.

(** Truthiness of a string that may be [undefined]. *)
Definition present (v : option string) : bool :=
  match v with Some s => negb (s =? "") | None => false end.

(** A string that may be [undefined] inside a template literal. *)
Definition tpl (v : option string) : string :=
  match v with Some s => s | None => "undefined" end.

(** [a !== b] for two strings that may be [undefined]. *)
Definition differs (a b : option string) : bool :=
  match a, b with
  | Some x, Some y => negb (x =? y)
  | None, None => false
  | _, _ => true
  end.

End Vercel.
Export Vercel.

(* ================================================================== *)
(** ** api/telegram-webhook.js: the command router *)

Module Webhook.

(** The chat transport's envelope: [{ message | edited_message:
    { chat: { id }, from: { id }, text } }], every part optional. The
    identifiers are numbers; [text] is whatever JSON value the body holds
    there, [undefined] when it holds none. *)
Record Chat : Type := { chat_id : option JsNum }.
Record User : Type := { user_id : option JsNum }.
Record Message : Type := {
  chat : option Chat;
  from : option User;
  text : JsVal
}.
Record Update : Type := {
  message : option Message;
  edited_message : option Message
}.

Record Request : Type := {
  method : string;
  headers : string -> option string;
  body : option Update
}.

Definition DEFAULT_DISPATCH_EVENT := "scan".
Definition MAX_LAST_LIMIT : Z := 10.
Definition STRATEGY_PROFILE_VAR := "STRATEGY_PROFILE".
Definition STRATEGY_PROFILES : list string := ["conservative"; "balanced"; "aggressive"].

Definition envOrDefault (env : Env) (name fallback : string) : string :=
  match env name with
  | Some value => if trim value =? "" then fallback else trim value
  | None => fallback
  end.

(** The allowlist, a [Set] of strings, as the list of its members. *)
Definition parseAllowedChatIds (value : option string) : list string :=
  filter (fun item => negb (item =? ""))
         (map trim (split "," (match value with Some v => v | None => "" end))).

Definition has (set : list string) (x : string) : bool :=
  existsb (String.eqb x) set.

(** [text.replace(/^```[a-zA-Z]*\s*/, "")] on a text that starts with the
    fence, then [text.replace(/```$/, "")]. *)
Definition stripCodeFence (raw : string) : string :=
  let text := trim raw in
  if negb (startsWith text "```") then text
  else
    let text := dropWhile isWhiteSpace (dropWhile isAsciiLetter (slice 3 text)) in
    let text := if endsWith text "```"
                then substring 0 (String.length text - 3) text else text in
    trim text.

Definition isObjectItem (item : JsVal) : bool := truthy item && typeof_object item.

Definition parseProductsArg (rt : Runtime) (arg : string) : Completion (list JsVal) :=
  let raw := stripCodeFence arg in
  match JSON_parse rt raw with
  | None => Abrupt (ErrorObject "Unexpected token in JSON")
  | Some parsed =>
      Normal (match parsed with
              | JArr items => filter isObjectItem items
              | _ => if isObjectItem parsed then [parsed] else []
              end)
  end.

Definition sendTelegramMessage (botToken : string) (chatId : JsNum) (text : string)
  : M unit :=
  response <- fetch (SendMessage botToken (JNum chatId) text) ;;
  if negb (ok response) then
    throw (ErrorObject ("Telegram sendMessage failed: "
                        ++ Z_to_string (status response) ++ " " ++ Net.text response))
  else ret tt.

Definition dispatchToGitHub (githubToken owner repo eventType : string)
  (payload : JsVal) : M unit :=
  response <- fetch (Dispatch githubToken owner repo eventType payload) ;;
  if negb (ok response) then
    throw (ErrorObject ("GitHub dispatch failed: "
                        ++ Z_to_string (status response) ++ " " ++ Net.text response))
  else ret tt.

Record ApiResult : Type := {
  r_ok : bool;
  r_status : Z;
  r_text : string;
  r_json : JsVal
}.

Definition githubApiRequest (rt : Runtime) (githubToken method path : string)
  (body : option JsVal) : M ApiResult :=
  response <- fetch (GitHubApi githubToken method path body) ;;
  let text := Net.text response in
  let json := if text =? "" then JNull
              else match JSON_parse rt text with Some v => v | None => JNull end in
  ret {| r_ok := ok response; r_status := status response;
         r_text := text; r_json := json |}.

Definition variablePath (owner repo name : string) : string :=
  "/repos/" ++ owner ++ "/" ++ repo ++ "/actions/variables/" ++ encodeURIComponent name.

Definition getGitHubVariable (rt : Runtime) (githubToken owner repo name : string)
  : M JsVal :=
  result <- githubApiRequest rt githubToken "GET" (variablePath owner repo name) None ;;
  if (r_status result =? 404)%Z then ret JNull
  else if negb (r_ok result) then
    throw (ErrorObject ("GitHub variable read failed: "
                        ++ Z_to_string (r_status result) ++ " " ++ r_text result))
  else ret (or_else (r_json result) JNull).

Definition variableBody (name value : string) : JsVal :=
  JObj [("name", JStr name); ("value", JStr value)].

Definition upsertGitHubVariable (rt : Runtime) (githubToken owner repo name value : string)
  : M unit :=
  update <- githubApiRequest rt githubToken "PATCH" (variablePath owner repo name)
              (Some (variableBody name value)) ;;
  if r_ok update then ret tt
  else if negb (r_status update =? 404)%Z then
    throw (ErrorObject ("GitHub variable update failed: "
                        ++ Z_to_string (r_status update) ++ " " ++ r_text update))
  else
    create <- githubApiRequest rt githubToken "POST"
                ("/repos/" ++ owner ++ "/" ++ repo ++ "/actions/variables")
                (Some (variableBody name value)) ;;
    if negb (r_ok create) then
      throw (ErrorObject ("GitHub variable create failed: "
                          ++ Z_to_string (r_status create) ++ " " ++ r_text create))
    else ret tt.

Inductive ProfileArg : Type :=
| ModeShow
| ModeInvalid (value : string)
| ModeSet (value : string).

Definition parseProfileArg (rawArg : string) : ProfileArg :=
  let raw := toLowerCase (trim rawArg) in
  if (raw =? "") || (raw =? "show") || (raw =? "get") || (raw =? "status") then ModeShow
  else
    let token := firstToken raw in
    if negb (has STRATEGY_PROFILES token) then ModeInvalid token else ModeSet token.

Definition joinLines (lines : list string) : string := String.concat (String "010" EmptyString) lines.

Definition commandHelpText : string :=
  joinLines [
    "Tech_Sniper_IT comandi:";
    "/start - Inizializza il bot";
    "/help - Mostra questa guida";
    "/id - Mostra chat_id corrente";
    "/rules - Mostra regole arbitraggio";
    "/scan [json_prodotto|json_array] - Avvia scan su GitHub Actions";
    "/smoke - Test veloce (pochi prodotti) su GitHub Actions";
    "/status - Stato runtime (via GitHub Actions)";
    "/last [n] - Ultime opportunita da Supabase (via GitHub Actions)";
    "/profile [show|conservative|balanced|aggressive] - Mostra/imposta strategy profile"
  ].

Definition rulesText : string :=
  joinLines [
    "Regole attive:";
    "photography -> MPB + Rebuy (max)";
    "apple_phone -> TrendDevice + Rebuy (max)";
    "general_tech -> Rebuy";
    "Condizioni target: Grado A / Ottimo / Come nuovo";
    "Notifica quando spread > MIN_SPREAD_EUR"
  ].

(** [Number.parseInt(s, 10)]: leading white space, a sign, the longest run
    of decimal digits, and the integer they denote rounded to a double. *)
Fixpoint digitsValue (acc : Z) (s : string) : Z :=
  match s with
  | EmptyString => acc
  | String c rest =>
      if isDigit c then digitsValue (10 * acc + (Z.of_nat (nat_of_ascii c) - 48)) rest
      else acc
  end.

(** Round-to-nearest, ties-to-even, of a natural number to 53 significant bits. *)
Definition roundMagnitude (n : Z) : Z :=
  if (n <? 2 ^ 53)%Z then n
  else
    let k := Z.log2 n - 52 in
    let q := Z.shiftr n k in
    let r := n - Z.shiftl q k in
    let half := 2 ^ (k - 1) in
    let q' := if (half <? r)%Z || ((r =? half)%Z && Z.odd q) then q + 1 else q in
    Z.shiftl q' k.

Definition roundToDouble (negative : bool) (n : Z) : JsNum :=
  let m := roundMagnitude n in
  if (2 ^ 1024 <=? m)%Z then Infty negative
  else Fin (inject_Z (if negative then - m else m)).

Definition parseInt10 (s : string) : JsNum :=
  let s := trimStart s in
  let '(negative, s) :=
    match s with
    | String c rest =>
        if Ascii.eqb c "-" then (true, rest)
        else if Ascii.eqb c "+" then (false, rest)
        else (false, s)
    | EmptyString => (false, s)
    end in
  if takeWhile isDigit s =? "" then NaN
  else roundToDouble negative (digitsValue 0 s).

(** [commandToken.replace(/^\/([^@\s]+).*$/, "$1")]. *)
Definition commandName (commandToken : string) : string :=
  match commandToken with
  | String c rest =>
      let name := takeWhile (fun x => negb (Ascii.eqb x "@" || isWhiteSpace x)) rest in
      let tail := slice (String.length name) rest in
      if Ascii.eqb c "/" && negb (name =? "") && negb (existsChar isLineTerminator tail)
      then name else commandToken
  | EmptyString => commandToken
  end.

(** The local variables of [handler] that the command branches read. *)
Record Locals : Type := {
  botToken : string;
  chatId : JsNum;
  userId : option JsNum;
  githubToken : option string;
  githubOwner : option string;
  githubRepo : option string;
  eventType : string
}.

Definition githubReady (l : Locals) : bool :=
  present (githubToken l) && present (githubOwner l) && present (githubRepo l).

Definition nl : string := String "010" EmptyString.

Definition ok200 : HttpResponse := json 200 [("ok", JBool true)].

Definition configMissing : string :=
  "Config mancante su Vercel: GITHUB_TOKEN/GITHUB_OWNER/GITHUB_REPO.".

Definition reply (l : Locals) (text : string) : M unit :=
  sendTelegramMessage (botToken l) (chatId l) text.

Definition dispatch (l : Locals) (payload : JsVal) : M unit :=
  dispatchToGitHub (tpl (githubToken l)) (tpl (githubOwner l)) (tpl (githubRepo l))
                   (eventType l) payload.

(** [String(chatId)] and [String(userId || "")]. *)
Definition chatIdString (rt : Runtime) (l : Locals) : string :=
  NumberToString rt (chatId l).

Definition userIdString (rt : Runtime) (l : Locals) : string :=
  match userId l with
  | Some n => if truthy (JNum n) then NumberToString rt n else ""
  | None => ""
  end.

(** [value.toLowerCase()] on a value that may not be a string. *)
Definition toLowerCaseOf (v : JsVal) : Completion string :=
  match v with
  | JStr s => Normal (toLowerCase s)
  | _ => Abrupt (ErrorObject "toLowerCase is not a function")
  end.

Definition profileCommand (rt : Runtime) (env : Env) (l : Locals) (args : string)
  : M HttpResponse :=
  if negb (githubReady l) then
    reply l configMissing ;;; ret ok200
  else
    match parseProfileArg args with
    | ModeInvalid _ =>
        reply l "Valore non valido. Usa: /profile conservative | balanced | aggressive" ;;;
        ret ok200
    | ModeShow =>
        variable <- getGitHubVariable rt (tpl (githubToken l)) (tpl (githubOwner l))
                      (tpl (githubRepo l)) STRATEGY_PROFILE_VAR ;;
        current <- lift (toLowerCaseOf
                           (or_else (optProp variable "value")
                                    (JStr (envOrDefault env STRATEGY_PROFILE_VAR "balanced")))) ;;
        reply l ("Profilo strategia attivo: " ++ current ++ nl
                 ++ "Usa /profile conservative|balanced|aggressive") ;;;
        ret ok200
    | ModeSet value =>
        upsertGitHubVariable rt (tpl (githubToken l)) (tpl (githubOwner l))
          (tpl (githubRepo l)) STRATEGY_PROFILE_VAR value ;;;
        reply l ("Profilo strategia aggiornato a '" ++ value
                 ++ "'. Sara applicato alle prossime run.") ;;;
        ret ok200
    end.

Definition scanPayload (rt : Runtime) (l : Locals) (products : option (list JsVal)) : JsVal :=
  JObj ([("source", JStr "telegram");
         ("command", JStr "scan");
         ("chat_id", JStr (chatIdString rt l));
         ("user_id", JStr (userIdString rt l))]
        ++ match products with
           | Some items => [("products", JArr items)]
           | None => []
           end)%list.

(** The part of the [scan] branch that follows the parsing of the argument. *)
Definition scanDispatch (rt : Runtime) (l : Locals) (products : option (list JsVal))
  : M HttpResponse :=
  dispatch l (scanPayload rt l products) ;;;
  match products with
  | Some items =>
      reply l ("Scan accodato su GitHub Actions ("
               ++ Z_to_string (Z.of_nat (List.length items)) ++ " prodotti).")
  | None =>
      reply l "Scan accodato su GitHub Actions (modalita default: sorgenti prodotto configurate nel worker)."
  end ;;;
  ret ok200.

Definition scanCommand (rt : Runtime) (l : Locals) (args : string) : M HttpResponse :=
  if negb (githubReady l) then
    reply l configMissing ;;; ret ok200
  else if negb (args =? "") then
    match parseProductsArg rt args with
    | Abrupt _ =>
        reply l "JSON non valido. Invia un oggetto o array JSON." ;;; ret ok200
    | Normal products =>
        if (List.length products =? 0)%nat then
          reply l "Payload vuoto: nessun prodotto valido." ;;; ret ok200
        else scanDispatch rt l (Some products)
    end
  else scanDispatch rt l None.

Definition product (title : string) (price_eur : Z) (category : string) : JsVal :=
  JObj [("title", JStr title); ("price_eur", num price_eur); ("category", JStr category)].

Definition smokeProducts : list JsVal :=
  [product "Apple iPhone 14 128GB" 650 "apple_phone";
   product "Apple Watch Ultra 2 GPS + Cellular 49mm" 750 "smartwatch";
   product "Valve Steam Deck OLED 1TB" 420 "handheld_console"].

Definition smokeCommand (rt : Runtime) (l : Locals) : M HttpResponse :=
  if negb (githubReady l) then
    reply l configMissing ;;; ret ok200
  else
    let products := smokeProducts in
    dispatch l (JObj [("source", JStr "telegram");
                      ("command", JStr "scan");
                      ("mode", JStr "smoke");
                      ("chat_id", JStr (chatIdString rt l));
                      ("user_id", JStr (userIdString rt l));
                      ("products", JArr products)]) ;;;
    reply l ("Smoke test accodato su GitHub Actions ("
             ++ Z_to_string (Z.of_nat (List.length products)) ++ " prodotti).") ;;;
    ret ok200.

Definition statusCommand (rt : Runtime) (l : Locals) : M HttpResponse :=
  if negb (githubReady l) then
    reply l configMissing ;;; ret ok200
  else
    dispatch l (JObj [("source", JStr "telegram");
                      ("command", JStr "status");
                      ("chat_id", JStr (chatIdString rt l));
                      ("user_id", JStr (userIdString rt l))]) ;;;
    reply l "Richiesta status accodata su GitHub Actions." ;;;
    ret ok200.

(** The [limit] of the [last] branch. *)
Definition lastLimit (args : string) : JsNum :=
  let requested := parseInt10 (if args =? "" then "5" else args) in
  if isFinite requested
  then Math_max (Fin 1) (Math_min requested (Fin (inject_Z MAX_LAST_LIMIT)))
  else Fin 5.

Definition lastCommand (rt : Runtime) (l : Locals) (args : string) : M HttpResponse :=
  if negb (githubReady l) then
    reply l configMissing ;;; ret ok200
  else
    let limit := lastLimit args in
    dispatch l (JObj [("source", JStr "telegram");
                      ("command", JStr "last");
                      ("chat_id", JStr (chatIdString rt l));
                      ("user_id", JStr (userIdString rt l));
                      ("limit", JNum limit)]) ;;;
    reply l ("Richiesta ultime opportunita (" ++ NumberToString rt limit
             ++ ") accodata su GitHub Actions.") ;;;
    ret ok200.

(** The body of the [try] block. *)
Definition commandHandlers (rt : Runtime) (env : Env) (l : Locals)
  (command args : string) : M HttpResponse :=
  if command =? "start" then
    reply l ("Bot operativo." ++ nl ++ commandHelpText) ;;; ret ok200
  else if command =? "help" then
    reply l commandHelpText ;;; ret ok200
  else if command =? "id" then
    reply l ("chat_id: " ++ chatIdString rt l) ;;; ret ok200
  else if command =? "rules" then
    reply l rulesText ;;; ret ok200
  else if command =? "profile" then profileCommand rt env l args
  else if command =? "scan" then scanCommand rt l args
  else if command =? "smoke" then smokeCommand rt l
  else if command =? "status" then statusCommand rt l
  else if command =? "last" then lastCommand rt l args
  else
    reply l ("Comando non riconosciuto." ++ nl ++ commandHelpText) ;;; ret ok200.

Definition errorDetails (error : Thrown) : string :=
  match error with
  | ErrorObject message => message
  | NonError => "unknown_error"
  end.

(** The [catch] block. *)
Definition onError (l : Locals) (error : Thrown) : M HttpResponse :=
  let details := errorDetails error in
  tryCatch (reply l ("Errore comando: " ++ details)) (fun _ => ret tt) ;;;
  ret (json 200 [("ok", JBool false); ("error", JStr details)]).

Definition selectMessage (update : option Update) : option Message :=
  match update with
  | Some u => match message u with Some m => Some m | None => edited_message u end
  | None => None
  end.

Definition chatIdOf (m : option Message) : option JsNum :=
  match m with
  | Some m => match chat m with Some c => chat_id c | None => None end
  | None => None
  end.

Definition userIdOf (m : option Message) : option JsNum :=
  match m with
  | Some m => match from m with Some u => user_id u | None => None end
  | None => None
  end.

(** [v.trim()]: a string method, a TypeError on any other value. *)
Definition trimOf (v : JsVal) : Completion string :=
  match v with
  | JStr s => Normal (trim s)
  | _ => Abrupt (ErrorObject "trim is not a function")
  end.

(** [(message?.text || "").trim()]. *)
Definition textOf (m : option Message) : Completion string :=
  trimOf (or_else (match m with Some m => text m | None => JUndefined end) (JStr "")).

(** The handler up to its [try] block makes no call unless it denies the
    chat: [gates] is that prefix, with the early [return]s as [Respond], an
    error thrown there, which nothing catches, as [Raise], the unauthorized
    chat as [Deny], and the values of the local variables that the [try]
    block starts from as [Route]. *)
Inductive Gate : Type :=
| Respond (response : HttpResponse)
| Raise (error : Thrown)
| Deny (l : Locals)
| Route (l : Locals) (command args : string).

Definition gates (rt : Runtime) (env : Env) (req : Request) : Gate :=
  if negb (method req =? "POST") then
    Respond (json 405 [("ok", JBool false); ("error", JStr "Method not allowed")])
  else
  let webhookSecret := env "TELEGRAM_WEBHOOK_SECRET_TOKEN" in
  let secretHeader := headers req "x-telegram-bot-api-secret-token" in
  if present webhookSecret && differs secretHeader webhookSecret then
    Respond (json 401 [("ok", JBool false); ("error", JStr "Invalid webhook secret")])
  else
  if negb (present (env "TELEGRAM_BOT_TOKEN")) then
    Respond (json 500 [("ok", JBool false); ("error", JStr "Missing env configuration")])
  else
  let message := selectMessage (body req) in
  match textOf message with
  | Abrupt error => Raise error
  | Normal text =>
  match chatIdOf message with
  | Some chat_id =>
      if negb (truthy (JNum chat_id)) || negb (startsWith text "/") then
        Respond (json 200 [("ok", JBool true); ("ignored", JBool true)])
      else
      let l := {| botToken := tpl (env "TELEGRAM_BOT_TOKEN");
                  chatId := chat_id;
                  userId := userIdOf message;
                  githubToken := env "GITHUB_TOKEN";
                  githubOwner := env "GITHUB_OWNER";
                  githubRepo := env "GITHUB_REPO";
                  eventType := envOrDefault env "GITHUB_EVENT_TYPE" DEFAULT_DISPATCH_EVENT |} in
      let allowedChatIds := parseAllowedChatIds (env "TELEGRAM_ALLOWED_CHAT_IDS") in
      if (0 <? List.length allowedChatIds)%nat
         && negb (has allowedChatIds (chatIdString rt l)) then
        Deny l
      else
      let commandToken := firstToken text in
      let command := toLowerCase (commandName commandToken) in
      let args := trim (slice (String.length commandToken) text) in
      Route l command args
  | None =>
      Respond (json 200 [("ok", JBool true); ("ignored", JBool true)])
  end
  end.

Definition handler (rt : Runtime) (env : Env) (req : Request) : M HttpResponse :=
  match gates rt env req with
  | Respond response => ret response
  | Raise error => throw error
  | Deny l =>
      tryCatch (reply l "Chat non autorizzata.") (fun _ => ret tt) ;;;
      ret (json 200 [("ok", JBool true); ("denied", JBool true)])
  | Route l command args =>
      tryCatch (commandHandlers rt env l command args) (onError l)
  end.

End Webhook.

(* ================================================================== *)
(** ** api/scan.js: the direct trigger endpoint *)

Module Scan.

Record Request : Type := {
  method : string;
  headers : string -> option string;
  body : JsVal          (* the parsed JSON body, [JUndefined] when there is none *)
}.

Definition DEFAULT_DISPATCH_EVENT := "scan".

Definition envOrDefault (env : Env) (name fallback : string) : string :=
  match env name with
  | Some value => if trim value =? "" then fallback else trim value
  | None => fallback
  end.

Definition isObjectItem (item : JsVal) : bool := truthy item && typeof_object item.

Definition parseProducts (payload : JsVal) : list JsVal :=
  let value := optProp payload "products" in
  match value with
  | JArr items => filter isObjectItem items
  | _ =>
      if truthy value && typeof_object value then [value]
      else if truthy payload && typeof_object payload && truthy (getProp payload "title")
      then [payload]
      else []
  end.

Definition dispatchToGitHub (githubToken owner repo eventType : string)
  (payload : JsVal) : M unit :=
  response <- fetch (Dispatch githubToken owner repo eventType payload) ;;
  if negb (ok response) then
    throw (ErrorObject ("GitHub dispatch failed: "
                        ++ Z_to_string (status response) ++ " " ++ Net.text response))
  else ret tt.

Definition errorDetails (error : Thrown) : string :=
  match error with
  | ErrorObject message => message
  | NonError => "unknown_error"
  end.

(** The [try] / [catch] that ends both revisions of the endpoint. *)
Definition forward (env : Env) (products : list JsVal) : M HttpResponse :=
  tryCatch
    (dispatchToGitHub (tpl (env "GITHUB_TOKEN")) (tpl (env "GITHUB_OWNER"))
       (tpl (env "GITHUB_REPO"))
       (envOrDefault env "GITHUB_EVENT_TYPE" DEFAULT_DISPATCH_EVENT)
       (JObj [("source", JStr "vercel_scan_api");
              ("command", JStr "scan");
              ("products", JArr products)]) ;;;
     ret (json 202 [("ok", JBool true); ("queued", JBool true);
                    ("product_count", num (Z.of_nat (List.length products)))]))
    (fun error =>
       ret (json 500 [("ok", JBool false); ("error", JStr (errorDetails error))])).

Definition handler (env : Env) (req : Request) : M HttpResponse :=
  if negb (method req =? "POST") then
    ret (json 405 [("ok", JBool false); ("error", JStr "Method not allowed")])
  else
  let scanSecret := env "SCAN_SECRET" in
  let authHeader := match headers req "authorization" with Some h => h | None => "" end in
  if present scanSecret && negb (authHeader =? "Bearer " ++ tpl scanSecret) then
    ret (json 401 [("ok", JBool false); ("error", JStr "Unauthorized")])
  else
  if negb (present (env "GITHUB_TOKEN")) || negb (present (env "GITHUB_OWNER"))
     || negb (present (env "GITHUB_REPO")) then
    ret (json 500 [("ok", JBool false); ("error", JStr "Missing env configuration")])
  else
  let products := parseProducts (or_else (body req) (JObj [])) in
  if (List.length products =? 0)%nat then
    ret (json 400 [("ok", JBool false); ("error", JStr "No valid products supplied")])
  else forward env products.

End Scan.

(* ================================================================== *)
(** ** The revision of api/scan.js that follows the router in
       api/telegram-webhook.js: fail-closed secret, normalized products *)

Module ScanRevised.

(** The own enumerable properties that [{ ...candidate }] copies. *)
Definition spreadProps (candidate : JsVal) : list (string * JsVal) :=
  match candidate with
  | JObj props => props
  | JArr items =>
      combine (map (fun i => Z_to_string (Z.of_nat i)) (seq 0 (List.length items))) items
  | _ => []
  end.

Definition normalize (rt : Runtime) (candidate : JsVal) : Completion (option JsVal) :=
  if negb (truthy candidate) || negb (typeof_object candidate) then Normal None
  else
    let title := match getProp candidate "title" with
                 | JStr s => trim s
                 | _ => ""
                 end in
    let priceRaw := nullish (getProp candidate "price_eur") (getProp candidate "price") in
    match Number_ rt priceRaw with
    | Abrupt e => Abrupt e
    | Normal price =>
        if (title =? "") || negb (isFinite price) || num_leb price (Fin 0)
        then Normal None
        else Normal (Some (JObj (setProp "price_eur" (JNum price)
                                   (setProp "title" (JStr title)
                                      (spreadProps candidate)))))
    end.

(** [value.map((item) => normalize(item)).filter(Boolean)]. *)
Fixpoint normalizeAll (rt : Runtime) (items : list JsVal) : Completion (list JsVal) :=
  match items with
  | [] => Normal []
  | item :: rest =>
      match normalize rt item with
      | Abrupt e => Abrupt e
      | Normal normalized =>
          match normalizeAll rt rest with
          | Abrupt e => Abrupt e
          | Normal others =>
              Normal (match normalized with
                      | Some p => p :: others
                      | None => others
                      end)
          end
      end
  end.

Definition single (c : Completion (option JsVal)) : Completion (list JsVal) :=
  match c with
  | Abrupt e => Abrupt e
  | Normal (Some normalized) => Normal [normalized]
  | Normal None => Normal []
  end.

Definition parseProducts (rt : Runtime) (payload : JsVal) : Completion (list JsVal) :=
  let value := optProp payload "products" in
  match value with
  | JArr items => normalizeAll rt items
  | _ =>
      if truthy value && typeof_object value then single (normalize rt value)
      else if truthy payload && typeof_object payload && truthy (getProp payload "title")
      then single (normalize rt payload)
      else Normal []
  end.

Definition handler (rt : Runtime) (env : Env) (req : Scan.Request) : M HttpResponse :=
  if negb (Scan.method req =? "POST") then
    ret (json 405 [("ok", JBool false); ("error", JStr "Method not allowed")])
  else
  let scanSecret := env "SCAN_SECRET" in
  if negb (present scanSecret) || (trim (tpl scanSecret) =? "") then
    ret (json 500 [("ok", JBool false);
                   ("error", JStr "Missing env configuration: SCAN_SECRET")])
  else
  let authHeader := match Scan.headers req "authorization" with Some h => h | None => "" end in
  if negb (authHeader =? "Bearer " ++ trim (tpl scanSecret)) then
    ret (json 401 [("ok", JBool false); ("error", JStr "Unauthorized")])
  else
  if negb (present (env "GITHUB_TOKEN")) || negb (present (env "GITHUB_OWNER"))
     || negb (present (env "GITHUB_REPO")) then
    ret (json 500 [("ok", JBool false); ("error", JStr "Missing env configuration")])
  else
  products <- lift (parseProducts rt (or_else (Scan.body req) (JObj []))) ;;
  if (List.length products =? 0)%nat then
    ret (json 400 [("ok", JBool false); ("error", JStr "No valid products supplied")])
  else Scan.forward env products.

End ScanRevised.

(* ================================================================== *)
(** ** Vocabulary of the router's properties *)

Module RouterSpec.

Import Webhook.

Definition replyCall (l : Locals) (text : string) : Call :=
  SendMessage (botToken l) (JNum (chatId l)) text.

Definition dispatchCall (l : Locals) (payload : JsVal) : Call :=
  Dispatch (tpl (githubToken l)) (tpl (githubOwner l)) (tpl (githubRepo l))
           (eventType l) payload.

(** The two calls of the upsert, written out: the update of the variable
    resource and the creation in the collection, both with the body
    [{ name, value }]. *)
Definition patchCall (githubToken owner repo name value : string) : Call :=
  GitHubApi githubToken "PATCH"
            ("/repos/" ++ owner ++ "/" ++ repo ++ "/actions/variables/"
             ++ encodeURIComponent name)
            (Some (JObj [("name", JStr name); ("value", JStr value)])).

Definition postCall (githubToken owner repo name value : string) : Call :=
  GitHubApi githubToken "POST" ("/repos/" ++ owner ++ "/" ++ repo ++ "/actions/variables")
            (Some (JObj [("name", JStr name); ("value", JStr value)])).

(** The integer that a text starts with, after leading white space: an
    optional sign and the longest run of decimal digits; none when there is
    no digit. This is the mathematical value, before any rounding. *)
Definition leadingInteger (s : string) : option Z :=
  let s := trimStart s in
  let '(negative, s) :=
    match s with
    | String c rest =>
        if Ascii.eqb c "-" then (true, rest)
        else if Ascii.eqb c "+" then (false, rest)
        else (false, s)
    | EmptyString => (false, s)
    end in
  if takeWhile isDigit s =? "" then None
  else Some (if negative then - digitsValue 0 s else digitsValue 0 s).

Definition isReply (c : Call) : Prop :=
  match c with SendMessage _ _ _ => True | _ => False end.

(** A POST delivery that passes the authentication gate, on a deployment
    that has its bot credential: the requests that reach the routing. *)
Definition admitted (env : Env) (req : Request) : bool :=
  (method req =? "POST")
  && negb (present (env "TELEGRAM_WEBHOOK_SECRET_TOKEN")
           && differs (headers req "x-telegram-bot-api-secret-token")
                      (env "TELEGRAM_WEBHOOK_SECRET_TOKEN"))
  && present (env "TELEGRAM_BOT_TOKEN").

(** The [text] field of the message of an Update, [undefined] without a
    message. *)
Definition fieldText (m : option Message) : JsVal :=
  match m with Some m => text m | None => JUndefined end.

(** The message has the text [s]: its [text] is the string [s], or it has
    no [text], or a falsy one, and [s] is empty. *)
Definition hasText (m : option Message) (s : string) : Prop :=
  fieldText m = JStr s \/ (truthy (fieldText m) = false /\ s = "").

(** The [text] of the message is not a text: it is a truthy value that is
    not a string (a number, [true], an array, an object). *)
Definition malformedText (m : option Message) : bool :=
  match fieldText m with
  | JUndefined | JNull | JStr _ => false
  | JBool b => b
  | JNum n => truthy (JNum n)
  | JArr _ | JObj _ => true
  end.

(** The answer to an Update that is ignored. *)
Definition ignored : HttpResponse := json 200 [("ok", JBool true); ("ignored", JBool true)].

(** What every dispatch of the router carries, for a delivery whose
    selected message is [m]. *)
Definition dispatchInvariant (rt : Runtime) (m : option Message) (c : Call) : Prop :=
  match c with
  | Dispatch _ _ _ _ payload =>
      getProp payload "source" = JStr "telegram"
      /\ (exists command, getProp payload "command" = JStr command)
      /\ (exists id, chatIdOf m = Some id
                     /\ getProp payload "chat_id" = JStr (NumberToString rt id))
      /\ (exists user, getProp payload "user_id" = JStr user
                       /\ (userIdOf m = None -> user = ""))
  | _ => True
  end.

End RouterSpec.

(* ================================================================== *)
(** ** Vocabulary of the trigger endpoint's properties *)

Module TriggerSpec.

Definition onlyTitle : JsVal := JObj [("title", JStr "Only title")].

Definition pricedIphone : JsVal :=
  JObj [("title", JStr "iPhone 14"); ("price_eur", num 500)].

Definition productsBody (items : list JsVal) : JsVal := JObj [("products", JArr items)].

Definition scanDispatchOf (products : list JsVal) : Call :=
  Dispatch "ghp_test" "owner" "repo" "scan"
    (JObj [("source", JStr "vercel_scan_api"); ("command", JStr "scan");
           ("products", JArr products)]).

Definition queued (n : Z) : HttpResponse :=
  json 202 [("ok", JBool true); ("queued", JBool true); ("product_count", num n)].

(** The one call of the endpoint. *)
Definition forwardCall (env : Env) (products : list JsVal) : Call :=
  Dispatch (tpl (env "GITHUB_TOKEN")) (tpl (env "GITHUB_OWNER")) (tpl (env "GITHUB_REPO"))
    (Scan.envOrDefault env "GITHUB_EVENT_TYPE" Scan.DEFAULT_DISPATCH_EVENT)
    (JObj [("source", JStr "vercel_scan_api"); ("command", JStr "scan");
           ("products", JArr products)]).

(** The dispatch backend has its three connection parameters. *)
Definition backendReady (env : Env) : bool :=
  present (env "GITHUB_TOKEN") && present (env "GITHUB_OWNER") && present (env "GITHUB_REPO").

End TriggerSpec.

(* ================================================================== *)
(** ** Predicates on computations *)

(** [emits P m]: whatever the network answers, [m] only adds calls that
    satisfy [P] to the trace, and keeps the calls made before it. *)
Definition emits {A} (P : Call -> Prop) (m : M A) : Prop :=
  forall net tr c tr', m net tr = (c, tr') ->
    exists new, tr' = (tr ++ new)%list /\ Forall P new.

(** [returns x m]: when [m] completes normally, its value is [x]. *)
Definition returns {A} (x : A) (m : M A) : Prop :=
  forall net tr a tr', m net tr = (Normal a, tr') -> a = x.

(* ================================================================== *)
(** ** Stand-ins used by the closed examples *)

Module Sample.

Definition q : string := String "034" EmptyString.

(** The argument of the [/scan] test of the repository. *)
Definition iphoneText : string :=
  "{" ++ q ++ "title" ++ q ++ ":" ++ q ++ "iPhone 14" ++ q ++ ","
      ++ q ++ "price_eur" ++ q ++ ":500,"
      ++ q ++ "category" ++ q ++ ":" ++ q ++ "apple_phone" ++ q ++ "}".

Definition iphone : JsVal :=
  JObj [("title", JStr "iPhone 14"); ("price_eur", num 500);
        ("category", JStr "apple_phone")].

(** An array that holds the product among values that are not objects. *)
Definition mixedText : string := "[7,null," ++ iphoneText ++ "]".

Definition mixed : JsVal := JArr [num 7; JNull; iphone].

(** The body that the variable store answers a read with. *)
Definition aggressiveText : string :=
  "{" ++ q ++ "name" ++ q ++ ":" ++ q ++ "STRATEGY_PROFILE" ++ q ++ ","
      ++ q ++ "value" ++ q ++ ":" ++ q ++ "aggressive" ++ q ++ "}".

Definition aggressive : JsVal :=
  JObj [("name", JStr "STRATEGY_PROFILE"); ("value", JStr "aggressive")].

(** A runtime that knows four JSON texts, converts numbers, booleans and
    [null] to numbers, and prints integers. *)
Definition runtime : Runtime := {|
  JSON_parse := fun s =>
    if s =? iphoneText then Some iphone
    else if s =? aggressiveText then Some aggressive
    else if s =? mixedText then Some mixed
    else if s =? "[]" then Some (JArr [])
    else None;
  Number_ := fun v =>
    match v with
    | JNum n => Normal n
    | JNull => Normal (Fin 0)
    | JBool b => Normal (Fin (if b then 1 else 0))
    | _ => Normal NaN
    end;
  NumberToString := fun n =>
    match n with
    | NaN => "NaN"
    | Infty negative => if negative then "-Infinity" else "Infinity"
    | Fin x => Z_to_string (Qnum x / Zpos (Qden x))
    end
|}.

(** The environment that the tests of the repository set up. *)
Definition env (allowed : string) : Env := fun name =>
  if name =? "TELEGRAM_BOT_TOKEN" then Some "token"
  else if name =? "GITHUB_TOKEN" then Some "ghp_test"
  else if name =? "GITHUB_OWNER" then Some "owner"
  else if name =? "GITHUB_REPO" then Some "repo"
  else if name =? "GITHUB_EVENT_TYPE" then Some "scan"
  else if name =? "TELEGRAM_WEBHOOK_SECRET_TOKEN" then Some "webhook_secret"
  else if name =? "TELEGRAM_ALLOWED_CHAT_IDS" then Some allowed
  else if name =? "SCAN_SECRET" then Some "scan_secret"
  else None.

(** The same environment with one variable deleted. *)
Definition without (name : string) (e : Env) : Env := fun k =>
  if k =? name then None else e k.

Definition header (name value : string) : string -> option string := fun k =>
  if k =? name then Some value else None.

(** A webhook delivery from chat 123, sender 999. *)
Definition delivery (secret text : string) : Webhook.Request := {|
  Webhook.method := "POST";
  Webhook.headers := header "x-telegram-bot-api-secret-token" secret;
  Webhook.body := Some {|
    Webhook.message := Some {|
      Webhook.chat := Some {| Webhook.chat_id := Some (Fin 123) |};
      Webhook.from := Some {| Webhook.user_id := Some (Fin 999) |};
      Webhook.text := JStr text |};
    Webhook.edited_message := None |}
|}.

(** The same delivery sent with another HTTP method. *)
Definition deliveryBy (method secret text : string) : Webhook.Request := {|
  Webhook.method := method;
  Webhook.headers := Webhook.headers (delivery secret text);
  Webhook.body := Webhook.body (delivery secret text)
|}.

(** The local variables that the router derives from such a delivery. *)
Definition locals : Webhook.Locals := {|
  Webhook.botToken := "token";
  Webhook.chatId := Fin 123;
  Webhook.userId := Some (Fin 999);
  Webhook.githubToken := Some "ghp_test";
  Webhook.githubOwner := Some "owner";
  Webhook.githubRepo := Some "repo";
  Webhook.eventType := "scan"
|}.

Definition trigger (authorization : string) (body : JsVal) : Scan.Request := {|
  Scan.method := "POST";
  Scan.headers := header "authorization" authorization;
  Scan.body := body
|}.

(** Networks: every call succeeds; every call is answered with one status. *)
Definition answering (status : Z) : Network :=
  fun _ _ => Fulfilled {| status := status; text := "" |}.

Definition allOk : Network := answering 200.

(** Dispatches fail with a 500, replies go through. *)
Definition dispatchDown : Network := fun _ c =>
  match c with
  | Dispatch _ _ _ _ _ => Fulfilled {| status := 500; text := "down" |}
  | _ => Fulfilled {| status := 200; text := "" |}
  end.

(** A variable store without the variable: PATCH is a 404, POST creates. *)
Definition emptyStore : Network := fun _ c =>
  match c with
  | GitHubApi _ method _ _ =>
      if method =? "POST" then Fulfilled {| status := 201; text := "" |}
      else Fulfilled {| status := 404; text := "" |}
  | _ => Fulfilled {| status := 200; text := "" |}
  end.

(** A variable store that holds the variable: a read returns it, a PATCH
    is answered 204. *)
Definition profileStore : Network := fun _ c =>
  match c with
  | GitHubApi _ method _ _ =>
      if method =? "GET" then Fulfilled {| status := 200; text := aggressiveText |}
      else Fulfilled {| status := 204; text := "" |}
  | _ => Fulfilled {| status := 200; text := "" |}
  end.

(** One test: the handler on a delivery of [text], from an empty trace. *)
Definition run (allowed text : string) (net : Network)
  : Completion HttpResponse * list Call :=
  Webhook.handler runtime (env allowed) (delivery "webhook_secret" text) net [].

Definition variablesPath : string := "/repos/owner/repo/actions/variables".

(** An edited message from chat 123 that names no sender. *)
Definition anonymousDelivery (text : string) : Webhook.Request := {|
  Webhook.method := "POST";
  Webhook.headers := header "x-telegram-bot-api-secret-token" "webhook_secret";
  Webhook.body := Some {|
    Webhook.message := None;
    Webhook.edited_message := Some {|
      Webhook.chat := Some {| Webhook.chat_id := Some (Fin 123) |};
      Webhook.from := None;
      Webhook.text := JStr text |} |}
|}.

Definition anonymousLocals : Webhook.Locals := {|
  Webhook.botToken := "token";
  Webhook.chatId := Fin 123;
  Webhook.userId := None;
  Webhook.githubToken := Some "ghp_test";
  Webhook.githubOwner := Some "owner";
  Webhook.githubRepo := Some "repo";
  Webhook.eventType := "scan"
|}.

(** A delivery whose message has the number 12345 where its text should
    be, from chat 123 or without a chat. *)
Definition numericText (chat : option Webhook.Chat) : Webhook.Request := {|
  Webhook.method := "POST";
  Webhook.headers := header "x-telegram-bot-api-secret-token" "webhook_secret";
  Webhook.body := Some {|
    Webhook.message := Some {|
      Webhook.chat := chat;
      Webhook.from := None;
      Webhook.text := num 12345 |};
    Webhook.edited_message := None |}
|}.

(** A delivery from chat 123 whose message has no text. *)
Definition textless : Webhook.Request := {|
  Webhook.method := "POST";
  Webhook.headers := header "x-telegram-bot-api-secret-token" "webhook_secret";
  Webhook.body := Some {|
    Webhook.message := Some {|
      Webhook.chat := Some {| Webhook.chat_id := Some (Fin 123) |};
      Webhook.from := None;
      Webhook.text := JUndefined |};
    Webhook.edited_message := None |}
|}.

(** The chat transport refuses every reply; the rest goes through. *)
Definition repliesDown : Network := fun _ c =>
  match c with
  | SendMessage _ _ _ => Fulfilled {| status := 403; text := "blocked" |}
  | _ => Fulfilled {| status := 200; text := "" |}
  end.

(** The variable store is down; the rest goes through. *)
Definition storeDown : Network := fun _ c =>
  match c with
  | GitHubApi _ _ _ _ => Rejected (ErrorObject "fetch failed")
  | _ => Fulfilled {| status := 200; text := "" |}
  end.

End Sample.

(* ================================================================== *)
(** ** Reasoning about the effect monad *)

(* ================================================================== *)
(** ** Vocabulary of the further properties *)

Module MoreSpec.

Import Webhook.

(** Every character of a string satisfies [p]. *)
Fixpoint allChars (p : ascii -> bool) (s : string) : bool :=
  match s with
  | EmptyString => true
  | String c rest => p c && allChars p rest
  end.

(** The first character, if there is one, does not satisfy [p]. *)
Definition headNot (p : ascii -> bool) (s : string) : bool :=
  match s with
  | EmptyString => true
  | String c _ => negb (p c)
  end.

(** A string without white space at either end. *)
Definition trimmed (s : string) : Prop := trim s = s.

(** What may stand in a command name: anything but ["@"] and white space. *)
Definition nameChar (c : ascii) : bool := negb (Ascii.eqb c "@" || isWhiteSpace c).

Definition notWhite (c : ascii) : bool := negb (isWhiteSpace c).

(** The five commands that need the dispatch backend or the variable store. *)
Definition backendCommands : list string := ["profile"; "scan"; "smoke"; "status"; "last"].

(** The text of the reply of the commands that are answered locally. *)
Definition localReply (rt : Runtime) (l : Locals) (command : string) : string :=
  if command =? "start" then "Bot operativo." ++ nl ++ commandHelpText
  else if command =? "help" then commandHelpText
  else if command =? "id" then "chat_id: " ++ chatIdString rt l
  else if command =? "rules" then rulesText
  else "Comando non riconosciuto." ++ nl ++ commandHelpText.

Definition isDispatch (c : Call) : bool :=
  match c with Dispatch _ _ _ _ _ => true | _ => false end.

(** [atMost w n m]: whatever the network answers, the calls that [m] adds
    to the trace weigh at most [n], each call [c] weighing [w c]. *)
Definition weight (w : Call -> nat) (calls : list Call) : nat :=
  list_sum (map w calls).

Definition atMost {A} (w : Call -> nat) (n : nat) (m : M A) : Prop :=
  forall net tr c tr', m net tr = (c, tr') ->
    exists new, tr' = (tr ++ new)%list /\ (weight w new <= n)%nat.

(** A store without the variable and a chat that refuses every reply: the
    longest run of the router. *)
Definition worstCase : Network := fun _ c =>
  match c with
  | GitHubApi _ method _ _ =>
      if method =? "POST" then Fulfilled {| status := 201; Net.text := "" |}
      else Fulfilled {| status := 404; Net.text := "" |}
  | SendMessage _ _ _ => Fulfilled {| status := 403; Net.text := "blocked" |}
  | Dispatch _ _ _ _ _ => Fulfilled {| status := 204; Net.text := "" |}
  end.

(** Two weights: a dispatch counts, every call counts. *)
Definition dispatchWeight (c : Call) : nat := if isDispatch c then 1 else 0.
Definition callWeight (c : Call) : nat := 1.

(** A call to GitHub names a token, an owner and a repository that are not
    empty, and a dispatch an event type that is not empty either. *)
Definition wellAddressed (c : Call) : Prop :=
  match c with
  | SendMessage _ _ _ => True
  | Dispatch githubToken owner repo eventType _ =>
      githubToken <> "" /\ owner <> "" /\ repo <> "" /\ eventType <> ""
  | GitHubApi githubToken _ path _ =>
      githubToken <> ""
      /\ exists owner repo rest,
           owner <> "" /\ repo <> ""
           /\ path = "/repos/" ++ owner ++ "/" ++ repo ++ "/actions/variables" ++ rest
  end.

(** A call to the variable store either reads, without a body, or writes
    [STRATEGY_PROFILE] with one of the three profiles. *)
Definition profileAccess (c : Call) : Prop :=
  match c with
  | GitHubApi _ method _ body =>
      (method = "GET" /\ body = None)
      \/ ((method = "PATCH" \/ method = "POST")
          /\ exists value, In value ["conservative"; "balanced"; "aggressive"]
                           /\ body = Some (JObj [("name", JStr "STRATEGY_PROFILE");
                                                 ("value", JStr value)]))
  | _ => True
  end.

(** A branch that replies and returns: one call when the reply goes
    through, and the error reply after it when it does not. *)
Definition repliedOnce (l : Locals) (text : string) (tr : list Call)
  (outcome : Completion HttpResponse * list Call) : Prop :=
  outcome = (Normal ok200, (tr ++ [RouterSpec.replyCall l text])%list)
  \/ exists e,
       outcome = (Normal (json 200 [("ok", JBool false); ("error", JStr e)]),
                  (tr ++ [RouterSpec.replyCall l text; RouterSpec.replyCall l ("Errore comando: " ++ e)])%list).

(** A branch that replies and returns, told by what the reply is answered:
    [{ ok: true }] after the one call when it is answered with a success;
    when it is refused, or the call fails, the error reply follows, whatever
    that one is answered, and the response carries the error. *)
Definition repliedThen (net : Network) (l : Locals) (text : string) (tr : list Call)
  (outcome : Completion HttpResponse * list Call) : Prop :=
  let failed (details : string) :=
    outcome = (Normal (json 200 [("ok", JBool false); ("error", JStr details)]),
               (tr ++ [RouterSpec.replyCall l text;
                       RouterSpec.replyCall l ("Errore comando: " ++ details)])%list) in
  match net tr (RouterSpec.replyCall l text) with
  | Fulfilled r =>
      if ((200 <=? status r) && (status r <=? 299))%Z
      then outcome = (Normal (json 200 [("ok", JBool true)]),
                      (tr ++ [RouterSpec.replyCall l text])%list)
      else failed ("Telegram sendMessage failed: " ++ Z_to_string (status r) ++ " "
                   ++ Net.text r)
  | Rejected (ErrorObject message) => failed message
  | Rejected NonError => failed "unknown_error"
  end.

(** An object in the sense of JavaScript, as JSON has them: an object or an
    array, not [null]. *)
Definition isObject (v : JsVal) : bool :=
  match v with JObj _ | JArr _ => true | _ => false end.

(** The product objects that a JSON value holds: the objects among the
    items of an array; the value itself when it is a single object. *)
Definition productObjects (parsed : JsVal) : list JsVal :=
  match parsed with
  | JArr items => filter isObject items
  | JObj _ => [parsed]
  | _ => []
  end.

(** [fenceStripped arg payload]: [payload] is what is left of the argument
    [arg] once its code fence is stripped. Either the argument has no
    fence, and is the payload; or it is an opening fence, a language tag of
    letters that may be empty, a text that does not go on with a letter, and
    a closing fence, and the payload is that text trimmed. *)
Inductive fenceStripped : string -> string -> Prop :=
| bare (arg : string) :
    startsWith arg "```" = false -> fenceStripped arg arg
| fenced (lang inner : string) :
    allChars isAsciiLetter lang = true ->
    headNot isAsciiLetter inner = true ->
    fenceStripped ("```" ++ lang ++ inner ++ "```") (trim inner).


(** The text of the answer to [/profile]. *)
Definition activeProfile (current : string) : string :=
  "Profilo strategia attivo: " ++ current ++ nl
  ++ "Usa /profile conservative|balanced|aggressive".

(** The text that confirms a write of the profile. *)
Definition profileUpdated (value : string) : string :=
  "Profilo strategia aggiornato a '" ++ value ++ "'. Sara applicato alle prossime run.".

(** The read of a variable, as a call: a GET of the variable resource,
    without a body. *)
Definition getCall (githubToken owner repo name : string) : Call :=
  GitHubApi githubToken "GET"
            ("/repos/" ++ owner ++ "/" ++ repo ++ "/actions/variables/"
             ++ encodeURIComponent name)
            None.

(** What the endpoint answers once it has products to forward: 202 when
    the dispatch is answered with a success, 500 with the error otherwise. *)
Definition forwarded (net : Network) (tr : list Call) (call : Call) (count : nat)
  (response : HttpResponse) : Prop :=
  match net tr call with
  | Fulfilled r =>
      if ok r then response = TriggerSpec.queued (Z.of_nat count)
      else response = json 500 [("ok", JBool false);
                                ("error", JStr ("GitHub dispatch failed: "
                                                ++ Z_to_string (status r) ++ " "
                                                ++ Net.text r))]
  | Rejected e =>
      response = json 500 [("ok", JBool false); ("error", JStr (Scan.errorDetails e))]
  end.

(** A candidate sent with untrimmed title and the price under [price]. *)
Definition rawIphone : JsVal :=
  JObj [("title", JStr "  iPhone 14 "); ("price", num 500); ("seller", JStr "warehouse")].

(** A product as the revised endpoint forwards it. *)
Definition normalized (p : JsVal) : Prop :=
  exists title price,
    getProp p "title" = JStr title /\ title <> "" /\ trimmed title
    /\ getProp p "price_eur" = JNum (Fin price) /\ (0 < price)%Q.

End MoreSpec.

Section MonadFacts.

Context {A B : Type}.

Lemma fetch_run (c : Call) (net : Network) (tr : list Call) :
  fetch c net tr =
  (match net tr c with Rejected e => Abrupt e | Fulfilled r => Normal r end,
   (tr ++ [c])%list).
Proof. reflexivity. Qed.

Lemma tryCatch_abrupt (m : M A) (h : Thrown -> M A) net tr e tr' :
  m net tr = (Abrupt e, tr') -> tryCatch m h net tr = h e net tr'.
Proof. intros H. unfold tryCatch. now rewrite H. Qed.

End MonadFacts.

Section Emits.

Context {A B : Type} (P : Call -> Prop).

Lemma emits_ret (a : A) : emits P (ret a).
Proof.
  intros net tr c tr' H. inversion H; subst.
  exists []. split; [now rewrite app_nil_r | constructor].
Qed.

Lemma emits_throw (e : Thrown) : emits P (@throw A e).
Proof.
  intros net tr c tr' H. inversion H; subst.
  exists []. split; [now rewrite app_nil_r | constructor].
Qed.

Lemma emits_lift (c : Completion A) : emits P (lift c).
Proof.
  intros net tr c' tr' H. inversion H; subst.
  exists []. split; [now rewrite app_nil_r | constructor].
Qed.

Lemma emits_fetch (c : Call) : P c -> emits P (fetch c).
Proof.
  intros Hc net tr c' tr' H. rewrite fetch_run in H. inversion H; subst.
  exists [c]. split; [reflexivity | now repeat constructor].
Qed.

Lemma emits_bind (m : M A) (k : A -> M B) :
  emits P m -> (forall a, emits P (k a)) -> emits P (bind m k).
Proof.
  intros Hm Hk net tr c tr' H. unfold bind in H.
  destruct (m net tr) as [[a | e] tr1] eqn:E.
  - destruct (Hm _ _ _ _ E) as (n1 & -> & F1).
    destruct (Hk a _ _ _ _ H) as (n2 & -> & F2).
    exists (n1 ++ n2)%list. split; [now rewrite app_assoc | now apply Forall_app].
  - inversion H; subst. eapply Hm; eauto.
Qed.

Lemma emits_tryCatch (m : M A) (h : Thrown -> M A) :
  emits P m -> (forall e, emits P (h e)) -> emits P (tryCatch m h).
Proof.
  intros Hm Hh net tr c tr' H. unfold tryCatch in H.
  destruct (m net tr) as [[a | e] tr1] eqn:E.
  - inversion H; subst. eapply Hm; eauto.
  - destruct (Hm _ _ _ _ E) as (n1 & -> & F1).
    destruct (Hh e _ _ _ _ H) as (n2 & -> & F2).
    exists (n1 ++ n2)%list. split; [now rewrite app_assoc | now apply Forall_app].
Qed.

End Emits.

Lemma returns_ret {A} (x : A) : returns x (ret x).
Proof. intros net tr a tr' H. now inversion H. Qed.

Lemma returns_bind {A B} (x : B) (m : M A) (k : A -> M B) :
  (forall a, returns x (k a)) -> returns x (bind m k).
Proof.
  intros Hk net tr b tr' H. unfold bind in H.
  destruct (m net tr) as [[a | e] tr1]; [eapply Hk; eauto | discriminate].
Qed.

(* ================================================================== *)
(** ** The remote variable client *)

Section RemoteVariable.

Variable rt : Runtime.
Variables githubToken owner repo name value : string.

Local Abbreviation patchCall := (RouterSpec.patchCall githubToken owner repo name value).
Local Abbreviation postCall := (RouterSpec.postCall githubToken owner repo name value).

Lemma ok_not_404 (r : Response) : status r = 404 -> ok r = false.
Proof. unfold ok. intros ->. reflexivity. Qed.

(** C4. The upsert always issues the PATCH first; it issues the POST, with
    the same [{ name, value }] body, exactly when the PATCH is answered 404;
    any other answer that is not a success, from either step, raises an
    error; and it returns normally only when the last call it issued was
    answered with a success, so that the value is stored. *)
Theorem upsertGitHubVariable_protocol (net : Network) (tr : list Call) :
  exists c rest,
    Webhook.upsertGitHubVariable rt githubToken owner repo name value net tr
      = (c, (tr ++ patchCall :: rest)%list)
    /\ (rest = [] \/ rest = [postCall])
    /\ (rest = [postCall] <-> exists r, net tr patchCall = Fulfilled r /\ status r = 404)
    /\ (forall r, net tr patchCall = Fulfilled r -> ok r = false -> status r <> 404 ->
          c = Abrupt (ErrorObject ("GitHub variable update failed: "
                                   ++ Z_to_string (status r) ++ " " ++ text r)))
    /\ (forall r r', net tr patchCall = Fulfilled r -> status r = 404 ->
          net (tr ++ [patchCall])%list postCall = Fulfilled r' -> ok r' = false ->
          c = Abrupt (ErrorObject ("GitHub variable create failed: "
                                   ++ Z_to_string (status r') ++ " " ++ text r')))
    /\ (c = Normal tt ->
          (rest = [] /\ exists r, net tr patchCall = Fulfilled r /\ ok r = true)
          \/ (rest = [postCall] /\ exists r,
                net (tr ++ [patchCall])%list postCall = Fulfilled r /\ ok r = true)).
Proof.
  unfold Webhook.upsertGitHubVariable, Webhook.githubApiRequest, bind.
  rewrite fetch_run.
  change (GitHubApi githubToken "PATCH" (Webhook.variablePath owner repo name)
            (Some (Webhook.variableBody name value))) with patchCall.
  destruct (net tr patchCall) as [e | u] eqn:Eu.
  - exists (Abrupt e), []. repeat split; try (now left); try discriminate.
    + intros (r & Hr & _). discriminate.
  - cbn [ret Webhook.r_ok Webhook.r_status Webhook.r_text].
    destruct (ok u) eqn:Eok.
    + exists (Normal tt), []. repeat split; try (now left); try discriminate.
      * intros (r & Hr & H404). inversion Hr; subst r.
        rewrite (ok_not_404 _ H404) in Eok. discriminate.
      * intros r Hr Hk. inversion Hr; subst r. congruence.
      * intros r r' Hr H404. inversion Hr; subst r.
        rewrite (ok_not_404 _ H404) in Eok. discriminate.
      * intros _. left. split; [reflexivity | eauto].
    + destruct (status u =? 404)%Z eqn:E404; cbn [negb].
      * apply Z.eqb_eq in E404.
        rewrite fetch_run.
        change (GitHubApi githubToken "POST"
                  ("/repos/" ++ owner ++ "/" ++ repo ++ "/actions/variables")
                  (Some (Webhook.variableBody name value))) with postCall.
        rewrite <- app_assoc. cbn [app].
        destruct (net (tr ++ [patchCall])%list postCall) as [e | c'] eqn:Ec.
        -- exists (Abrupt e), [postCall]. repeat split; try (now right); try discriminate.
           ++ intros _. eauto.
           ++ intros r Hr _ Hne. inversion Hr; subst r. congruence.
        -- cbn [ret Webhook.r_ok Webhook.r_status Webhook.r_text].
           destruct (ok c') eqn:Eok'; cbn [negb].
           ++ exists (Normal tt), [postCall].
              repeat split; try (now right); try discriminate.
              ** intros _. eauto.
              ** intros r Hr _ Hne. inversion Hr; subst r. congruence.
              ** intros r r' _ _ Hr' Hk. inversion Hr'; subst r'. congruence.
              ** intros _. right. split; [reflexivity | eauto].
           ++ exists (Abrupt (ErrorObject ("GitHub variable create failed: "
                        ++ Z_to_string (status c') ++ " " ++ text c'))), [postCall].
              repeat split; try (now right); try discriminate.
              ** intros _. eauto.
              ** intros r Hr _ Hne. inversion Hr; subst r. congruence.
              ** intros r r' _ _ Hr' _. inversion Hr'; subst r'. reflexivity.
      * apply Z.eqb_neq in E404.
        exists (Abrupt (ErrorObject ("GitHub variable update failed: "
                  ++ Z_to_string (status u) ++ " " ++ text u))), [].
        repeat split; try (now left); try discriminate.
        -- intros (r & Hr & H404). inversion Hr; subst r. congruence.
        -- intros r Hr _ _. inversion Hr; subst r. reflexivity.
        -- intros r r' Hr H404. inversion Hr; subst r. congruence.
Qed.

End RemoteVariable.

Lemma upsertGitHubVariable_protocol_witness :
  exists c,
    Webhook.upsertGitHubVariable Sample.runtime "ghp_test" "owner" "repo"
      "STRATEGY_PROFILE" "balanced" Sample.emptyStore []
    = (c, [GitHubApi "ghp_test" "PATCH" "/repos/owner/repo/actions/variables/STRATEGY_PROFILE"
             (Some (JObj [("name", JStr "STRATEGY_PROFILE"); ("value", JStr "balanced")]));
           GitHubApi "ghp_test" "POST" "/repos/owner/repo/actions/variables"
             (Some (JObj [("name", JStr "STRATEGY_PROFILE"); ("value", JStr "balanced")]))]).
Proof.
  destruct (upsertGitHubVariable_protocol Sample.runtime "ghp_test" "owner" "repo"
              "STRATEGY_PROFILE" "balanced" Sample.emptyStore [])
    as (c & rest & Hrun & _ & Hpost & _).
  exists c. rewrite Hrun.
  rewrite (proj2 Hpost (ex_intro _ {| status := 404; text := "" |} (conj eq_refl eq_refl))).
  reflexivity.
Defined.

(* ================================================================== *)
(** ** The command router *)

Module RouterFacts.

Import Webhook RouterSpec.

Lemma reply_run (l : Locals) (text : string) net tr :
  reply l text net tr =
  (match net tr (replyCall l text) with
   | Rejected e => Abrupt e
   | Fulfilled r =>
       if ok r then Normal tt
       else Abrupt (ErrorObject ("Telegram sendMessage failed: "
                                 ++ Z_to_string (status r) ++ " " ++ Net.text r))
   end, (tr ++ [replyCall l text])%list).
Proof.
  unfold reply, sendTelegramMessage, bind. rewrite fetch_run. fold (replyCall l text).
  destruct (net tr (replyCall l text)) as [e | r]; [reflexivity |].
  destruct (ok r); reflexivity.
Qed.

Lemma dispatch_run (l : Locals) (payload : JsVal) net tr :
  dispatch l payload net tr =
  (match net tr (dispatchCall l payload) with
   | Rejected e => Abrupt e
   | Fulfilled r =>
       if ok r then Normal tt
       else Abrupt (ErrorObject ("GitHub dispatch failed: "
                                 ++ Z_to_string (status r) ++ " " ++ Net.text r))
   end, (tr ++ [dispatchCall l payload])%list).
Proof.
  unfold dispatch, dispatchToGitHub, bind. rewrite fetch_run.
  fold (dispatchCall l payload).
  destruct (net tr (dispatchCall l payload)) as [e | r]; [reflexivity |].
  destruct (ok r); reflexivity.
Qed.

(** A reply whose failure is swallowed: one call, no error. *)
Lemma best_effort_reply (l : Locals) (text : string) net tr :
  tryCatch (reply l text) (fun _ => ret tt) net tr
  = (Normal tt, (tr ++ [replyCall l text])%list).
Proof.
  unfold tryCatch. rewrite reply_run.
  destruct (net tr (replyCall l text)) as [e | r]; [reflexivity |].
  destruct (ok r); reflexivity.
Qed.

Lemma onError_run (l : Locals) (e : Thrown) net tr :
  onError l e net tr
  = (Normal (json 200 [("ok", JBool false); ("error", JStr (errorDetails e))]),
     (tr ++ [replyCall l ("Errore comando: " ++ errorDetails e)])%list).
Proof. unfold onError, bind. rewrite best_effort_reply. reflexivity. Qed.

Lemma emits_reply (P : Call -> Prop) (l : Locals) (text : string) :
  (forall c, isReply c -> P c) -> emits P (reply l text).
Proof.
  intros HP net tr c tr' H. rewrite reply_run in H. inversion H; subst.
  exists [replyCall l text]. split; [reflexivity |].
  constructor; [apply HP; exact I | constructor].
Qed.

Lemma emits_dispatch (P : Call -> Prop) (l : Locals) (payload : JsVal) :
  P (dispatchCall l payload) -> emits P (dispatch l payload).
Proof.
  intros HP net tr c tr' H. rewrite dispatch_run in H. inversion H; subst.
  exists [dispatchCall l payload]. split; [reflexivity | now repeat constructor].
Qed.

Lemma emits_onError (P : Call -> Prop) (l : Locals) (e : Thrown) :
  (forall c, isReply c -> P c) -> emits P (onError l e).
Proof.
  intros HP net tr c tr' H. rewrite onError_run in H. inversion H; subst.
  eexists. split; [reflexivity |].
  constructor; [apply HP; exact I | constructor].
Qed.

(** Every [return] of the [try] block sends [{ ok: true }] with status 200. *)
Lemma commandHandlers_returns_ok200 rt env l command args :
  returns ok200 (commandHandlers rt env l command args).
Proof.
  unfold commandHandlers, profileCommand, scanCommand, scanDispatch,
    smokeCommand, statusCommand, lastCommand.
  repeat match goal with
         | |- returns _ (ret _) => apply returns_ret
         | |- returns _ (bind _ _) => apply returns_bind; intros
         | |- returns _ (if ?b then _ else _) => destruct b
         | |- returns _ (match ?x with _ => _ end) => destruct x
         end.
Qed.

(** Past the gates, the handler is the [try] block under its [catch]. *)
Lemma handler_routed rt env req l command args :
  gates rt env req = Route l command args ->
  handler rt env req = tryCatch (commandHandlers rt env l command args) (onError l).
Proof. intros H. unfold handler. now rewrite H. Qed.

(** What [gates] tells about the local variables it hands over. *)
Lemma gates_route_locals rt env req l command args :
  gates rt env req = Route l command args ->
  chatIdOf (selectMessage (body req)) = Some (chatId l)
  /\ userId l = userIdOf (selectMessage (body req)).
Proof.
  unfold gates. intros H.
  repeat match type of H with
         | (if ?b then _ else _) = _ => destruct b; try discriminate
         | match ?x with _ => _ end = _ => destruct x eqn:?; try discriminate
         end.
  inversion H; subst. cbn. auto.
Qed.

(** A request that is not a POST never reaches the secret check: it is
    answered 405, without any outbound call. *)
Lemma non_post_is_405 rt env req net tr :
  method req <> "POST" ->
  handler rt env req net tr
  = (Normal (json 405 [("ok", JBool false); ("error", JStr "Method not allowed")]), tr).
Proof.
  intros Hm. unfold handler, gates.
  destruct (String.eqb_spec (method req) "POST"); [contradiction | reflexivity].
Qed.

(** C5. With a webhook secret configured and a secret header that is not
    exactly that secret, a POST is answered 401 and a request with any other
    method is answered 405; either way no outbound call is made: the trace
    of calls is left as it was. *)
Theorem invalid_secret_is_rejected rt env req net tr secret :
  env "TELEGRAM_WEBHOOK_SECRET_TOKEN" = Some secret ->
  secret <> "" ->
  headers req "x-telegram-bot-api-secret-token" <> Some secret ->
  (method req = "POST" ->
   handler rt env req net tr
   = (Normal (json 401 [("ok", JBool false); ("error", JStr "Invalid webhook secret")]),
      tr))
  /\ (method req <> "POST" ->
      handler rt env req net tr
      = (Normal (json 405 [("ok", JBool false); ("error", JStr "Method not allowed")]),
         tr)).
Proof.
  intros Hs Hne Hh. split; [| apply non_post_is_405].
  intros Hm. unfold handler, gates. rewrite Hm, Hs. cbn.
  destruct (String.eqb_spec secret ""); [contradiction |]. cbn.
  destruct (headers req "x-telegram-bot-api-secret-token") as [h |] eqn:E; cbn.
  - destruct (String.eqb_spec h secret); [subst; contradiction | reflexivity].
  - reflexivity.
Qed.

Lemma invalid_secret_is_rejected_witness :
  handler Sample.runtime (Sample.env "") (Sample.delivery "wrong" "/scan")
          Sample.allOk []
  = (Normal (json 401 [("ok", JBool false); ("error", JStr "Invalid webhook secret")]),
     []).
Proof.
  apply (proj1 (invalid_secret_is_rejected Sample.runtime (Sample.env "")
                  (Sample.delivery "wrong" "/scan") Sample.allOk [] "webhook_secret"
                  eq_refl ltac:(discriminate) ltac:(discriminate))).
  reflexivity.
Defined.

(** A GET with a wrong secret, on a deployment with a secret: the answer is
    405, not 401. *)
Lemma wrong_secret_by_get_is_405 :
  Sample.env "" "TELEGRAM_WEBHOOK_SECRET_TOKEN" = Some "webhook_secret"
  /\ headers (Sample.deliveryBy "GET" "wrong" "/scan") "x-telegram-bot-api-secret-token"
     <> Some "webhook_secret"
  /\ handler Sample.runtime (Sample.env "") (Sample.deliveryBy "GET" "wrong" "/scan")
             Sample.allOk []
     = (Normal (json 405 [("ok", JBool false); ("error", JStr "Method not allowed")]), [])
  /\ code (json 405 [("ok", JBool false); ("error", JStr "Method not allowed")]) <> 401.
Proof. repeat split; try reflexivity; discriminate. Qed.

Lemma admitted_inv env req :
  admitted env req = true ->
  (method req =? "POST") = true
  /\ (present (env "TELEGRAM_WEBHOOK_SECRET_TOKEN")
      && differs (headers req "x-telegram-bot-api-secret-token")
                 (env "TELEGRAM_WEBHOOK_SECRET_TOKEN")) = false
  /\ present (env "TELEGRAM_BOT_TOKEN") = true.
Proof.
  unfold admitted. intros H.
  apply andb_prop in H as [H Hb]. apply andb_prop in H as [Hm Hs].
  apply negb_true_iff in Hs. auto.
Qed.

Lemma textOf_hasText (m : option Message) (s : string) :
  hasText m s -> textOf m = Normal (trim s).
Proof.
  unfold hasText, textOf, fieldText. intros [H | [H ->]].
  - rewrite H. unfold or_else. cbn [truthy].
    destruct (String.eqb_spec s "") as [-> | _]; reflexivity.
  - unfold or_else. rewrite H. reflexivity.
Qed.

Lemma textOf_malformed (m : option Message) :
  malformedText m = true -> exists e, textOf m = Abrupt e.
Proof.
  unfold malformedText, textOf, fieldText, or_else.
  destruct (match m with Some m0 => text m0 | None => JUndefined end)
    as [| | b | n | s | items | props]; try discriminate; intros H.
  - subst b. eexists. reflexivity.
  - rewrite H. eexists. reflexivity.
  - eexists. reflexivity.
  - eexists. reflexivity.
Qed.

Lemma textOf_wellformed (m : option Message) :
  malformedText m = false -> exists s, hasText m s /\ textOf m = Normal (trim s).
Proof.
  intros H.
  assert (Hs : exists s, hasText m s).
  { unfold malformedText in H. unfold hasText.
    destruct (fieldText m) as [| | b | n | s | items | props]; try discriminate.
    - exists "". right. split; reflexivity.
    - exists "". right. split; reflexivity.
    - exists "". right. split; [exact H | reflexivity].
    - exists "". right. split; [exact H | reflexivity].
    - exists s. left. reflexivity. }
  destruct Hs as (s & Hs). exists s. split; [exact Hs | now apply textOf_hasText].
Qed.


(** Past the three guards, a text that is not a text makes the handler
    throw: nothing catches the error, and no call has been made. *)
Lemma malformed_text_raises rt env req net tr :
  admitted env req = true ->
  malformedText (selectMessage (body req)) = true ->
  exists e, handler rt env req net tr = (Abrupt e, tr).
Proof.
  intros Ha Hbad. apply admitted_inv in Ha as (Hm & Hsec & Hbot).
  destruct (textOf_malformed _ Hbad) as (e & He).
  exists e. unfold handler, gates. rewrite Hm, Hsec, Hbot. cbn [negb].
  rewrite He. reflexivity.
Qed.

(** Where the text is a text, the gates do not throw. *)
Lemma gates_raise_inv rt env req e :
  gates rt env req = Raise e ->
  admitted env req = true /\ textOf (selectMessage (body req)) = Abrupt e.
Proof.
  unfold gates, admitted. intros H.
  destruct (method req =? "POST"); cbn [negb andb] in *; [| discriminate].
  destruct (present (env "TELEGRAM_WEBHOOK_SECRET_TOKEN")
            && differs (headers req "x-telegram-bot-api-secret-token")
                       (env "TELEGRAM_WEBHOOK_SECRET_TOKEN"));
    cbn [negb andb] in *; [discriminate |].
  destruct (present (env "TELEGRAM_BOT_TOKEN")); cbn [negb] in *; [| discriminate].
  split; [reflexivity |].
  repeat match type of H with
         | (if ?b then _ else _) = _ => destruct b; try discriminate
         | match ?x with _ => _ end = _ => destruct x eqn:?; try discriminate
         end.
  now inversion H.
Qed.




(** A message without text, and one whose text is the number 0, have the
    empty text: they are ignored, they do not make the handler throw. *)
Example textless_update_is_ignored :
  handler Sample.runtime (Sample.env "") Sample.textless Sample.allOk []
  = (Normal ignored, [])
  /\ textOf (Some {| chat := None; from := None; text := num 0 |}) = Normal ""
  /\ malformedText (Some {| chat := None; from := None; text := num 0 |}) = false.
Proof. repeat split; reflexivity. Qed.

(** A plain message from chat 123, which the allowlist [42] does not hold:
    the Update is authenticated and its chat is not listed, yet no denial is
    sent; it is ignored without any call. *)
Lemma unlisted_chat_plain_message_is_ignored :
  admitted (Sample.env "42") (Sample.delivery "webhook_secret" "hello") = true
  /\ chatIdOf (selectMessage (body (Sample.delivery "webhook_secret" "hello")))
     = Some (Fin 123)
  /\ parseAllowedChatIds (Sample.env "42" "TELEGRAM_ALLOWED_CHAT_IDS") = ["42"]
  /\ has ["42"] (NumberToString Sample.runtime (Fin 123)) = false
  /\ handler Sample.runtime (Sample.env "42") (Sample.delivery "webhook_secret" "hello")
             Sample.allOk []
     = (Normal (json 200 [("ok", JBool true); ("ignored", JBool true)]), []).
Proof. repeat split; vm_compute; reflexivity. Qed.

(** C6. Past the authentication and structural gates, with a non-empty
    allowlist that does not hold the chat id as a string, the router makes
    exactly one call, the denial reply, whatever that call is answered, and
    responds 200 with [{ ok: true, denied: true }]; with the allowlist
    variable unset or empty the Update is routed to the command handlers. *)
Theorem unlisted_chat_is_denied rt env req id text net tr :
  admitted env req = true ->
  chatIdOf (selectMessage (body req)) = Some id ->
  truthy (JNum id) = true ->
  textOf (selectMessage (body req)) = Normal text ->
  startsWith text "/" = true ->
  let allowed := parseAllowedChatIds (env "TELEGRAM_ALLOWED_CHAT_IDS") in
  (allowed <> [] -> has allowed (NumberToString rt id) = false ->
   handler rt env req net tr
   = (Normal (json 200 [("ok", JBool true); ("denied", JBool true)]),
      (tr ++ [SendMessage (tpl (env "TELEGRAM_BOT_TOKEN")) (JNum id)
                          "Chat non autorizzata."])%list))
  /\ (env "TELEGRAM_ALLOWED_CHAT_IDS" = None \/ env "TELEGRAM_ALLOWED_CHAT_IDS" = Some "" ->
      allowed = []
      /\ exists l command args,
           gates rt env req = Route l command args /\ chatId l = id
           /\ handler rt env req net tr
              = tryCatch (commandHandlers rt env l command args) (onError l) net tr).
Proof.
  intros Ha Hc Ht Htext Hs allowed. apply admitted_inv in Ha as (Hm & Hsec & Hbot).
  split.
  - intros Hne Hhas.
    unfold handler, gates. rewrite Hm, Hsec, Hbot, Htext, Hc, Ht, Hs. cbn [negb orb].
    fold allowed. unfold chatIdString. cbn [chatId]. rewrite Hhas.
    destruct allowed as [| a rest]; [contradiction |]. cbn [List.length Nat.ltb Nat.leb andb negb].
    unfold bind. rewrite best_effort_reply. reflexivity.
  - intros Hunset.
    assert (Hempty : allowed = []).
    { unfold allowed. destruct Hunset as [-> | ->]; reflexivity. }
    split; [exact Hempty |].
    unfold handler, gates. rewrite Hm, Hsec, Hbot, Htext, Hc, Ht, Hs. cbn [negb orb].
    fold allowed. rewrite Hempty. cbn [List.length Nat.ltb Nat.leb andb].
    do 3 eexists. split; [reflexivity |]. split; reflexivity.
Qed.

Lemma unlisted_chat_is_denied_witness :
  handler Sample.runtime (Sample.env "42") (Sample.delivery "webhook_secret" "/status")
          (Sample.answering 500) []
  = (Normal (json 200 [("ok", JBool true); ("denied", JBool true)]),
     [SendMessage "token" (JNum (Fin 123)) "Chat non autorizzata."]).
Proof.
  apply (proj1 (unlisted_chat_is_denied Sample.runtime (Sample.env "42")
                  (Sample.delivery "webhook_secret" "/status") (Fin 123) "/status"
                  (Sample.answering 500) []
                  eq_refl eq_refl eq_refl eq_refl eq_refl)).
  - discriminate.
  - reflexivity.
Defined.

(** C1. Past the gates the handler never throws and always answers 200;
    when the selected command handler raises an error, the router makes one
    more call, the error reply, whose own failure is discarded, and answers
    200 with a body that marks [ok: false] and carries the error. *)
Theorem command_errors_are_acknowledged rt env req l command args net tr :
  gates rt env req = Route l command args ->
  (exists response tr',
      handler rt env req net tr = (Normal response, tr') /\ code response = 200)
  /\ (forall e tr1,
        commandHandlers rt env l command args net tr = (Abrupt e, tr1) ->
        handler rt env req net tr
        = (Normal (json 200 [("ok", JBool false); ("error", JStr (errorDetails e))]),
           (tr1 ++ [SendMessage (botToken l) (JNum (chatId l))
                                ("Errore comando: " ++ errorDetails e)])%list)).
Proof.
  intros Hg. rewrite (handler_routed _ _ _ _ _ _ Hg). split.
  - unfold tryCatch.
    destruct (commandHandlers rt env l command args net tr) as [[r | e] tr1] eqn:E.
    + exists r, tr1. split; [reflexivity |].
      now rewrite (commandHandlers_returns_ok200 _ _ _ _ _ _ _ _ _ E).
    + rewrite onError_run. eauto.
  - intros e tr1 E. rewrite (tryCatch_abrupt _ _ _ _ _ _ E). apply onError_run.
Qed.

Lemma command_errors_are_acknowledged_witness :
  handler Sample.runtime (Sample.env "") (Sample.delivery "webhook_secret" "/status")
          Sample.dispatchDown []
  = (Normal (json 200 [("ok", JBool false);
                       ("error", JStr "GitHub dispatch failed: 500 down")]),
     [Dispatch "ghp_test" "owner" "repo" "scan"
        (JObj [("source", JStr "telegram"); ("command", JStr "status");
               ("chat_id", JStr "123"); ("user_id", JStr "999")]);
      SendMessage "token" (JNum (Fin 123))
        "Errore comando: GitHub dispatch failed: 500 down"]).
Proof.
  apply (proj2 (command_errors_are_acknowledged Sample.runtime (Sample.env "")
                  (Sample.delivery "webhook_secret" "/status")
                  Sample.locals "status" "" Sample.dispatchDown [] eq_refl)
               (ErrorObject "GitHub dispatch failed: 500 down")
               [Dispatch "ghp_test" "owner" "repo" "scan"
                  (JObj [("source", JStr "telegram"); ("command", JStr "status");
                         ("chat_id", JStr "123"); ("user_id", JStr "999")])]).
  reflexivity.
Defined.

(** A [try] block that starts with a dispatch and then only replies: the
    dispatch is the first call of the handler and the only one. *)
Lemma dispatch_then_replies {A} (l : Locals) (payload : JsVal) (k : unit -> M A)
  (h : Thrown -> M A) net tr :
  (forall a, emits isReply (k a)) ->
  (forall e, emits isReply (h e)) ->
  exists c rest,
    tryCatch (bind (dispatch l payload) k) h net tr
    = (c, (tr ++ dispatchCall l payload :: rest)%list)
    /\ Forall isReply rest.
Proof.
  intros Hk Hh. unfold tryCatch, bind. rewrite dispatch_run.
  assert (Hcons : forall rest,
             ((tr ++ [dispatchCall l payload]) ++ rest
              = tr ++ dispatchCall l payload :: rest)%list).
  { intros rest. now rewrite <- app_assoc. }
  destruct (net tr (dispatchCall l payload)) as [e | r].
  - destruct (h e net (tr ++ [dispatchCall l payload])%list) as [c tr'] eqn:E.
    destruct (Hh e _ _ _ _ E) as (rest & -> & F).
    exists c, rest. now rewrite Hcons.
  - destruct (ok r).
    + destruct (k tt net (tr ++ [dispatchCall l payload])%list) as [[a | e] tr1] eqn:E.
      * destruct (Hk tt _ _ _ _ E) as (rest & -> & F).
        exists (Normal a), rest. now rewrite Hcons.
      * destruct (Hk tt _ _ _ _ E) as (r1 & -> & F1).
        destruct (h e net ((tr ++ [dispatchCall l payload]) ++ r1)%list)
          as [c tr'] eqn:E'.
        destruct (Hh e _ _ _ _ E') as (r2 & -> & F2).
        exists c, (r1 ++ r2)%list. split.
        -- now rewrite <- app_assoc, Hcons.
        -- now apply Forall_app.
    + match goal with
      | |- context [h ?e net ?t] => destruct (h e net t) as [c tr'] eqn:E;
                                    destruct (Hh e _ _ _ _ E) as (rest & -> & F)
      end.
      exists c, rest. now rewrite Hcons.
Qed.


Lemma commandHandlers_scan rt env l args :
  commandHandlers rt env l "scan" args = scanCommand rt l args.
Proof. reflexivity. Qed.

Lemma commandHandlers_last rt env l args :
  commandHandlers rt env l "last" args = lastCommand rt l args.
Proof. reflexivity. Qed.

Lemma emits_reply_only (l : Locals) (text : string) : emits isReply (reply l text).
Proof. now apply emits_reply. Qed.

Lemma emits_onError_only (l : Locals) (e : Thrown) : emits isReply (onError l e).
Proof. now apply emits_onError. Qed.

Lemma scanDispatch_first_call rt l products net tr :
  exists c rest,
    tryCatch (scanDispatch rt l products) (onError l) net tr
    = (c, (tr ++ dispatchCall l (scanPayload rt l products) :: rest)%list)
    /\ Forall isReply rest.
Proof.
  unfold scanDispatch. apply dispatch_then_replies.
  - intros _. apply emits_bind; [| intros; apply emits_ret].
    destruct products; apply emits_reply_only.
  - apply emits_onError_only.
Qed.

Lemma digitsValue_nonneg (s : string) (acc : Z) : 0 <= acc -> 0 <= digitsValue acc s.
Proof.
  revert acc. induction s as [| c rest IH]; intros acc Hacc; cbn [digitsValue];
    [exact Hacc |].
  destruct (isDigit c) eqn:Ed; [| exact Hacc].
  apply IH. unfold isDigit in Ed.
  apply andb_prop in Ed as [Hlo _]. apply Nat.leb_le in Hlo. lia.
Qed.

(** Rounding to 53 bits leaves the integers below 2^53 as they are and
    keeps the others at 2^53 or above. *)
Lemma roundMagnitude_small (n : Z) : n < 2 ^ 53 -> roundMagnitude n = n.
Proof.
  intros H. unfold roundMagnitude.
  destruct (Z.ltb_spec n (2 ^ 53)); [reflexivity | lia].
Qed.

Lemma roundMagnitude_large (n : Z) : 2 ^ 53 <= n -> 2 ^ 53 <= roundMagnitude n.
Proof.
  intros H. unfold roundMagnitude.
  destruct (Z.ltb_spec n (2 ^ 53)); [lia |].
  assert (Hpos : 0 < n) by lia.
  pose proof (Z.log2_spec n Hpos) as [Hlo Hhi].
  assert (Hlog : 53 <= Z.log2 n).
  { apply Z.log2_le_pow2; [lia | exact H]. }
  set (k := Z.log2 n - 52) in *.
  assert (Hk : 1 <= k) by (unfold k; lia).
  rewrite Z.shiftl_mul_pow2 by lia.
  assert (Hq : 2 ^ 52 <= Z.shiftr n k).
  { rewrite Z.shiftr_div_pow2 by lia.
    apply Z.div_le_lower_bound; [apply Z.pow_pos_nonneg; lia |].
    rewrite <- Z.pow_add_r by lia.
    replace (k + 52) with (Z.log2 n) by (unfold k; lia). exact Hlo. }
  assert (Hk2 : 2 <= 2 ^ k).
  { change 2 with (2 ^ 1) at 1. apply Z.pow_le_mono_r; lia. }
  set (q := Z.shiftr n k) in *.
  change (2 ^ 53) with (2 ^ 52 * 2).
  match goal with
  | |- _ <= (if ?b then _ else _) * _ => destruct b
  end; apply Z.mul_le_mono_nonneg; lia.
Qed.

(** [Number.parseInt] is the rounding of the leading integer. *)
Lemma parseInt10_leadingInteger (s : string) :
  match leadingInteger s with
  | None => parseInt10 s = NaN
  | Some z =>
      (parseInt10 s = Infty (z <? 0)%Z /\ 2 ^ 1024 <= roundMagnitude (Z.abs z))
      \/ (exists m, parseInt10 s = Fin (inject_Z m)
                    /\ Z.max 1 (Z.min m 10) = Z.max 1 (Z.min z 10))
  end.
Proof.
  unfold leadingInteger, parseInt10, roundToDouble.
  destruct (match trimStart s with
            | String c rest =>
                if Ascii.eqb c "-" then (true, rest)
                else if Ascii.eqb c "+" then (false, rest)
                else (false, trimStart s)
            | EmptyString => (false, trimStart s)
            end) as [negative s'].
  destruct (takeWhile isDigit s' =? ""); [reflexivity |].
  pose proof (digitsValue_nonneg s' 0 (Z.le_refl 0)) as Hn.
  set (n := digitsValue 0 s') in *.
  assert (Habs : Z.abs (if negative then - n else n) = n).
  { destruct negative; lia. }
  rewrite Habs.
  destruct (Z.leb_spec (2 ^ 1024) (roundMagnitude n)) as [Hinf | Hfin].
  - left. split; [| exact Hinf].
    destruct negative.
    + destruct (Z.ltb_spec (- n) 0) as [| Hz]; [reflexivity |].
      assert (n = 0) by lia. subst n.
      replace (digitsValue 0 s') with 0 in Hinf by lia. cbn in Hinf. lia.
    + destruct (Z.ltb_spec n 0); [lia | reflexivity].
  - right. eexists. split; [reflexivity |].
    destruct (Z.lt_ge_cases n (2 ^ 53)) as [Hs | Hl].
    + now rewrite (roundMagnitude_small _ Hs).
    + pose proof (roundMagnitude_large _ Hl) as Hr.
      assert (10 < 2 ^ 53) by (cbn; lia).
      destruct negative; lia.
Qed.

(** The clamp of the [last] branch on an integer. *)
Lemma clamp_integer (z : Z) :
  Math_max (Fin 1) (Math_min (Fin (inject_Z z)) (Fin (inject_Z MAX_LAST_LIMIT)))
  = Fin (inject_Z (Z.max 1 (Z.min z 10))).
Proof.
  unfold Math_max, Math_min, num_ltb, MAX_LAST_LIMIT, inject_Z, Qle_bool. cbn [Qnum Qden].
  destruct (Z.leb_spec (10 * 1) (z * 1)) as [H | H]; cbn [negb].
  - cbn. rewrite Z.min_r, Z.max_r by lia. reflexivity.
  - cbn [Qnum Qden].
    destruct (Z.leb_spec (1 * 1) (z * 1)) as [H' | H']; cbn [negb].
    + rewrite Z.min_l, Z.max_r by lia. reflexivity.
    + rewrite Z.min_l, Z.max_l by lia. reflexivity.
Qed.

(** C9. For [/last] with the backend configured, the first call is the
    dispatch, and the [limit] of its payload is 5 when there is no argument,
    when the argument does not start with an integer, and when that integer
    is beyond the finite doubles; otherwise it is the integer that the
    argument starts with, clamped to the interval from 1 to 10. *)
Theorem last_limit_is_clamped rt env req l args net tr :
  gates rt env req = Route l "last" args ->
  githubReady l = true ->
  (exists c rest,
      handler rt env req net tr
      = (c, (tr ++ dispatchCall l
                     (JObj [("source", JStr "telegram");
                            ("command", JStr "last");
                            ("chat_id", JStr (chatIdString rt l));
                            ("user_id", JStr (userIdString rt l));
                            ("limit", JNum (lastLimit args))]) :: rest)%list)
      /\ Forall isReply rest)
  /\ (args = "" -> lastLimit args = Fin 5)
  /\ (args <> "" ->
      match leadingInteger args with
      | Some z =>
          if isFinite (parseInt10 args)
          then lastLimit args = Fin (inject_Z (Z.max 1 (Z.min z 10)))
               /\ 1 <= Z.max 1 (Z.min z 10) <= 10
          else lastLimit args = Fin 5
      | None => lastLimit args = Fin 5
      end).
Proof.
  intros Hg Hready. rewrite (handler_routed _ _ _ _ _ _ Hg), commandHandlers_last.
  split; [| split].
  - unfold lastCommand. rewrite Hready. cbn [negb].
    apply dispatch_then_replies.
    + intros _. apply emits_bind; [apply emits_reply_only | intros; apply emits_ret].
    + apply emits_onError_only.
  - intros ->. reflexivity.
  - intros Hne. unfold lastLimit.
    destruct (String.eqb_spec args ""); [contradiction |].
    pose proof (parseInt10_leadingInteger args) as Hp.
    destruct (leadingInteger args) as [z |].
    + destruct Hp as [[-> _] | (m & -> & Hm)]; cbn [isFinite]; [reflexivity |].
      rewrite clamp_integer, Hm. split; [reflexivity | lia].
    + rewrite Hp. reflexivity.
Qed.

Lemma last_limit_is_clamped_witness :
  lastLimit "42" = Fin (inject_Z (Z.max 1 (Z.min 42 10)))
  /\ 1 <= Z.max 1 (Z.min 42 10) <= 10.
Proof.
  exact (proj2 (proj2 (last_limit_is_clamped Sample.runtime (Sample.env "")
                         (Sample.delivery "webhook_secret" "/last 42")
                         Sample.locals "42" Sample.allOk [] eq_refl eq_refl))
               ltac:(discriminate)).
Defined.

(** What the [last] branch makes of some arguments. *)
Example leadingInteger_samples :
  leadingInteger "  -12abc" = Some (-12) /\ leadingInteger "+7" = Some 7
  /\ leadingInteger "0x1A" = Some 0 /\ leadingInteger "seven" = None
  /\ leadingInteger "" = None /\ leadingInteger "- 3" = None.
Proof. repeat split; reflexivity. Qed.

Example lastLimit_samples :
  lastLimit "" = Fin 5 /\ lastLimit "7" = Fin 7 /\ lastLimit "0" = Fin 1
  /\ lastLimit "-3" = Fin 1 /\ lastLimit "10" = Fin 10 /\ lastLimit "11" = Fin 10
  /\ lastLimit "3 more" = Fin 3 /\ lastLimit "many" = Fin 5
  /\ lastLimit "99999999999999999999" = Fin 10.
Proof. repeat split; reflexivity. Qed.

(** Four hundred nines exceed every finite double: [parseInt] yields
    [Infinity] and the limit falls back to 5. *)
Example lastLimit_overflow :
  parseInt10 (String.concat "" (repeat "9" 400)) = Infty false
  /\ lastLimit (String.concat "" (repeat "9" 400)) = Fin 5.
Proof. split; vm_compute; reflexivity. Qed.

Lemma invariant_of_reply rt m (c : Call) : isReply c -> dispatchInvariant rt m c.
Proof. destruct c; cbn; intros H; [exact I | contradiction | contradiction]. Qed.

Ltac emits_steps :=
  repeat match goal with
         | |- emits _ (ret _) => apply emits_ret
         | |- emits _ (throw _) => apply emits_throw
         | |- emits _ (lift _) => apply emits_lift
         | |- emits _ (reply _ _) => apply emits_reply; apply invariant_of_reply
         | |- emits _ (onError _ _) => apply emits_onError; apply invariant_of_reply
         | |- emits _ (githubApiRequest _ _ _ _ _) =>
             apply emits_bind; [apply emits_fetch; exact I | intros; apply emits_ret]
         | |- emits _ (bind _ _) => apply emits_bind; [| intros]
         | |- emits _ (tryCatch _ _) => apply emits_tryCatch; [| intros]
         | |- emits _ (if ?b then _ else _) => destruct b
         | |- emits _ (match ?x with _ => _ end) => destruct x
         end.

Ltac payload_invariant Hc Hu :=
  unfold dispatchCall, dispatchInvariant, scanPayload; cbn;
  split; [reflexivity |]; split; [eexists; reflexivity |]; split;
  [eexists; split; [exact Hc | reflexivity]
  | eexists; split; [reflexivity |];
    let H := fresh in intros H; unfold userIdString; rewrite Hu, H; reflexivity].

Lemma commandHandlers_smoke rt env l args :
  commandHandlers rt env l "smoke" args = smokeCommand rt l.
Proof. reflexivity. Qed.

Lemma commandHandlers_status rt env l args :
  commandHandlers rt env l "status" args = statusCommand rt l.
Proof. reflexivity. Qed.

Lemma reply_return_emits (l : Locals) (text : string) (a : unit) :
  emits isReply (bind (reply l text) (fun _ => ret ok200)).
Proof. apply emits_bind; [apply emits_reply_only | intros; apply emits_ret]. Qed.

Ltac first_dispatch Huser :=
  match goal with
  | |- exists c payload rest,
        tryCatch (bind (dispatch ?l ?p) ?k) ?h ?net ?tr = _ /\ _ =>
      let c := fresh "c" in
      let rest := fresh "rest" in
      let E := fresh "E" in
      let F := fresh "F" in
      let H := fresh "H" in
      destruct (dispatch_then_replies l p k h net tr) as (c & rest & E & F);
      [intros a; apply reply_return_emits; exact a
      | apply emits_onError_only
      | exists c, p, rest; split; [exact E |]; split; [exact F |];
        split; [reflexivity | intros H; cbn; now rewrite (Huser H)]]
  end.

(** C10. Every dispatch that the router emits, for any request and any
    network, carries [source: "telegram"], a [command], the chat id as a
    string and a [user_id] string, which is empty when the Update has no
    sender identifier. The dispatch of [/smoke], [/status], [/last] and of
    [/scan] without argument is the first call of the handler whatever the
    sender identifier is, also when there is none. *)
Theorem dispatches_carry_their_origin rt env req :
  emits (dispatchInvariant rt (selectMessage (body req))) (handler rt env req)
  /\ (forall l command args net tr,
        gates rt env req = Route l command args ->
        githubReady l = true ->
        command = "smoke" \/ command = "status" \/ command = "last"
        \/ (command = "scan" /\ args = "") ->
        exists c payload rest,
          handler rt env req net tr = (c, (tr ++ dispatchCall l payload :: rest)%list)
          /\ Forall isReply rest
          /\ getProp payload "user_id" = JStr (userIdString rt l)
          /\ (userId l = None -> getProp payload "user_id" = JStr "")).
Proof.
  split.
  - unfold handler.
    destruct (gates rt env req) as [response | error | l | l command args] eqn:Hg.
    + apply emits_ret.
    + apply emits_throw.
    + emits_steps.
    + destruct (gates_route_locals _ _ _ _ _ _ Hg) as [Hc Hu].
      apply emits_tryCatch; [| intros; emits_steps].
      unfold commandHandlers, profileCommand, scanCommand, scanDispatch,
        smokeCommand, statusCommand, lastCommand,
        getGitHubVariable, upsertGitHubVariable.
      emits_steps;
        try (apply emits_dispatch; payload_invariant Hc Hu).
  - intros l command args net tr Hg Hready Hcmd.
    rewrite (handler_routed _ _ _ _ _ _ Hg).
    assert (Huser : userId l = None -> userIdString rt l = "").
    { intros H. unfold userIdString. now rewrite H. }
    destruct Hcmd as [-> | [-> | [-> | [-> ->]]]].
    + rewrite commandHandlers_smoke. unfold smokeCommand. rewrite Hready. cbn [negb].
      first_dispatch Huser.
    + rewrite commandHandlers_status. unfold statusCommand. rewrite Hready. cbn [negb].
      first_dispatch Huser.
    + rewrite commandHandlers_last. unfold lastCommand. rewrite Hready. cbn [negb].
      first_dispatch Huser.
    + rewrite commandHandlers_scan. unfold scanCommand. rewrite Hready. cbn [negb String.eqb].
      destruct (scanDispatch_first_call rt l None net tr) as (c & rest & E & F).
      exists c. eexists. exists rest. split; [exact E |]. split; [exact F |].
      split; [reflexivity | intros H; cbn; now rewrite (Huser H)].
Qed.

Lemma dispatches_carry_their_origin_witness :
  exists c payload rest,
    handler Sample.runtime (Sample.env "") (Sample.anonymousDelivery "/status")
            Sample.allOk []
    = (c, ([] ++ dispatchCall Sample.anonymousLocals payload :: rest)%list)
    /\ Forall isReply rest
    /\ getProp payload "user_id" = JStr (userIdString Sample.runtime Sample.anonymousLocals)
    /\ (userId Sample.anonymousLocals = None -> getProp payload "user_id" = JStr "").
Proof.
  apply (proj2 (dispatches_carry_their_origin Sample.runtime (Sample.env "")
                  (Sample.anonymousDelivery "/status"))
               Sample.anonymousLocals "status" "" Sample.allOk [] eq_refl eq_refl).
  right. left. reflexivity.
Defined.

(** The same invariant on an edited [/smoke] message without sender. *)
Example smoke_dispatch_without_sender :
  Webhook.handler Sample.runtime (Sample.env "")
    (Sample.anonymousDelivery "/smoke@tech_sniper_bot") Sample.allOk []
  = (Normal ok200,
     [Dispatch "ghp_test" "owner" "repo" "scan"
        (JObj [("source", JStr "telegram"); ("command", JStr "scan");
               ("mode", JStr "smoke"); ("chat_id", JStr "123"); ("user_id", JStr "");
               ("products", JArr smokeProducts)]);
      SendMessage "token" (JNum (Fin 123))
        "Smoke test accodato su GitHub Actions (3 prodotti)."]).
Proof. vm_compute. reflexivity. Qed.

End RouterFacts.

(* ================================================================== *)
(** ** The direct trigger endpoint *)

Module TriggerFacts.

Import TriggerSpec.

(** C2, on api/scan.js. The test of the repository named "scan endpoint
    fails closed when SCAN_SECRET is missing" deletes the secret and expects
    500. api/scan.js skips the bearer check when the secret is unset: it
    forwards the products and answers 202. *)
Theorem scan_js_is_open_without_secret :
  Scan.handler (Sample.without "SCAN_SECRET" (Sample.env ""))
               (Sample.trigger "Bearer scan_secret" (productsBody [pricedIphone]))
               Sample.allOk []
  = (Normal (queued 1), [scanDispatchOf [pricedIphone]]).
Proof. vm_compute. reflexivity. Qed.

(** Without the secret, api/scan.js does not read the Authorization header
    at all. *)
Lemma scan_js_ignores_header_without_secret env m h h' b net tr :
  present (env "SCAN_SECRET") = false ->
  Scan.handler env {| Scan.method := m; Scan.headers := h; Scan.body := b |} net tr
  = Scan.handler env {| Scan.method := m; Scan.headers := h'; Scan.body := b |} net tr.
Proof. intros H. unfold Scan.handler. cbn. rewrite H. reflexivity. Qed.

Lemma backendReady_inv env :
  backendReady env = true ->
  negb (present (env "GITHUB_TOKEN")) || negb (present (env "GITHUB_OWNER"))
  || negb (present (env "GITHUB_REPO")) = false.
Proof.
  unfold backendReady. intros H.
  apply andb_prop in H as [H ->]. apply andb_prop in H as [-> ->]. reflexivity.
Qed.

Lemma forward_run env products net tr :
  Scan.forward env products net tr
  = (match net tr (forwardCall env products) with
     | Rejected e =>
         Normal (json 500 [("ok", JBool false); ("error", JStr (Scan.errorDetails e))])
     | Fulfilled r =>
         if ok r then Normal (queued (Z.of_nat (List.length products)))
         else Normal (json 500 [("ok", JBool false);
                                ("error", JStr ("GitHub dispatch failed: "
                                                ++ Z_to_string (status r) ++ " "
                                                ++ text r))])
     end, (tr ++ [forwardCall env products])%list).
Proof.
  unfold Scan.forward, Scan.dispatchToGitHub, tryCatch, bind. rewrite fetch_run.
  fold (forwardCall env products).
  destruct (net tr (forwardCall env products)) as [e | r]; [reflexivity |].
  destruct (ok r); reflexivity.
Qed.

(** The rest of the status mapping holds of api/scan.js: 401 on a bearer
    header that does not match a configured secret, 400 when no product is
    accepted, 202 with the number of accepted products when the dispatch
    succeeds. *)
Lemma scan_js_status_mapping env req secret net tr :
  Scan.method req = "POST" ->
  env "SCAN_SECRET" = Some secret -> secret <> "" ->
  (Scan.headers req "authorization" <> Some ("Bearer " ++ secret) ->
   Scan.handler env req net tr
   = (Normal (json 401 [("ok", JBool false); ("error", JStr "Unauthorized")]), tr))
  /\ (Scan.headers req "authorization" = Some ("Bearer " ++ secret) ->
      backendReady env = true ->
      let products := Scan.parseProducts (or_else (Scan.body req) (JObj [])) in
      (products = [] ->
       Scan.handler env req net tr
       = (Normal (json 400 [("ok", JBool false);
                            ("error", JStr "No valid products supplied")]), tr))
      /\ (products <> [] ->
          forall r, net tr (forwardCall env products) = Fulfilled r -> ok r = true ->
            Scan.handler env req net tr
            = (Normal (queued (Z.of_nat (List.length products))),
               (tr ++ [forwardCall env products])%list))).
Proof.
  intros Hm Hs Hne. unfold Scan.handler. rewrite Hm, Hs.
  assert (Hp : present (Some secret) = true).
  { cbn. now destruct (String.eqb_spec secret ""). }
  change (negb ("POST" =? "POST")) with false. cbv iota. rewrite Hp. cbn [andb tpl].
  split.
  - intros Hh. destruct (Scan.headers req "authorization") as [h |].
    + destruct (String.eqb_spec h ("Bearer " ++ secret)); [subst; contradiction |].
      reflexivity.
    + destruct (String.eqb_spec "" ("Bearer " ++ secret)); [discriminate | reflexivity].
  - intros Hh Hready.
    rewrite Hh, String.eqb_refl, (backendReady_inv _ Hready). cbn [negb].
    set (products := Scan.parseProducts (or_else (Scan.body req) (JObj []))).
    split.
    + intros ->. reflexivity.
    + intros Hx r Hr Hok. destruct products as [| p ps] eqn:E; [contradiction |].
      cbn [List.length Nat.eqb]. rewrite forward_run, Hr, Hok. reflexivity.
Qed.

(** C3, on api/scan.js. The test of the repository named "scan endpoint
    rejects invalid product shape" sends a product with a title and no price
    and expects 400. api/scan.js accepts every object: the product is
    dispatched as it came, without any [price_eur]. *)
Theorem scan_js_forwards_unpriced_product :
  Scan.handler (Sample.env "")
               (Sample.trigger "Bearer scan_secret" (productsBody [onlyTitle]))
               Sample.allOk []
  = (Normal (queued 1), [scanDispatchOf [onlyTitle]])
  /\ getProp onlyTitle "price_eur" = JUndefined.
Proof. split; vm_compute; reflexivity. Qed.

(** api/scan.js does not coerce a price either: a price sent as a string
    or under [price] is forwarded unchanged. *)
Example scan_js_keeps_price_as_sent :
  Scan.parseProducts
    (productsBody [JObj [("title", JStr " iPhone "); ("price", JStr "500")]])
  = [JObj [("title", JStr " iPhone "); ("price", JStr "500")]].
Proof. reflexivity. Qed.

(** The revised endpoint, on the inputs of the two tests above, answers
    what the tests expect: 500 without the secret, 400 for the unpriced
    product, and no outbound call either time. *)
Example revised_endpoint_meets_the_tests :
  ScanRevised.handler Sample.runtime (Sample.without "SCAN_SECRET" (Sample.env ""))
    (Sample.trigger "Bearer scan_secret" (productsBody [pricedIphone])) Sample.allOk []
  = (Normal (json 500 [("ok", JBool false);
                       ("error", JStr "Missing env configuration: SCAN_SECRET")]), [])
  /\ ScanRevised.handler Sample.runtime (Sample.env "")
       (Sample.trigger "Bearer scan_secret" (productsBody [onlyTitle])) Sample.allOk []
     = (Normal (json 400 [("ok", JBool false);
                          ("error", JStr "No valid products supplied")]), []).
Proof. split; vm_compute; reflexivity. Qed.

(** The status mapping of the revised endpoint: 500 whenever the secret is
    unset or blank, whatever the header; 401 on a header that is not the
    bearer of the configured secret; 400 when no product is accepted; 202
    with the number of accepted products when the dispatch succeeds. *)
Lemma revised_status_mapping rt env req net tr :
  Scan.method req = "POST" ->
  (present (env "SCAN_SECRET") = false \/ trim (tpl (env "SCAN_SECRET")) = "" ->
   ScanRevised.handler rt env req net tr
   = (Normal (json 500 [("ok", JBool false);
                        ("error", JStr "Missing env configuration: SCAN_SECRET")]), tr))
  /\ (forall secret,
        env "SCAN_SECRET" = Some secret -> trim secret <> "" ->
        (Scan.headers req "authorization" <> Some ("Bearer " ++ trim secret) ->
         ScanRevised.handler rt env req net tr
         = (Normal (json 401 [("ok", JBool false); ("error", JStr "Unauthorized")]), tr))
        /\ (Scan.headers req "authorization" = Some ("Bearer " ++ trim secret) ->
            backendReady env = true ->
            forall products,
              ScanRevised.parseProducts rt (or_else (Scan.body req) (JObj []))
              = Normal products ->
              (products = [] ->
               ScanRevised.handler rt env req net tr
               = (Normal (json 400 [("ok", JBool false);
                                    ("error", JStr "No valid products supplied")]), tr))
              /\ (products <> [] ->
                  forall r, net tr (forwardCall env products) = Fulfilled r ->
                            ok r = true ->
                    ScanRevised.handler rt env req net tr
                    = (Normal (queued (Z.of_nat (List.length products))),
                       (tr ++ [forwardCall env products])%list)))).
Proof.
  intros Hm. unfold ScanRevised.handler. rewrite Hm.
  change (negb ("POST" =? "POST")) with false. cbv iota.
  split.
  - intros [H | H].
    + rewrite H. reflexivity.
    + rewrite H. cbn [String.eqb]. rewrite orb_true_r. reflexivity.
  - intros secret Hs Hne. rewrite Hs. cbn [tpl].
    assert (Hp : present (Some secret) = true).
    { cbn. destruct (String.eqb_spec secret ""); [subst; now contradiction Hne |].
      reflexivity. }
    rewrite Hp. cbn [negb orb].
    destruct (String.eqb_spec (trim secret) ""); [contradiction |].
    split.
    + intros Hh. destruct (Scan.headers req "authorization") as [h |].
      * destruct (String.eqb_spec h ("Bearer " ++ trim secret)); [subst; contradiction |].
        reflexivity.
      * destruct (String.eqb_spec "" ("Bearer " ++ trim secret)); [discriminate |].
        reflexivity.
    + intros Hh Hready products Hparse.
      rewrite Hh, String.eqb_refl, (backendReady_inv _ Hready). cbn [negb].
      unfold bind, lift. rewrite Hparse. split.
      * intros ->. reflexivity.
      * intros Hx r Hr Hok. destruct products as [| p ps] eqn:E; [contradiction |].
        cbn [List.length Nat.eqb]. rewrite forward_run, Hr, Hok. reflexivity.
Qed.

Lemma lookup_setProp_same k v props : lookup k (setProp k v props) = Some v.
Proof.
  induction props as [| [k' v'] rest IH]; cbn.
  - now rewrite String.eqb_refl.
  - destruct (k' =? k) eqn:E; cbn.
    + now rewrite String.eqb_refl.
    + now rewrite E.
Qed.

Lemma lookup_setProp_other k k' v props :
  k <> k' -> lookup k' (setProp k v props) = lookup k' props.
Proof.
  intros Hne. induction props as [| [k0 v0] rest IH]; cbn.
  - destruct (String.eqb_spec k k'); [contradiction | reflexivity].
  - destruct (String.eqb_spec k0 k) as [-> | Hk]; cbn.
    + destruct (String.eqb_spec k k'); [contradiction | reflexivity].
    + destruct (k0 =? k'); [reflexivity | exact IH].
Qed.

(** The normalizer of the revised endpoint: a candidate that it accepts is
    an object with a string title that is not blank; the product it yields
    has the trimmed title, has as [price_eur] the number that [Number] makes
    of the candidate's [price_eur ?? price], finite and greater than 0, and
    has every other property of the candidate unchanged. *)
Lemma revised_normalize_accepts rt candidate product :
  ScanRevised.normalize rt candidate = Normal (Some product) ->
  exists props title price,
    candidate = JObj props
    /\ getProp candidate "title" = JStr title /\ trim title <> ""
    /\ Number_ rt (nullish (getProp candidate "price_eur") (getProp candidate "price"))
       = Normal (Fin price)
    /\ (0 < price)%Q
    /\ getProp product "title" = JStr (trim title)
    /\ getProp product "price_eur" = JNum (Fin price)
    /\ (forall k, k <> "title" -> k <> "price_eur" ->
                  getProp product k = getProp candidate k).
Proof.
  unfold ScanRevised.normalize.
  destruct (negb (truthy candidate) || negb (typeof_object candidate)) eqn:Eobj;
    [discriminate |].
  destruct (Number_ rt (nullish (getProp candidate "price_eur")
                                (getProp candidate "price"))) as [price | e] eqn:Eprice;
    [| discriminate].
  destruct (getProp candidate "title") as [| | | | title | |] eqn:Etitle;
    cbn [String.eqb orb]; try discriminate.
  destruct (String.eqb_spec (trim title) "") as [| Hne]; [discriminate |].
  destruct price as [| negative | x]; cbn [isFinite negb orb]; try discriminate.
  destruct (num_leb (Fin x) (Fin 0)) eqn:Ele; [discriminate |].
  intros H. inversion H; subst product; clear H.
  destruct candidate as [| | | | | items | props]; try discriminate.
  exists props, title, x. cbn [ScanRevised.spreadProps getProp].
  repeat split; auto.
  - cbn in Ele. unfold Qle_bool in Ele. apply Z.leb_gt in Ele.
    unfold Qlt. cbn in *. lia.
  - rewrite lookup_setProp_other by discriminate.
    now rewrite lookup_setProp_same.
  - now rewrite lookup_setProp_same.
  - intros k Ht Hp. rewrite !lookup_setProp_other by congruence. reflexivity.
Qed.

End TriggerFacts.

(* ================================================================== *)
(** ** The tests of the repository, run on the model *)

Module RepositoryTests.

Import Webhook Sample.

(** "telegram webhook serves help command directly". *)
Example test_help :
  run "" "/help" Sample.allOk
  = (Normal ok200, [SendMessage "token" (JNum (Fin 123)) commandHelpText]).
Proof. vm_compute. reflexivity. Qed.

(** "telegram webhook dispatches /scan to github actions". *)
Example test_scan_with_product :
  run "" ("/scan " ++ Sample.iphoneText) Sample.allOk
  = (Normal ok200,
     [Dispatch "ghp_test" "owner" "repo" "scan"
        (JObj [("source", JStr "telegram"); ("command", JStr "scan");
               ("chat_id", JStr "123"); ("user_id", JStr "999");
               ("products", JArr [Sample.iphone])]);
      SendMessage "token" (JNum (Fin 123))
        "Scan accodato su GitHub Actions (1 prodotti)."]).
Proof. vm_compute. reflexivity. Qed.

(** "telegram webhook dispatches /scan without payload". *)
Example test_scan_without_payload :
  run "" "/scan" Sample.allOk
  = (Normal ok200,
     [Dispatch "ghp_test" "owner" "repo" "scan"
        (JObj [("source", JStr "telegram"); ("command", JStr "scan");
               ("chat_id", JStr "123"); ("user_id", JStr "999")]);
      SendMessage "token" (JNum (Fin 123))
        "Scan accodato su GitHub Actions (modalita default: sorgenti prodotto configurate nel worker)."]).
Proof. vm_compute. reflexivity. Qed.

(** [/scan] with a text that is not JSON, and with an empty array inside a
    code fence: a reply, no dispatch. *)
Example test_scan_rejects :
  run "" "/scan not json" Sample.allOk
  = (Normal ok200,
     [SendMessage "token" (JNum (Fin 123))
        "JSON non valido. Invia un oggetto o array JSON."])
  /\ run "" "/scan ```json [] ```" Sample.allOk
     = (Normal ok200,
        [SendMessage "token" (JNum (Fin 123))
           "Payload vuoto: nessun prodotto valido."]).
Proof. split; vm_compute; reflexivity. Qed.

(** "telegram webhook denies unauthorized chat when allowlist is set". *)
Example test_denied :
  run "42" "/status" Sample.allOk
  = (Normal (json 200 [("ok", JBool true); ("denied", JBool true)]),
     [SendMessage "token" (JNum (Fin 123)) "Chat non autorizzata."]).
Proof. vm_compute. reflexivity. Qed.

(** "telegram webhook shows active strategy profile". *)
Example test_profile_show :
  run "" "/profile" Sample.profileStore
  = (Normal ok200,
     [GitHubApi "ghp_test" "GET" (variablesPath ++ "/STRATEGY_PROFILE") None;
      SendMessage "token" (JNum (Fin 123))
        ("Profilo strategia attivo: aggressive" ++ nl
         ++ "Usa /profile conservative|balanced|aggressive")]).
Proof. vm_compute. reflexivity. Qed.

(** "telegram webhook updates strategy profile variable", and the same
    command on a store that does not hold the variable yet. *)
Example test_profile_set :
  run "" "/profile balanced" Sample.profileStore
  = (Normal ok200,
     [GitHubApi "ghp_test" "PATCH" (variablesPath ++ "/STRATEGY_PROFILE")
        (Some (JObj [("name", JStr "STRATEGY_PROFILE"); ("value", JStr "balanced")]));
      SendMessage "token" (JNum (Fin 123))
        "Profilo strategia aggiornato a 'balanced'. Sara applicato alle prossime run."])
  /\ run "" "/profile balanced" Sample.emptyStore
     = (Normal ok200,
        [GitHubApi "ghp_test" "PATCH" (variablesPath ++ "/STRATEGY_PROFILE")
           (Some (JObj [("name", JStr "STRATEGY_PROFILE"); ("value", JStr "balanced")]));
         GitHubApi "ghp_test" "POST" variablesPath
           (Some (JObj [("name", JStr "STRATEGY_PROFILE"); ("value", JStr "balanced")]));
         SendMessage "token" (JNum (Fin 123))
           "Profilo strategia aggiornato a 'balanced'. Sara applicato alle prossime run."]).
Proof. split; vm_compute; reflexivity. Qed.

(** [/profile bogus] does not touch the variable store. *)
Example test_profile_invalid :
  run "" "/profile bogus" Sample.profileStore
  = (Normal ok200,
     [SendMessage "token" (JNum (Fin 123))
        "Valore non valido. Usa: /profile conservative | balanced | aggressive"]).
Proof. vm_compute. reflexivity. Qed.

(** The three kinds of failure inside a command handler: the reply, the
    dispatch, the variable store. Each time the answer is 200 with
    [ok: false], after one attempt to report the error to the chat. *)
Example test_failures_are_acknowledged :
  run "" "/help" Sample.repliesDown
  = (Normal (json 200 [("ok", JBool false);
                       ("error", JStr "Telegram sendMessage failed: 403 blocked")]),
     [SendMessage "token" (JNum (Fin 123)) commandHelpText;
      SendMessage "token" (JNum (Fin 123))
        "Errore comando: Telegram sendMessage failed: 403 blocked"])
  /\ run "" "/last 3" Sample.dispatchDown
     = (Normal (json 200 [("ok", JBool false);
                          ("error", JStr "GitHub dispatch failed: 500 down")]),
        [Dispatch "ghp_test" "owner" "repo" "scan"
           (JObj [("source", JStr "telegram"); ("command", JStr "last");
                  ("chat_id", JStr "123"); ("user_id", JStr "999");
                  ("limit", num 3)]);
         SendMessage "token" (JNum (Fin 123))
           "Errore comando: GitHub dispatch failed: 500 down"])
  /\ run "" "/profile balanced" Sample.storeDown
     = (Normal (json 200 [("ok", JBool false); ("error", JStr "fetch failed")]),
        [GitHubApi "ghp_test" "PATCH" (variablesPath ++ "/STRATEGY_PROFILE")
           (Some (JObj [("name", JStr "STRATEGY_PROFILE"); ("value", JStr "balanced")]));
         SendMessage "token" (JNum (Fin 123)) "Errore comando: fetch failed"]).
Proof. repeat split; vm_compute; reflexivity. Qed.

(** The requests that the calls of the upsert stand for. *)
Example test_upsert_requests :
  let patch := toFetch (GitHubApi "ghp_test" "PATCH" (variablesPath ++ "/STRATEGY_PROFILE")
                          (Some (JObj [("name", JStr "STRATEGY_PROFILE"); ("value", JStr "balanced")]))) in
  let post := toFetch (GitHubApi "ghp_test" "POST" variablesPath
                         (Some (JObj [("name", JStr "STRATEGY_PROFILE"); ("value", JStr "balanced")]))) in
  url patch = "https://api.github.com/repos/owner/repo/actions/variables/STRATEGY_PROFILE"
  /\ http_method patch = "PATCH"
  /\ url post = "https://api.github.com/repos/owner/repo/actions/variables"
  /\ http_method post = "POST"
  /\ json_body patch = json_body post
  /\ json_body post = Some (JObj [("name", JStr "STRATEGY_PROFILE");
                                  ("value", JStr "balanced")]).
Proof. repeat split; reflexivity. Qed.

End RepositoryTests.

(* ================================================================== *)
(** ** Strings: trimming, tokens, fences *)

Module StrFacts.

Import MoreSpec Webhook.

Lemma length_app (a b : string) :
  String.length (a ++ b) = (String.length a + String.length b)%nat.
Proof. induction a as [| c a IH]; cbn; [reflexivity | now rewrite IH]. Qed.

Lemma str_app_assoc (a b c : string) : (a ++ b) ++ c = a ++ b ++ c.
Proof. induction a as [| x a IH]; cbn; [reflexivity | now rewrite IH]. Qed.

Lemma substring_all (s : string) : substring 0 (String.length s) s = s.
Proof. induction s as [| c s IH]; cbn; [reflexivity | now rewrite IH]. Qed.

Lemma substring_app_left (a b : string) : substring 0 (String.length a) (a ++ b) = a.
Proof.
  induction a as [| c a IH]; cbn; [now destruct b | now rewrite IH].
Qed.

Lemma substring_app_right (a b : string) :
  substring (String.length a) (String.length b) (a ++ b) = b.
Proof. induction a as [| c a IH]; cbn; [apply substring_all | exact IH]. Qed.

Lemma slice_app (a b : string) : slice (String.length a) (a ++ b) = b.
Proof.
  unfold slice. rewrite length_app.
  replace (String.length a + String.length b - String.length a)%nat
    with (String.length b) by lia.
  apply substring_app_right.
Qed.

Lemma endsWith_app (a b : string) : endsWith (a ++ b) b = true.
Proof.
  unfold endsWith. rewrite length_app.
  replace (String.length a + String.length b - String.length b)%nat
    with (String.length a) by lia.
  rewrite substring_app_right, String.eqb_refl.
  destruct (Nat.leb_spec (String.length b) (String.length a + String.length b));
    [reflexivity | lia].
Qed.

Lemma without_suffix (a b : string) :
  substring 0 (String.length (a ++ b) - String.length b) (a ++ b) = a.
Proof.
  rewrite length_app.
  replace (String.length a + String.length b - String.length b)%nat
    with (String.length a) by lia.
  apply substring_app_left.
Qed.

Lemma dropWhile_idem (p : ascii -> bool) (s : string) :
  dropWhile p (dropWhile p s) = dropWhile p s.
Proof.
  induction s as [| c s IH]; cbn; [reflexivity |].
  destruct (p c) eqn:E; [exact IH | cbn; now rewrite E].
Qed.

Lemma dropWhile_headNot (p : ascii -> bool) (s : string) :
  headNot p (dropWhile p s) = true.
Proof.
  induction s as [| c s IH]; cbn; [reflexivity |].
  destruct (p c) eqn:E; [exact IH | cbn; now rewrite E].
Qed.

Lemma dropWhile_of_headNot (p : ascii -> bool) (s : string) :
  headNot p s = true -> dropWhile p s = s.
Proof.
  destruct s as [| c s]; cbn; [reflexivity |].
  intros H. apply negb_true_iff in H. now rewrite H.
Qed.

Lemma dropWhile_app_all (p : ascii -> bool) (a b : string) :
  allChars p a = true -> dropWhile p (a ++ b) = dropWhile p b.
Proof.
  induction a as [| c a IH]; cbn; [reflexivity |].
  intros H. apply andb_prop in H as [Hc Ha]. rewrite Hc. now apply IH.
Qed.

(** Dropping stops at the first character of [b] at the latest. *)
Lemma dropWhile_app_stop (p : ascii -> bool) (a : string) (c : ascii) (b : string) :
  p c = false -> dropWhile p (a ++ String c b) = dropWhile p a ++ String c b.
Proof.
  intros Hc. induction a as [| x a IH]; cbn; [now rewrite Hc |].
  destruct (p x); [exact IH | reflexivity].
Qed.

Lemma takeWhile_app_stop (p : ascii -> bool) (a b : string) :
  allChars p a = true -> headNot p b = true -> takeWhile p (a ++ b) = a.
Proof.
  intros Ha Hb. induction a as [| x a IH]; cbn.
  - destruct b as [| c b]; cbn; [reflexivity |].
    cbn in Hb. apply negb_true_iff in Hb. now rewrite Hb.
  - cbn in Ha. apply andb_prop in Ha as [Hx Ha]. rewrite Hx. now rewrite IH.
Qed.

Lemma existsChar_none (p q : ascii -> bool) (s : string) :
  (forall c, q c = true -> p c = false) -> allChars q s = true ->
  existsChar p s = false.
Proof.
  intros Hpq. induction s as [| c s IH]; cbn; [reflexivity |].
  intros H. apply andb_prop in H as [Hc Hs]. now rewrite (Hpq _ Hc), IH.
Qed.

Lemma trimEnd_idem (s : string) : trimEnd (trimEnd s) = trimEnd s.
Proof.
  induction s as [| c s IH]; cbn; [reflexivity |].
  destruct (trimEnd s) as [| k kept] eqn:E.
  - destruct (isWhiteSpace c) eqn:Ec; cbn; [reflexivity | now rewrite Ec].
  - change (trimEnd (String c (String k kept)))
      with (match trimEnd (String k kept) with
            | EmptyString => if isWhiteSpace c then EmptyString else String c EmptyString
            | r => String c r
            end).
    rewrite IH. reflexivity.
Qed.

Lemma trimEnd_headNot (s : string) :
  headNot isWhiteSpace s = true -> headNot isWhiteSpace (trimEnd s) = true.
Proof.
  destruct s as [| c s]; cbn; [reflexivity |].
  intros H. destruct (trimEnd s); [| exact H].
  apply negb_true_iff in H. rewrite H. cbn. now rewrite H.
Qed.

(** [trimEnd] leaves alone what ends with a character that is kept. *)
Lemma trimEnd_app (a b : string) :
  trimEnd b <> "" -> trimEnd (a ++ b) = a ++ trimEnd b.
Proof.
  intros Hb. induction a as [| c a IH]; cbn; [reflexivity |].
  rewrite IH. destruct (a ++ trimEnd b) as [| k kept] eqn:E; [| reflexivity].
  destruct a; cbn in E; [contradiction | discriminate].
Qed.

(** What [trim] returns, [trim] leaves as it is. *)
Lemma trim_idem (s : string) : trim (trim s) = trim s.
Proof.
  unfold trim, trimStart.
  rewrite (dropWhile_of_headNot isWhiteSpace (trimEnd (dropWhile isWhiteSpace s))).
  - apply trimEnd_idem.
  - apply trimEnd_headNot, dropWhile_headNot.
Qed.

Lemma trim_trimStart (s : string) : trim (trimStart s) = trim s.
Proof. unfold trim, trimStart. now rewrite dropWhile_idem. Qed.

Lemma lineTerminator_is_white (c : ascii) :
  isLineTerminator c = true -> isWhiteSpace c = true.
Proof.
  unfold isLineTerminator, isWhiteSpace. intros H.
  apply orb_prop in H as [H | H]; apply Nat.eqb_eq in H; rewrite H; reflexivity.
Qed.

Lemma envOrDefault_not_empty (env : Env) (name fallback : string) :
  fallback <> "" -> envOrDefault env name fallback <> "".
Proof.
  intros Hne. unfold envOrDefault.
  destruct (env name) as [v |]; [| exact Hne].
  now destruct (String.eqb_spec (trim v) "").
Qed.

(** X1. [envOrDefault] (both copies) yields the fallback when the variable
    is unset or blank and the trimmed value otherwise; with a fallback that
    is trimmed and not empty, so is what it yields. *)
Theorem envOrDefault_is_clean (env : Env) (name fallback : string) :
  fallback <> "" -> trimmed fallback ->
  envOrDefault env name fallback <> ""
  /\ trimmed (envOrDefault env name fallback)
  /\ (env name = None \/ (exists v, env name = Some v /\ trim v = "") ->
      envOrDefault env name fallback = fallback)
  /\ (forall v, env name = Some v -> trim v <> "" ->
                envOrDefault env name fallback = trim v)
  /\ Scan.envOrDefault env name fallback = envOrDefault env name fallback.
Proof.
  intros Hne Ht.
  replace (Scan.envOrDefault env name fallback) with (envOrDefault env name fallback)
    by reflexivity.
  unfold envOrDefault, trimmed.
  destruct (env name) as [v |] eqn:E.
  - destruct (String.eqb_spec (trim v) "") as [Hb | Hb].
    + split; [exact Hne |]. split; [exact Ht |]. split; [reflexivity |].
      split; [| reflexivity].
      intros v' Hv Hv'. inversion Hv; subst. contradiction.
    + split; [exact Hb |]. split; [apply trim_idem |]. split; [| split].
      * intros [H | (v' & Hv & Hv')]; [discriminate |].
        inversion Hv; subst. contradiction.
      * intros v' Hv _. now inversion Hv.
      * reflexivity.
  - split; [exact Hne |]. split; [exact Ht |]. split; [reflexivity |].
    split; [| reflexivity]. intros v Hv. discriminate.
Qed.

Lemma envOrDefault_is_clean_witness :
  envOrDefault (Sample.env "") "GITHUB_EVENT_TYPE" "scan" <> ""
  /\ trimmed (envOrDefault (Sample.env "") "GITHUB_EVENT_TYPE" "scan").
Proof.
  destruct (envOrDefault_is_clean (Sample.env "") "GITHUB_EVENT_TYPE" "scan"
              ltac:(discriminate) eq_refl) as (H1 & H2 & _).
  exact (conj H1 H2).
Defined.

(** X2. No member of the allowlist is empty or has white space around it,
    however the configuration string is written. *)
Theorem allowlist_members_are_clean (value : option string) :
  Forall (fun id => id <> "" /\ trimmed id) (parseAllowedChatIds value).
Proof.
  unfold parseAllowedChatIds. apply Forall_forall. intros id Hin.
  apply filter_In in Hin as [Hin Hne].
  apply in_map_iff in Hin as (item & <- & _).
  split.
  - apply negb_true_iff in Hne. now apply String.eqb_neq.
  - apply trim_idem.
Qed.

(** An entry of the configuration string is a member, once trimmed, exactly
    when it is not blank. *)
Lemma allowlist_membership (value : string) (id : string) :
  In id (parseAllowedChatIds (Some value))
  <-> id <> "" /\ exists item, In item (split "," value) /\ trim item = id.
Proof.
  unfold parseAllowedChatIds. rewrite filter_In, in_map_iff, negb_true_iff, String.eqb_neq.
  split.
  - intros [(item & H1 & H2) Hne]. eauto.
  - intros [Hne (item & H1 & H2)]. eauto.
Qed.

(** X3. A text that does not start with a code fence is only trimmed, and
    what [stripCodeFence] yields is always trimmed. *)
Theorem stripCodeFence_trims (raw : string) :
  (startsWith (trim raw) "```" = false -> stripCodeFence raw = trim raw)
  /\ trimmed (stripCodeFence raw).
Proof.
  unfold stripCodeFence, trimmed. split.
  - intros ->. reflexivity.
  - destruct (startsWith (trim raw) "```"); cbn [negb]; apply trim_idem.
Qed.

Lemma stripCodeFence_fenced (lang payload : string) :
  allChars isAsciiLetter lang = true ->
  headNot isAsciiLetter payload = true ->
  stripCodeFence ("```" ++ lang ++ payload ++ "```") = trim payload.
Proof.
  intros Hlang Hpay. unfold stripCodeFence.
  assert (Hwhole : trim ("```" ++ lang ++ payload ++ "```")
                   = "```" ++ lang ++ payload ++ "```").
  { unfold trim. change (trimStart ("```" ++ lang ++ payload ++ "```"))
      with ("```" ++ lang ++ payload ++ "```").
    assert (Hassoc : "```" ++ lang ++ payload ++ "```"
                     = ("```" ++ lang ++ payload) ++ "```")
      by now rewrite !str_app_assoc.
    rewrite Hassoc at 1. rewrite trimEnd_app by discriminate.
    change (trimEnd "```") with "```". symmetry. exact Hassoc. }
  rewrite Hwhole.
  assert (Hstarts : startsWith ("```" ++ lang ++ payload ++ "```") "```" = true).
  { unfold startsWith. cbn. now destruct (lang ++ payload ++ "```"). }
  rewrite Hstarts. cbn [negb].
  assert (Hslice : slice 3 ("```" ++ lang ++ payload ++ "```")
                   = lang ++ payload ++ "```").
  { change 3%nat with (String.length "```"). apply slice_app. }
  rewrite Hslice.
  rewrite (dropWhile_app_all _ lang) by exact Hlang.
  assert (Hletters : dropWhile isAsciiLetter (payload ++ "```") = payload ++ "```").
  { apply dropWhile_of_headNot. destruct payload; [reflexivity | exact Hpay]. }
  rewrite Hletters.
  change (payload ++ "```") with (payload ++ String "`" "``").
  rewrite dropWhile_app_stop by reflexivity.
  change (String "`" "``") with "```".
  fold (trimStart payload).
  rewrite endsWith_app.
  change (String.length (trimStart payload ++ "```") - 3)%nat
    with (String.length (trimStart payload ++ "```") - String.length "```")%nat.
  rewrite without_suffix. apply trim_trimStart.
Qed.

(** X4. A payload inside a code fence, after a language tag made of letters
    (or none), is stripped to the trimmed payload, provided the payload does
    not itself start with a letter right after the tag. *)
Theorem stripCodeFence_unwraps (lang payload : string) :
  allChars isAsciiLetter lang = true ->
  headNot isAsciiLetter payload = true ->
  stripCodeFence ("```" ++ lang ++ payload ++ "```") = trim payload.
Proof. exact (stripCodeFence_fenced lang payload). Qed.

Lemma stripCodeFence_unwraps_witness :
  stripCodeFence ("```" ++ "json" ++ (nl ++ Sample.iphoneText ++ nl) ++ "```")
  = trim (nl ++ Sample.iphoneText ++ nl).
Proof.
  apply (stripCodeFence_unwraps "json" (nl ++ Sample.iphoneText ++ nl)); reflexivity.
Defined.

End StrFacts.

(* ================================================================== *)
(** ** The router: grammar, local commands, readiness, the profile *)

Module RouterMore.

Import MoreSpec Webhook RouterSpec RouterFacts StrFacts.

Lemma allChars_app (p : ascii -> bool) (a b : string) :
  allChars p (a ++ b) = allChars p a && allChars p b.
Proof.
  induction a as [| c a IH]; cbn; [reflexivity |].
  now rewrite IH, andb_assoc.
Qed.

Lemma allChars_impl (p q : ascii -> bool) (s : string) :
  (forall c, p c = true -> q c = true) -> allChars p s = true -> allChars q s = true.
Proof.
  intros Hpq. induction s as [| c s IH]; cbn; [reflexivity |].
  intros H. apply andb_prop in H as [Hc Hs]. now rewrite (Hpq _ Hc), IH.
Qed.

Lemma nameChar_notWhite (c : ascii) : nameChar c = true -> notWhite c = true.
Proof.
  unfold nameChar, notWhite. intros H. apply negb_true_iff in H.
  apply orb_false_elim in H as [_ H]. now rewrite H.
Qed.

(** The grammar of a command text: a slash, a name, an optional bot
    qualifier, and the rest after white space. *)
Lemma command_text_parts (name qualifier rest : string) :
  name <> "" ->
  allChars nameChar name = true ->
  (qualifier = "" \/ exists bot, qualifier = "@" ++ bot /\ allChars notWhite bot = true) ->
  headNot notWhite rest = true ->
  let text := "/" ++ name ++ qualifier ++ rest in
  firstToken text = "/" ++ name ++ qualifier
  /\ commandName (firstToken text) = name
  /\ trim (slice (String.length (firstToken text)) text) = trim rest.
Proof.
  intros Hne Hname Hq Hrest text.
  assert (Hqual : allChars notWhite qualifier = true /\ headNot nameChar qualifier = true).
  { destruct Hq as [-> | (bot & -> & Hbot)]; [split; reflexivity |].
    split; [cbn; exact Hbot | reflexivity]. }
  destruct Hqual as [Hqw Hqh].
  assert (Htext : text = ("/" ++ name ++ qualifier) ++ rest).
  { unfold text. cbn. f_equal. now rewrite str_app_assoc. }
  assert (Htoken : firstToken text = "/" ++ name ++ qualifier).
  { rewrite Htext. unfold firstToken. apply takeWhile_app_stop; [| exact Hrest].
    change (allChars notWhite (String "/" (name ++ qualifier)) = true).
    cbn [allChars]. rewrite allChars_app, Hqw.
    rewrite (allChars_impl _ _ _ nameChar_notWhite Hname). reflexivity. }
  rewrite Htoken. split; [reflexivity |]. split.
  - change ("/" ++ name ++ qualifier) with (String "/" (name ++ qualifier)).
    unfold commandName. fold nameChar.
    rewrite (takeWhile_app_stop nameChar name qualifier Hname Hqh).
    rewrite slice_app.
    destruct (String.eqb_spec name ""); [contradiction |].
    rewrite (existsChar_none isLineTerminator notWhite qualifier); [reflexivity | | exact Hqw].
    intros c Hc. destruct (isLineTerminator c) eqn:E; [| reflexivity].
    apply lineTerminator_is_white in E. unfold notWhite in Hc. now rewrite E in Hc.
  - rewrite Htext. now rewrite slice_app.
Qed.

(** What [gates] hands over is read off the request and the environment. *)
Lemma gates_route_inv rt env req l command args :
  gates rt env req = Route l command args ->
  exists text,
  textOf (selectMessage (body req)) = Normal text
  /\ command = toLowerCase (commandName (firstToken text))
  /\ args = trim (slice (String.length (firstToken text)) text)
  /\ botToken l = tpl (env "TELEGRAM_BOT_TOKEN")
  /\ githubToken l = env "GITHUB_TOKEN"
  /\ githubOwner l = env "GITHUB_OWNER"
  /\ githubRepo l = env "GITHUB_REPO"
  /\ eventType l = envOrDefault env "GITHUB_EVENT_TYPE" DEFAULT_DISPATCH_EVENT.
Proof.
  unfold gates. intros H.
  repeat match type of H with
         | (if ?b then _ else _) = _ => destruct b; try discriminate
         | match ?x with _ => _ end = _ => destruct x eqn:?; try discriminate
         end.
  inversion H; subst. cbn. eexists. repeat split; reflexivity.
Qed.

(** X5. A routed text of the form [/name], [/name@bot], followed or not by
    white space and an argument, selects the command [name] in lower case,
    whatever the bot qualifier, with the trimmed remainder as argument. *)
Theorem command_grammar rt env req l command args name qualifier rest :
  gates rt env req = Route l command args ->
  textOf (selectMessage (body req)) = Normal ("/" ++ name ++ qualifier ++ rest) ->
  name <> "" ->
  allChars nameChar name = true ->
  (qualifier = "" \/ exists bot, qualifier = "@" ++ bot /\ allChars notWhite bot = true) ->
  headNot notWhite rest = true ->
  command = toLowerCase name /\ args = trim rest.
Proof.
  intros Hg Htext Hne Hname Hq Hrest.
  destruct (gates_route_inv _ _ _ _ _ _ Hg) as (text & Htext' & Hc & Ha & _).
  destruct (command_text_parts name qualifier rest Hne Hname Hq Hrest) as (Ht & Hn & Hr).
  assert (Heq : text = "/" ++ name ++ qualifier ++ rest) by congruence.
  subst text. rewrite Hc, Ha.
  split; [now rewrite Hn | exact Hr].
Qed.

Lemma command_grammar_witness :
  "last" = toLowerCase "Last" /\ "7" = trim "   7".
Proof.
  apply (command_grammar Sample.runtime (Sample.env "")
           (Sample.delivery "webhook_secret" " /Last@Tech_Sniper_bot   7  ")
           Sample.locals "last" "7" "Last" "@Tech_Sniper_bot" "   7").
  - reflexivity.
  - reflexivity.
  - discriminate.
  - reflexivity.
  - right. exists "Tech_Sniper_bot". split; reflexivity.
  - reflexivity.
Defined.

Lemma reply_and_return (l : Locals) (text : string) net tr :
  repliedOnce l text tr
    (tryCatch (bind (reply l text) (fun _ => ret ok200)) (onError l) net tr).
Proof.
  unfold repliedOnce, tryCatch, bind. rewrite reply_run.
  destruct (net tr (replyCall l text)) as [e | r].
  - right. exists (errorDetails e). rewrite onError_run, <- app_assoc. reflexivity.
  - destruct (ok r).
    + left. reflexivity.
    + right. eexists. rewrite onError_run, <- app_assoc. reflexivity.
Qed.

Lemma not_backend_command (command : string) :
  ~ In command backendCommands ->
  (command =? "profile") = false /\ (command =? "scan") = false
  /\ (command =? "smoke") = false /\ (command =? "status") = false
  /\ (command =? "last") = false.
Proof.
  intros H. repeat split; apply String.eqb_neq; intros ->; apply H; cbn; auto 6.
Qed.

Lemma reply_and_return_told (l : Locals) (text : string) net tr :
  repliedThen net l text tr
    (tryCatch (bind (reply l text) (fun _ => ret ok200)) (onError l) net tr).
Proof.
  unfold repliedThen, tryCatch, bind. rewrite reply_run. cbv zeta.
  destruct (net tr (replyCall l text)) as [[message |] | r].
  - rewrite onError_run, <- app_assoc. reflexivity.
  - rewrite onError_run, <- app_assoc. reflexivity.
  - fold (ok r). destruct (ok r).
    + reflexivity.
    + rewrite onError_run, <- app_assoc. reflexivity.
Qed.

(** X6. A command outside the five backend commands ([start], [help], [id],
    [rules] and every unknown name) is answered with its fixed reply and
    never makes a call to GitHub. When the reply is answered with a success
    it is the only call and the response is 200 with [{ ok: true }]; when
    it is refused, or the call fails, the error reply follows and the
    response is 200 with [ok: false] and the error. *)
Theorem local_commands_only_reply rt env req l command args net tr :
  gates rt env req = Route l command args ->
  ~ In command backendCommands ->
  repliedThen net l (localReply rt l command) tr (handler rt env req net tr).
Proof.
  intros Hg Hlocal. rewrite (handler_routed _ _ _ _ _ _ Hg).
  destruct (not_backend_command _ Hlocal) as (H1 & H2 & H3 & H4 & H5).
  unfold commandHandlers, localReply. rewrite H1, H2, H3, H4, H5.
  destruct (command =? "start"); [apply reply_and_return_told |].
  destruct (command =? "help"); [apply reply_and_return_told |].
  destruct (command =? "id"); [apply reply_and_return_told |].
  destruct (command =? "rules"); apply reply_and_return_told.
Qed.

Lemma local_commands_only_reply_witness :
  handler Sample.runtime (Sample.env "") (Sample.delivery "webhook_secret" "/ID")
          Sample.repliesDown []
  = (Normal (json 200 [("ok", JBool false);
                       ("error", JStr "Telegram sendMessage failed: 403 blocked")]),
     [SendMessage "token" (JNum (Fin 123)) "chat_id: 123";
      SendMessage "token" (JNum (Fin 123))
        "Errore comando: Telegram sendMessage failed: 403 blocked"]).
Proof.
  apply (local_commands_only_reply Sample.runtime (Sample.env "")
           (Sample.delivery "webhook_secret" "/ID") Sample.locals "id" ""
           Sample.repliesDown [] eq_refl).
  cbn. intros [H | [H | [H | [H | [H | []]]]]]; discriminate.
Defined.

(** X7. When one of the three connection parameters of the backend is
    missing, each of the five backend commands only replies that the
    configuration is missing: no dispatch, no access to the variable store,
    whatever the argument. *)
Theorem unready_backend_only_replies rt env req l command args net tr :
  gates rt env req = Route l command args ->
  In command backendCommands ->
  githubReady l = false ->
  repliedOnce l configMissing tr (handler rt env req net tr).
Proof.
  intros Hg Hin Hready. rewrite (handler_routed _ _ _ _ _ _ Hg).
  cbn in Hin.
  destruct Hin as [<- | [<- | [<- | [<- | [<- | []]]]]];
    cbn [commandHandlers String.eqb Ascii.eqb Bool.eqb];
    unfold profileCommand, scanCommand, smokeCommand, statusCommand, lastCommand;
    rewrite Hready; apply reply_and_return.
Qed.

Lemma unready_backend_only_replies_witness :
  repliedOnce
    {| botToken := "token"; chatId := Fin 123; userId := Some (Fin 999);
       githubToken := Some "ghp_test"; githubOwner := Some "owner";
       githubRepo := None; eventType := "scan" |}
    configMissing []
    (handler Sample.runtime (Sample.without "GITHUB_REPO" (Sample.env ""))
             (Sample.delivery "webhook_secret" "/scan") Sample.allOk []).
Proof.
  apply (unready_backend_only_replies Sample.runtime
           (Sample.without "GITHUB_REPO" (Sample.env ""))
           (Sample.delivery "webhook_secret" "/scan") _ "scan" "" Sample.allOk []
           eq_refl).
  - cbn. auto.
  - reflexivity.
Defined.

Lemma commandHandlers_profile rt env l args :
  commandHandlers rt env l "profile" args = profileCommand rt env l args.
Proof. reflexivity. Qed.

Lemma has_In (set : list string) (x : string) : has set x = true -> In x set.
Proof.
  unfold has. intros H. apply existsb_exists in H as (y & Hy & E).
  apply String.eqb_eq in E. now subst.
Qed.

(** What [parseProfileArg] tells apart. *)
Lemma parseProfileArg_cases (rawArg : string) :
  match parseProfileArg rawArg with
  | ModeShow => In (toLowerCase (trim rawArg)) [""; "show"; "get"; "status"]
  | ModeSet value =>
      In value STRATEGY_PROFILES /\ value = firstToken (toLowerCase (trim rawArg))
  | ModeInvalid value =>
      ~ In value STRATEGY_PROFILES /\ value = firstToken (toLowerCase (trim rawArg))
  end.
Proof.
  unfold parseProfileArg.
  set (raw := toLowerCase (trim rawArg)).
  destruct (String.eqb_spec raw "") as [-> | H1]; [cbn; auto |].
  destruct (String.eqb_spec raw "show") as [-> | H2]; [cbn; auto |].
  destruct (String.eqb_spec raw "get") as [-> | H3]; [cbn; auto |].
  destruct (String.eqb_spec raw "status") as [-> | H4]; [cbn; auto |].
  cbn [orb].
  destruct (has STRATEGY_PROFILES (firstToken raw)) eqn:E; cbn [negb].
  - split; [now apply has_In | reflexivity].
  - split; [| reflexivity]. intros Hin.
    unfold has in E. rewrite <- Bool.not_true_iff_false in E. apply E.
    apply existsb_exists. exists (firstToken raw). split; [exact Hin |].
    apply String.eqb_refl.
Qed.

(** X8. [/profile] with a first word that is not one of the three profiles
    (and an argument that is not empty, [show], [get] or [status]) only
    replies that the value is invalid: the variable store is not touched. *)
Theorem invalid_profile_is_not_written rt env req l args net tr :
  gates rt env req = Route l "profile" args ->
  githubReady l = true ->
  ~ In (toLowerCase (trim args)) [""; "show"; "get"; "status"] ->
  ~ In (firstToken (toLowerCase (trim args))) STRATEGY_PROFILES ->
  repliedOnce l "Valore non valido. Usa: /profile conservative | balanced | aggressive"
              tr (handler rt env req net tr).
Proof.
  intros Hg Hready Hshow Hset.
  rewrite (handler_routed _ _ _ _ _ _ Hg), commandHandlers_profile.
  unfold profileCommand. rewrite Hready. cbn [negb].
  pose proof (parseProfileArg_cases args) as Hp.
  destruct (parseProfileArg args) as [| value | value].
  - contradiction.
  - apply reply_and_return.
  - destruct Hp as [Hin ->]. contradiction.
Qed.

Lemma invalid_profile_is_not_written_witness :
  repliedOnce Sample.locals
    "Valore non valido. Usa: /profile conservative | balanced | aggressive" []
    (handler Sample.runtime (Sample.env "")
             (Sample.delivery "webhook_secret" "/profile Turbo mode")
             Sample.profileStore []).
Proof.
  apply (invalid_profile_is_not_written Sample.runtime (Sample.env "")
           (Sample.delivery "webhook_secret" "/profile Turbo mode")
           Sample.locals "Turbo mode" Sample.profileStore [] eq_refl eq_refl).
  - cbn. intros [H | [H | [H | [H | []]]]]; discriminate.
  - cbn. intros [H | [H | [H | []]]]; discriminate.
Defined.

Lemma tryCatch_bind_normal {A B} (m : M A) (k : A -> M B) (h : Thrown -> M B)
  net tr a tr1 :
  m net tr = (Normal a, tr1) ->
  tryCatch (bind m k) h net tr = tryCatch (k a) h net tr1.
Proof. intros H. unfold tryCatch, bind. now rewrite H. Qed.

Lemma tryCatch_bind_abrupt {A B} (m : M A) (k : A -> M B) (h : Thrown -> M B)
  net tr e tr1 :
  m net tr = (Abrupt e, tr1) ->
  tryCatch (bind m k) h net tr = h e net tr1.
Proof. intros H. unfold tryCatch, bind. now rewrite H. Qed.

Lemma getGitHubVariable_run rt githubToken owner repo name net tr :
  exists c,
    getGitHubVariable rt githubToken owner repo name net tr
    = (c, (tr ++ [getCall githubToken owner repo name])%list)
    /\ (forall e, net tr (getCall githubToken owner repo name) = Rejected e ->
                  c = Abrupt e)
    /\ (forall r, net tr (getCall githubToken owner repo name) = Fulfilled r ->
          (status r = 404 -> c = Normal JNull)
          /\ (status r <> 404 -> ok r = false ->
              c = Abrupt (ErrorObject ("GitHub variable read failed: "
                                       ++ Z_to_string (status r) ++ " " ++ Net.text r)))
          /\ (ok r = true ->
              (Net.text r = "" \/ JSON_parse rt (Net.text r) = None -> c = Normal JNull)
              /\ (forall v, Net.text r <> "" -> JSON_parse rt (Net.text r) = Some v ->
                            c = Normal (if truthy v then v else JNull)))).
Proof.
  unfold getGitHubVariable, githubApiRequest, bind. rewrite fetch_run.
  change (GitHubApi githubToken "GET" (variablePath owner repo name) None)
    with (getCall githubToken owner repo name).
  destruct (net tr (getCall githubToken owner repo name)) as [e | r] eqn:E.
  - eexists. split; [reflexivity |]. split.
    + intros e' H. now inversion H.
    + intros r H. discriminate.
  - cbn [ret r_status r_ok r_text r_json].
    destruct (Z.eqb_spec (status r) 404) as [H404 | H404].
    + exists (Normal JNull). split; [reflexivity |].
      split; [intros e H; discriminate |].
      intros r' H. inversion H; subst r'; clear H.
      split; [reflexivity |]. split; [contradiction |].
      intros Hok. rewrite (ok_not_404 _ H404) in Hok. discriminate.
    + destruct (ok r) eqn:Hok; cbn [negb].
      * eexists. split; [reflexivity |]. split; [intros e H; discriminate |].
        intros r' H. inversion H; subst r'; clear H.
        split; [contradiction |]. rewrite Hok. split; [discriminate |].
        intros _. split.
        -- intros [-> | Hnone]; [reflexivity |].
           rewrite Hnone. now destruct (Net.text r =? "").
        -- intros v Hne Hv.
           destruct (String.eqb_spec (Net.text r) ""); [contradiction |].
           rewrite Hv. reflexivity.
      * eexists. split; [reflexivity |]. split; [intros e H; discriminate |].
        intros r' H. inversion H; subst r'; clear H.
        split; [contradiction |]. rewrite Hok. split; [reflexivity | discriminate].
Qed.

(** X9. A read of a variable is one GET, whatever it is answered. A 404
    reads as [null], without error; so does a success whose body is empty,
    is not JSON, or is a falsy JSON value; any other status that is not a
    success, and a failure of the call itself, raise an error. *)
Theorem getGitHubVariable_protocol rt githubToken owner repo name net tr :
  exists c,
    getGitHubVariable rt githubToken owner repo name net tr
    = (c, (tr ++ [getCall githubToken owner repo name])%list)
    /\ (forall e, net tr (getCall githubToken owner repo name) = Rejected e ->
                  c = Abrupt e)
    /\ (forall r, net tr (getCall githubToken owner repo name) = Fulfilled r ->
          (status r = 404 -> c = Normal JNull)
          /\ (status r <> 404 -> ok r = false ->
              c = Abrupt (ErrorObject ("GitHub variable read failed: "
                                       ++ Z_to_string (status r) ++ " " ++ Net.text r)))
          /\ (ok r = true ->
              (Net.text r = "" \/ JSON_parse rt (Net.text r) = None -> c = Normal JNull)
              /\ (forall v, Net.text r <> "" -> JSON_parse rt (Net.text r) = Some v ->
                            c = Normal (if truthy v then v else JNull)))).
Proof. exact (getGitHubVariable_run rt githubToken owner repo name net tr). Qed.

(** X10. [/profile] without a value ([show], [get], [status] or nothing)
    reads the variable and replies with it in lower case; when the store
    answers 404 it replies with the [STRATEGY_PROFILE] of the environment,
    or with [balanced] when that is unset or blank. Nothing is written. *)
Theorem profile_show_reports rt env req l args net tr :
  gates rt env req = Route l "profile" args ->
  githubReady l = true ->
  In (toLowerCase (trim args)) [""; "show"; "get"; "status"] ->
  let read := getCall (tpl (githubToken l)) (tpl (githubOwner l)) (tpl (githubRepo l))
                      STRATEGY_PROFILE_VAR in
  (forall r, net tr read = Fulfilled r -> status r = 404 ->
     repliedOnce l (activeProfile (toLowerCase (envOrDefault env STRATEGY_PROFILE_VAR
                                                            "balanced")))
                 (tr ++ [read])%list (handler rt env req net tr))
  /\ (forall r v value,
        net tr read = Fulfilled r -> ok r = true -> Net.text r <> "" ->
        JSON_parse rt (Net.text r) = Some v -> truthy v = true ->
        optProp v "value" = JStr value -> value <> "" ->
        repliedOnce l (activeProfile (toLowerCase value))
                    (tr ++ [read])%list (handler rt env req net tr)).
Proof.
  intros Hg Hready Hshow read.
  rewrite (handler_routed _ _ _ _ _ _ Hg), commandHandlers_profile.
  unfold profileCommand. rewrite Hready. cbn [negb].
  pose proof (parseProfileArg_cases args) as Hp.
  assert (Hmode : parseProfileArg args = ModeShow).
  { unfold parseProfileArg. cbn in Hshow.
    destruct Hshow as [<- | [<- | [<- | [<- | []]]]]; reflexivity. }
  rewrite Hmode. clear Hp.
  destruct (getGitHubVariable_run rt (tpl (githubToken l)) (tpl (githubOwner l))
              (tpl (githubRepo l)) STRATEGY_PROFILE_VAR net tr)
    as (c & Hrun & _ & Hful).
  fold read in Hrun, Hful.
  split.
  - intros r Hr H404. destruct (Hful r Hr) as (Hnull & _).
    rewrite (Hnull H404) in Hrun.
    rewrite (tryCatch_bind_normal _ _ _ _ _ _ _ Hrun).
    apply reply_and_return.
  - intros r v value Hr Hok Hne Hv Htruthy Hvalue Hvne.
    destruct (Hful r Hr) as (_ & _ & Hsucc).
    destruct (Hsucc Hok) as (_ & Hsome).
    rewrite (Hsome v Hne Hv), Htruthy in Hrun.
    rewrite (tryCatch_bind_normal _ _ _ _ _ _ _ Hrun).
    unfold or_else. rewrite Hvalue. cbn [truthy].
    destruct (String.eqb_spec value ""); [contradiction |]. cbn [negb toLowerCaseOf].
    apply reply_and_return.
Qed.

Lemma profile_show_reports_witness :
  repliedOnce Sample.locals (activeProfile (toLowerCase "aggressive"))
    ([] ++ [getCall "ghp_test" "owner" "repo" STRATEGY_PROFILE_VAR])%list
    (handler Sample.runtime (Sample.env "") (Sample.delivery "webhook_secret" "/profile")
             Sample.profileStore []).
Proof.
  apply (proj2 (profile_show_reports Sample.runtime (Sample.env "")
                  (Sample.delivery "webhook_secret" "/profile") Sample.locals ""
                  Sample.profileStore [] eq_refl eq_refl (or_introl eq_refl))
               {| status := 200; Net.text := Sample.aggressiveText |} Sample.aggressive
               "aggressive");
    try reflexivity; discriminate.
Defined.

(** X11. [/profile] with one of the three profiles as first word, in any
    case, writes that profile in lower case and confirms it only after the
    store has acknowledged the write; when the write fails the chat is told
    the error instead, and no confirmation is sent. *)
Theorem profile_set_confirms_after_write rt env req l args net tr :
  gates rt env req = Route l "profile" args ->
  githubReady l = true ->
  ~ In (toLowerCase (trim args)) [""; "show"; "get"; "status"] ->
  In (firstToken (toLowerCase (trim args))) STRATEGY_PROFILES ->
  let value := firstToken (toLowerCase (trim args)) in
  let write := upsertGitHubVariable rt (tpl (githubToken l)) (tpl (githubOwner l))
                 (tpl (githubRepo l)) STRATEGY_PROFILE_VAR value in
  (forall tr1, write net tr = (Normal tt, tr1) ->
     repliedOnce l (profileUpdated value) tr1 (handler rt env req net tr))
  /\ (forall e tr1, write net tr = (Abrupt e, tr1) ->
        handler rt env req net tr
        = (Normal (json 200 [("ok", JBool false); ("error", JStr (errorDetails e))]),
           (tr1 ++ [replyCall l ("Errore comando: " ++ errorDetails e)])%list)).
Proof.
  intros Hg Hready Hshow Hset value write.
  rewrite (handler_routed _ _ _ _ _ _ Hg), commandHandlers_profile.
  unfold profileCommand. rewrite Hready. cbn [negb].
  pose proof (parseProfileArg_cases args) as Hp.
  destruct (parseProfileArg args) as [| bad | good].
  - contradiction.
  - destruct Hp as [Hnot ->]. contradiction.
  - destruct Hp as [_ ->]. fold value. fold write. split.
    + intros tr1 Hrun. rewrite (tryCatch_bind_normal _ _ _ _ _ _ _ Hrun).
      apply reply_and_return.
    + intros e tr1 Hrun. rewrite (tryCatch_bind_abrupt _ _ _ _ _ _ _ Hrun).
      apply onError_run.
Qed.

Lemma profile_set_confirms_after_write_witness :
  repliedOnce Sample.locals (profileUpdated "balanced")
    [patchCall "ghp_test" "owner" "repo" STRATEGY_PROFILE_VAR "balanced";
     postCall "ghp_test" "owner" "repo" STRATEGY_PROFILE_VAR "balanced"]
    (handler Sample.runtime (Sample.env "")
             (Sample.delivery "webhook_secret" "/profile BALANCED please")
             Sample.emptyStore []).
Proof.
  apply (proj1 (profile_set_confirms_after_write Sample.runtime (Sample.env "")
                  (Sample.delivery "webhook_secret" "/profile BALANCED please")
                  Sample.locals "BALANCED please" Sample.emptyStore []
                  eq_refl eq_refl
                  ltac:(cbn; intros [H | [H | [H | [H | []]]]]; discriminate)
                  ltac:(cbn; auto))).
  reflexivity.
Defined.

Lemma gates_respond_code rt env req response :
  gates rt env req = Respond response ->
  In (code response) [405; 401; 500]
  \/ response = json 200 [("ok", JBool true); ("ignored", JBool true)].
Proof.
  unfold gates. intros H.
  repeat match type of H with
         | (if ?b then _ else _) = _ => destruct b; try discriminate
         | match ?x with _ => _ end = _ => destruct x eqn:?; try discriminate
         end;
    inversion H; subst; cbn; auto.
Qed.

(** X12. The webhook handler throws in one case only: a request that
    passes the three guards and whose message text is a truthy value that
    is not a string; it then throws before any outbound call. In every
    other case, whatever the network answers, it returns a response, which
    is a 200 unless it is the 405, 401 or 500 of the guards, and those are
    sent before any outbound call is made. *)
Theorem webhook_acknowledges_unless_text_malformed rt env req net tr :
  let badText := admitted env req && malformedText (selectMessage (body req)) in
  (badText = true -> exists e, handler rt env req net tr = (Abrupt e, tr))
  /\ (badText = false ->
      exists response tr',
        handler rt env req net tr = (Normal response, tr')
        /\ (code response = 200
            \/ (tr' = tr /\ In (code response) [405; 401; 500]))).
Proof.
  intros badText. unfold badText. split.
  - intros H. apply andb_prop in H as [Ha Hbad]. now apply malformed_text_raises.
  - intros H. unfold handler.
    destruct (gates rt env req) as [response | error | l | l command args] eqn:Hg.
    + exists response, tr. split; [reflexivity |].
      destruct (gates_respond_code _ _ _ _ Hg) as [Hc | ->]; [right | left]; auto.
    + exfalso. apply gates_raise_inv in Hg as [Ha Hthrown].
      rewrite Ha in H. cbn [andb] in H.
      destruct (textOf_wellformed _ H) as (s & _ & Hs). congruence.
    + unfold bind. rewrite best_effort_reply. eexists _, _. split; [reflexivity |].
      left. reflexivity.
    + unfold tryCatch.
      destruct (commandHandlers rt env l command args net tr) as [[r | e] tr1] eqn:E.
      * exists r, tr1. split; [reflexivity |]. left.
        now rewrite (commandHandlers_returns_ok200 _ _ _ _ _ _ _ _ _ E).
      * rewrite onError_run. eexists _, _. split; [reflexivity |]. left. reflexivity.
Qed.

Lemma webhook_acknowledges_unless_text_malformed_witness :
  exists e,
    handler Sample.runtime (Sample.env "")
            (Sample.numericText (Some {| chat_id := Some (Fin 123) |})) Sample.allOk []
    = (Abrupt e, []).
Proof.
  apply (proj1 (webhook_acknowledges_unless_text_malformed Sample.runtime (Sample.env "")
                  (Sample.numericText (Some {| chat_id := Some (Fin 123) |}))
                  Sample.allOk [])).
  reflexivity.
Defined.

Section Budget.

Context (w : Call -> nat).

Lemma weight_app (a b : list Call) : weight w (a ++ b) = (weight w a + weight w b)%nat.
Proof. unfold weight. now rewrite map_app, list_sum_app. Qed.

Lemma atMost_ret {A} (n : nat) (a : A) : atMost w n (ret a).
Proof.
  intros net tr c tr' H. inversion H; subst. exists [].
  split; [now rewrite app_nil_r | cbn; lia].
Qed.

Lemma atMost_throw {A} (n : nat) (e : Thrown) : atMost w n (@throw A e).
Proof.
  intros net tr c tr' H. inversion H; subst. exists [].
  split; [now rewrite app_nil_r | cbn; lia].
Qed.

Lemma atMost_lift {A} (n : nat) (c : Completion A) : atMost w n (lift c).
Proof.
  intros net tr c' tr' H. inversion H; subst. exists [].
  split; [now rewrite app_nil_r | cbn; lia].
Qed.

Lemma atMost_fetch (n : nat) (c : Call) : (w c <= n)%nat -> atMost w n (fetch c).
Proof.
  intros Hc net tr c' tr' H. rewrite fetch_run in H. inversion H; subst.
  exists [c]. split; [reflexivity | unfold weight; cbn [map list_sum fold_right]; lia].
Qed.

(** The budget [n] of a sequence is split: [n1] for the first part, the
    rest for what follows. *)
Lemma atMost_bind {A B} (n1 n : nat) (m : M A) (k : A -> M B) :
  (n1 <= n)%nat -> atMost w n1 m -> (forall a, atMost w (n - n1) (k a)) ->
  atMost w n (bind m k).
Proof.
  intros Hle Hm Hk net tr c tr' H. unfold bind in H.
  destruct (m net tr) as [[a | e] tr1] eqn:E.
  - destruct (Hm _ _ _ _ E) as (x & -> & Hx).
    destruct (Hk a _ _ _ _ H) as (y & -> & Hy).
    exists (x ++ y)%list. split; [now rewrite app_assoc |]. rewrite weight_app. lia.
  - inversion H; subst. destruct (Hm _ _ _ _ E) as (x & -> & Hx).
    exists x. split; [reflexivity | lia].
Qed.

Lemma atMost_tryCatch {A} (n2 n : nat) (m : M A) (h : Thrown -> M A) :
  (n2 <= n)%nat -> atMost w (n - n2) m -> (forall e, atMost w n2 (h e)) ->
  atMost w n (tryCatch m h).
Proof.
  intros Hle Hm Hh net tr c tr' H. unfold tryCatch in H.
  destruct (m net tr) as [[a | e] tr1] eqn:E.
  - inversion H; subst. destruct (Hm _ _ _ _ E) as (x & -> & Hx).
    exists x. split; [reflexivity | lia].
  - destruct (Hm _ _ _ _ E) as (x & -> & Hx).
    destruct (Hh e _ _ _ _ H) as (y & -> & Hy).
    exists (x ++ y)%list. split; [now rewrite app_assoc |]. rewrite weight_app. lia.
Qed.

Lemma atMost_reply (n : nat) (l : Locals) (text : string) :
  (w (replyCall l text) <= n)%nat -> atMost w n (reply l text).
Proof.
  intros Hc net tr c tr' H. rewrite reply_run in H. inversion H; subst.
  exists [replyCall l text]. split; [reflexivity | unfold weight; cbn [map list_sum fold_right]; lia].
Qed.

Lemma atMost_dispatch (n : nat) (l : Locals) (payload : JsVal) :
  (w (dispatchCall l payload) <= n)%nat -> atMost w n (dispatch l payload).
Proof.
  intros Hc net tr c tr' H. rewrite dispatch_run in H. inversion H; subst.
  exists [dispatchCall l payload]. split; [reflexivity | unfold weight; cbn [map list_sum fold_right]; lia].
Qed.

Lemma atMost_onError (n : nat) (l : Locals) (e : Thrown) :
  (w (replyCall l ("Errore comando: " ++ errorDetails e)) <= n)%nat ->
  atMost w n (onError l e).
Proof.
  intros Hc net tr c tr' H. rewrite onError_run in H.
  exists [replyCall l ("Errore comando: " ++ errorDetails e)].
  split; [now inversion H | unfold weight; cbn [map list_sum fold_right]; lia].
Qed.

Lemma atMost_githubApiRequest (n : nat) rt githubToken method path body :
  (w (GitHubApi githubToken method path body) <= n)%nat ->
  atMost w n (githubApiRequest rt githubToken method path body).
Proof.
  intros Hc. unfold githubApiRequest.
  apply (atMost_bind n n); [lia | now apply atMost_fetch | intros; apply atMost_ret].
Qed.

Lemma atMost_getGitHubVariable (n : nat) rt githubToken owner repo name :
  (w (getCall githubToken owner repo name) <= n)%nat ->
  atMost w n (getGitHubVariable rt githubToken owner repo name).
Proof.
  intros Hc. unfold getGitHubVariable.
  apply (atMost_bind n n); [lia | now apply atMost_githubApiRequest |].
  intros result. destruct (r_status result =? 404)%Z; [apply atMost_ret |].
  destruct (negb (r_ok result)); [apply atMost_throw | apply atMost_ret].
Qed.

Lemma atMost_upsertGitHubVariable (n : nat) rt githubToken owner repo name value :
  (w (patchCall githubToken owner repo name value)
   + w (postCall githubToken owner repo name value) <= n)%nat ->
  atMost w n (upsertGitHubVariable rt githubToken owner repo name value).
Proof.
  intros Hc. unfold upsertGitHubVariable.
  apply (atMost_bind (w (patchCall githubToken owner repo name value)) n);
    [lia | apply atMost_githubApiRequest; exact (le_n _) |].
  intros update. destruct (r_ok update); [apply atMost_ret |].
  destruct (negb (r_status update =? 404)%Z); [apply atMost_throw |].
  apply (atMost_bind (w (postCall githubToken owner repo name value))
                     (n - w (patchCall githubToken owner repo name value)));
    [lia
    | apply atMost_githubApiRequest;
      apply Nat.le_trans with (m := w (postCall githubToken owner repo name value));
      [exact (le_n _) | lia] |].
  intros create. destruct (negb (r_ok create)); [apply atMost_throw | apply atMost_ret].
Qed.

End Budget.

(** Walks a handler with a budget: every call site spends what its call
    weighs, both branches of a test get what is left. *)
Ltac weigh :=
  unfold callWeight, dispatchWeight, replyCall, dispatchCall, isDispatch; lia.

Ltac spend w :=
  repeat match goal with
         | |- atMost _ _ (ret _) => apply atMost_ret
         | |- atMost _ _ (throw _) => apply atMost_throw
         | |- atMost _ _ (lift _) => apply atMost_lift
         | |- atMost _ _ (reply _ _) => apply atMost_reply; weigh
         | |- atMost _ _ (dispatch _ _) => apply atMost_dispatch; weigh
         | |- atMost _ _ (onError _ _) => apply atMost_onError; weigh
         | |- atMost _ _ (githubApiRequest _ _ _ _ _) =>
             apply atMost_githubApiRequest; weigh
         | |- atMost _ ?n (bind (reply ?l ?t) _) =>
             let c := eval cbv in (w (replyCall l "")) in
             apply (atMost_bind w c n); [weigh | apply atMost_reply; weigh | intros; cbn [Nat.sub]]
         | |- atMost _ ?n (bind (dispatch ?l ?p) _) =>
             let c := eval cbv in (w (dispatchCall l JNull)) in
             apply (atMost_bind w c n); [weigh | apply atMost_dispatch; weigh | intros; cbn [Nat.sub]]
         | |- atMost _ ?n (bind (githubApiRequest _ ?t ?m ?p ?b) _) =>
             let c := eval cbv in (w (GitHubApi "" "" "" None)) in
             apply (atMost_bind w c n);
             [weigh | apply atMost_githubApiRequest; weigh | intros; cbn [Nat.sub]]
         | |- atMost _ ?n (bind (getGitHubVariable _ _ _ _ _) _) =>
             let c := eval cbv in (w (GitHubApi "" "" "" None)) in
             apply (atMost_bind w c n);
             [weigh | apply atMost_getGitHubVariable; unfold getCall; weigh
             | intros; cbn [Nat.sub]]
         | |- atMost _ ?n (bind (upsertGitHubVariable _ _ _ _ _ _) _) =>
             let c := eval cbv in (w (GitHubApi "" "" "" None) + w (GitHubApi "" "" "" None))%nat in
             apply (atMost_bind w c n);
             [weigh | apply atMost_upsertGitHubVariable; unfold patchCall, postCall; weigh
             | intros; cbn [Nat.sub]]
         | |- atMost _ ?n (bind (lift _) _) =>
             apply (atMost_bind w 0 n); [lia | apply atMost_lift | intros; cbn [Nat.sub]]
         | |- atMost _ ?n (tryCatch _ (onError ?l)) =>
             let c := eval cbv in (w (replyCall l "")) in
             apply (atMost_tryCatch w c n);
             [weigh | cbn [Nat.sub] | intros; apply atMost_onError; weigh]
         | |- atMost _ ?n (tryCatch _ (fun _ => ret _)) =>
             apply (atMost_tryCatch w 0 n);
             [lia | cbn [Nat.sub] | intros; apply atMost_ret]
         | |- atMost _ _ (if ?b then _ else _) => destruct b
         | |- atMost _ _ (match ?x with _ => _ end) => destruct x
         end.

Lemma weight_cons (w : Call -> nat) (c : Call) (calls : list Call) :
  weight w (c :: calls) = (w c + weight w calls)%nat.
Proof. reflexivity. Qed.

Lemma weight_dispatches (calls : list Call) :
  weight dispatchWeight calls = List.length (filter isDispatch calls).
Proof.
  induction calls as [| c calls IH]; [reflexivity |].
  rewrite weight_cons, IH. unfold dispatchWeight. cbn [filter].
  destruct (isDispatch c); reflexivity.
Qed.

Lemma weight_calls (calls : list Call) : weight callWeight calls = List.length calls.
Proof.
  induction calls as [| c calls IH]; [reflexivity |].
  rewrite weight_cons, IH. reflexivity.
Qed.

Lemma handler_budget (w : Call -> nat) (n : nat) rt env req :
  (forall l t, w (replyCall l t) = w (replyCall l "")) ->
  (forall l command args, atMost w n (tryCatch (commandHandlers rt env l command args)
                                               (onError l))) ->
  (forall l t, w (replyCall l t) <= n)%nat ->
  atMost w n (handler rt env req).
Proof.
  intros Hw Hroute Hreply. unfold handler.
  destruct (gates rt env req) as [response | error | l | l command args].
  - apply atMost_ret.
  - apply atMost_throw.
  - apply (atMost_bind w n n); [lia | | intros; apply atMost_ret].
    apply (atMost_tryCatch w 0 n); [lia | | intros; apply atMost_ret].
    apply atMost_reply. rewrite Nat.sub_0_r. apply Hreply.
  - apply Hroute.
Qed.

(** X13. Whatever the request and the network, one run of the webhook
    handler makes at most four outbound calls, and at most one of them is a
    dispatch: no branch dispatches twice or retries a dispatch. *)
Theorem webhook_call_budget rt env req net tr c tr' :
  handler rt env req net tr = (c, tr') ->
  exists new,
    tr' = (tr ++ new)%list
    /\ (List.length new <= 4)%nat
    /\ (List.length (filter isDispatch new) <= 1)%nat.
Proof.
  intros H.
  assert (Hcalls : atMost callWeight 4 (handler rt env req)).
  { apply handler_budget.
    - intros. reflexivity.
    - intros l command args.
      unfold commandHandlers, profileCommand, scanCommand, scanDispatch,
        smokeCommand, statusCommand, lastCommand.
      spend callWeight.
    - intros. weigh. }
  assert (Hdisp : atMost dispatchWeight 1 (handler rt env req)).
  { apply handler_budget.
    - intros. reflexivity.
    - intros l command args.
      unfold commandHandlers, profileCommand, scanCommand, scanDispatch,
        smokeCommand, statusCommand, lastCommand.
      spend dispatchWeight.
    - intros. weigh. }
  destruct (Hcalls _ _ _ _ H) as (new & -> & Hn).
  destruct (Hdisp _ _ _ _ H) as (new' & Heq & Hd).
  apply app_inv_head in Heq. subst new'.
  exists new. rewrite weight_calls in Hn. rewrite weight_dispatches in Hd. auto.
Qed.

Lemma webhook_call_budget_witness :
  exists new,
    snd (handler Sample.runtime (Sample.env "")
                 (Sample.delivery "webhook_secret" "/profile aggressive") worstCase [])
    = ([] ++ new)%list
    /\ (List.length new <= 4)%nat
    /\ (List.length (filter isDispatch new) <= 1)%nat.
Proof.
  exact (webhook_call_budget Sample.runtime (Sample.env "")
           (Sample.delivery "webhook_secret" "/profile aggressive") worstCase [] _ _
           (surjective_pairing _)).
Defined.

(** The budget of four calls is reached: PATCH, POST, the confirmation that
    the chat refuses, and the error reply. *)
Example four_calls_are_reached :
  List.length
    (snd (handler Sample.runtime (Sample.env "")
                  (Sample.delivery "webhook_secret" "/profile aggressive") worstCase []))
  = 4%nat.
Proof. vm_compute. reflexivity. Qed.

Lemma ready_inv (l : Locals) :
  githubReady l = true ->
  tpl (githubToken l) <> "" /\ tpl (githubOwner l) <> "" /\ tpl (githubRepo l) <> "".
Proof.
  unfold githubReady, present. intros H.
  apply andb_prop in H as [H Hr]. apply andb_prop in H as [Ht Ho].
  destruct (githubToken l) as [t |], (githubOwner l) as [o |], (githubRepo l) as [r |];
    try discriminate.
  apply negb_true_iff, String.eqb_neq in Ht, Ho, Hr. cbn. auto.
Qed.

Lemma addressed_dispatch (l : Locals) (payload : JsVal) :
  githubReady l = true -> eventType l <> "" -> wellAddressed (dispatchCall l payload).
Proof.
  intros Hready Hevent. destruct (ready_inv _ Hready) as (Ht & Ho & Hr).
  unfold dispatchCall, wellAddressed. auto.
Qed.

Lemma addressed_variable (l : Locals) (method name : string) (body : option JsVal) :
  githubReady l = true ->
  wellAddressed (GitHubApi (tpl (githubToken l)) method
                   (variablePath (tpl (githubOwner l)) (tpl (githubRepo l)) name) body).
Proof.
  intros Hready. destruct (ready_inv _ Hready) as (Ht & Ho & Hr).
  split; [exact Ht |].
  exists (tpl (githubOwner l)), (tpl (githubRepo l)), ("/" ++ encodeURIComponent name).
  repeat split; auto.
Qed.

Lemma addressed_create (l : Locals) (method : string) (body : option JsVal) :
  githubReady l = true ->
  wellAddressed (GitHubApi (tpl (githubToken l)) method
                   ("/repos/" ++ tpl (githubOwner l) ++ "/" ++ tpl (githubRepo l)
                    ++ "/actions/variables") body).
Proof.
  intros Hready. destruct (ready_inv _ Hready) as (Ht & Ho & Hr).
  split; [exact Ht |].
  exists (tpl (githubOwner l)), (tpl (githubRepo l)), "".
  repeat split; auto.
Qed.

(** Walks a handler, keeping what the tests on [githubReady] and on the
    profile argument establish; [call_tac] settles each call to GitHub. *)
Ltac walk call_tac :=
  repeat match goal with
         | |- emits _ (ret _) => apply emits_ret
         | |- emits _ (throw _) => apply emits_throw
         | |- emits _ (lift _) => apply emits_lift
         | |- emits _ (reply _ _) =>
             apply emits_reply; intros [] ?; solve [exact I | contradiction]
         | |- emits _ (onError _ _) =>
             apply emits_onError; intros [] ?; solve [exact I | contradiction]
         | |- emits _ (dispatch _ _) => apply emits_dispatch; call_tac
         | |- emits _ (githubApiRequest _ _ _ _ _) =>
             apply emits_bind; [apply emits_fetch; call_tac | intros; apply emits_ret]
         | |- emits _ (if negb (githubReady ?l) then _ else _) =>
             let H := fresh "Hready" in destruct (githubReady l) eqn:H; cbn [negb]
         | |- emits _ (match parseProfileArg ?a with _ => _ end) =>
             let H := fresh "Hmode" in
             pose proof (parseProfileArg_cases a) as H; destruct (parseProfileArg a)
         | |- emits _ (bind _ _) => apply emits_bind; [| intros]
         | |- emits _ (tryCatch _ _) => apply emits_tryCatch; [| intros]
         | |- emits _ (if ?b then _ else _) => destruct b
         | |- emits _ (match ?x with _ => _ end) => destruct x
         end.

Ltac addressed :=
  idtac;
  match goal with
  | Hready : githubReady _ = true |- _ =>
      first [ apply addressed_dispatch; assumption
            | apply addressed_variable; exact Hready
            | apply addressed_create; exact Hready ]
  end.

(** X14. Every call to GitHub that the router makes, dispatch or variable
    access, names a token, an owner and a repository that are not empty, and
    every dispatch an event type that is not empty: with a connection
    parameter missing no such call is made, and a blank event type falls
    back to [scan]. *)
Theorem github_calls_are_addressed rt env req :
  emits wellAddressed (handler rt env req).
Proof.
  unfold handler.
  destruct (gates rt env req) as [response | error | l | l command args] eqn:Hg.
  - apply emits_ret.
  - apply emits_throw.
  - walk idtac.
  - assert (Hevent : eventType l <> "").
    { destruct (gates_route_inv _ _ _ _ _ _ Hg) as (text & _ & _ & _ & _ & _ & _ & _ & ->).
      apply StrFacts.envOrDefault_not_empty. discriminate. }
    apply emits_tryCatch; [| intros; walk idtac].
    unfold commandHandlers, profileCommand, scanCommand, scanDispatch,
      smokeCommand, statusCommand, lastCommand, getGitHubVariable, upsertGitHubVariable.
    walk addressed.
Qed.

Ltac profile_only :=
  idtac;
  first [ exact I
        | left; split; reflexivity
        | right; split; [auto |];
          match goal with
          | H : In ?v STRATEGY_PROFILES /\ _ |- _ =>
              exists v; split; [exact (proj1 H) | reflexivity]
          end ].

(** X15. The router reaches the variable store only to read, with a GET
    without body, or to write [STRATEGY_PROFILE] with one of
    [conservative], [balanced], [aggressive]: no text of a chat message can
    make it store another name or another value. *)
Theorem store_access_is_profile_only rt env req :
  emits profileAccess (handler rt env req).
Proof.
  unfold handler.
  destruct (gates rt env req) as [response | error | l | l command args] eqn:Hg.
  - apply emits_ret.
  - apply emits_throw.
  - walk idtac.
  - apply emits_tryCatch; [| intros; walk idtac].
    unfold commandHandlers, profileCommand, scanCommand, scanDispatch,
      smokeCommand, statusCommand, lastCommand, getGitHubVariable, upsertGitHubVariable.
    walk profile_only.
Qed.

End RouterMore.

(* ================================================================== *)
(** ** The trigger endpoint: outcomes, normalized products *)

Module TriggerMore.

Import MoreSpec TriggerSpec TriggerFacts StrFacts.

(** X16. The endpoint of api/scan.js never throws and makes at most one
    call, the dispatch. It answers 405, 401, 500 or 400 without any call;
    once it has products and a configured backend it dispatches them once
    and answers 202 when the dispatch is answered with a success, 500 with
    the error when it is not or when the call itself fails. *)
Theorem scan_js_outcomes env req net tr :
  exists response new,
    Scan.handler env req net tr = (Normal response, (tr ++ new)%list)
    /\ ((new = [] /\ In (code response) [405; 401; 500; 400])
        \/ (let products := Scan.parseProducts (or_else (Scan.body req) (JObj [])) in
            new = [forwardCall env products]
            /\ products <> [] /\ backendReady env = true
            /\ forwarded net tr (forwardCall env products) (List.length products)
                         response)).
Proof.
  unfold Scan.handler.
  destruct (negb (Scan.method req =? "POST")).
  { eexists _, []. rewrite app_nil_r. split; [reflexivity |]. left. cbn. auto. }
  destruct (present (env "SCAN_SECRET")
            && negb (match Scan.headers req "authorization" with
                     | Some h => h
                     | None => ""
                     end =? "Bearer " ++ tpl (env "SCAN_SECRET"))).
  { eexists _, []. rewrite app_nil_r. split; [reflexivity |]. left. cbn. auto. }
  destruct (backendReady env) eqn:Hready.
  - rewrite (backendReady_inv _ Hready).
    set (products := Scan.parseProducts (or_else (Scan.body req) (JObj []))).
    destruct products as [| p ps] eqn:Hp.
    + eexists _, []. rewrite app_nil_r. split; [reflexivity |]. left. cbn. auto 6.
    + cbn [List.length Nat.eqb]. rewrite forward_run. unfold forwarded.
      destruct (net tr (forwardCall env (p :: ps))) as [e | r] eqn:En;
        [| destruct (ok r) eqn:Eo];
        (eexists _, _; split; [reflexivity |]; right;
         split; [reflexivity |]; split; [discriminate |]; split; [reflexivity |];
         cbv zeta; reflexivity).
  - assert (Hmissing : negb (present (env "GITHUB_TOKEN"))
                       || negb (present (env "GITHUB_OWNER"))
                       || negb (present (env "GITHUB_REPO")) = true).
    { unfold backendReady in Hready.
      destruct (present (env "GITHUB_TOKEN")), (present (env "GITHUB_OWNER")),
        (present (env "GITHUB_REPO")); try discriminate; reflexivity. }
    rewrite Hmissing.
    eexists _, []. rewrite app_nil_r. split; [reflexivity |]. left. cbn. auto.
Qed.

Lemma setProp_same (k : string) (v : JsVal) (props : list (string * JsVal)) :
  lookup k props = Some v -> setProp k v props = props.
Proof.
  induction props as [| [k' v'] rest IH]; cbn; [discriminate |].
  destruct (String.eqb_spec k' k) as [-> | Hne].
  - intros H. now inversion H.
  - intros H. now rewrite IH.
Qed.

(** What the normalizer of the revised endpoint accepts, and what it makes
    of it. *)
Lemma normalize_shape rt candidate product :
  ScanRevised.normalize rt candidate = Normal (Some product) ->
  exists props title price,
    candidate = JObj props
    /\ getProp candidate "title" = JStr title /\ trim title <> ""
    /\ Number_ rt (nullish (getProp candidate "price_eur") (getProp candidate "price"))
       = Normal (Fin price)
    /\ num_leb (Fin price) (Fin 0) = false
    /\ product = JObj (setProp "price_eur" (JNum (Fin price))
                         (setProp "title" (JStr (trim title)) props)).
Proof.
  unfold ScanRevised.normalize.
  destruct (negb (truthy candidate) || negb (typeof_object candidate)); [discriminate |].
  destruct (Number_ rt (nullish (getProp candidate "price_eur")
                                (getProp candidate "price"))) as [price | e] eqn:Eprice;
    [| discriminate].
  destruct (getProp candidate "title") as [| | | | title | |] eqn:Etitle;
    cbn [String.eqb orb]; try discriminate.
  destruct (String.eqb_spec (trim title) "") as [| Hne]; [discriminate |].
  destruct price as [| negative | x]; cbn [isFinite negb orb]; try discriminate.
  destruct (num_leb (Fin x) (Fin 0)) eqn:Ele; [discriminate |].
  intros H. inversion H; subst product; clear H.
  destruct candidate as [| | | | | items | props]; try discriminate.
  exists props, title, x. cbn [ScanRevised.spreadProps]. auto 7.
Qed.

Lemma normalize_normalized rt candidate product :
  ScanRevised.normalize rt candidate = Normal (Some product) -> normalized product.
Proof.
  intros H. destruct (normalize_shape _ _ _ H) as (props & title & price & _ & _ & Hne
                                                   & _ & Hle & ->).
  exists (trim title), price. cbn [getProp].
  rewrite lookup_setProp_other by discriminate.
  rewrite !lookup_setProp_same.
  split; [reflexivity |]. split; [exact Hne |]. split; [apply trim_idem |].
  split; [reflexivity |].
  cbn in Hle. unfold Qle_bool in Hle. apply Z.leb_gt in Hle.
  unfold Qlt. cbn in *. lia.
Qed.

Lemma normalizeAll_normalized rt items products :
  ScanRevised.normalizeAll rt items = Normal products -> Forall normalized products.
Proof.
  revert products. induction items as [| item rest IH]; cbn; intros products H.
  - inversion H. constructor.
  - destruct (ScanRevised.normalize rt item) as [[p |] | e] eqn:E; try discriminate;
      destruct (ScanRevised.normalizeAll rt rest) as [others | e']; try discriminate;
      inversion H; subst.
    + constructor; [eapply normalize_normalized; eauto | now apply IH].
    + now apply IH.
Qed.

Lemma parseProducts_normalized rt payload products :
  ScanRevised.parseProducts rt payload = Normal products ->
  Forall normalized products.
Proof.
  unfold ScanRevised.parseProducts, ScanRevised.single. intros H.
  assert (Hone : forall c,
             match ScanRevised.normalize rt c with
             | Abrupt e => Abrupt e
             | Normal (Some n) => Normal [n]
             | Normal None => Normal []
             end = Normal products -> Forall normalized products).
  { intros c Hc. destruct (ScanRevised.normalize rt c) as [[n |] | e] eqn:E;
      try discriminate; inversion Hc; subst.
    - constructor; [eapply normalize_normalized; eauto | constructor].
    - constructor. }
  destruct (optProp payload "products") as [| | | | | items | props] eqn:Ev;
    try (eapply normalizeAll_normalized; eassumption);
    cbn [truthy typeof_object andb] in H;
    repeat match type of H with
           | (if ?b then _ else _) = _ => destruct b
           end;
    try (inversion H; constructor); eauto.
Qed.

(** X17. Whatever the body, every product that the revised [parseProducts]
    returns has a title that is a trimmed, non-empty string and a
    [price_eur] that is a finite number greater than 0. *)
Theorem revised_products_are_normalized rt payload products :
  ScanRevised.parseProducts rt payload = Normal products ->
  Forall normalized products.
Proof. exact (parseProducts_normalized rt payload products). Qed.

Lemma revised_products_are_normalized_witness :
  Forall normalized
    [JObj [("title", JStr "iPhone 14"); ("price", num 500);
           ("seller", JStr "warehouse"); ("price_eur", num 500)]].
Proof.
  apply (revised_products_are_normalized Sample.runtime
           (productsBody [rawIphone; onlyTitle; JNull; JStr "text"])).
  reflexivity.
Defined.

(** X18. Normalizing is idempotent: a product that the revised normalizer
    has yielded is accepted again and comes back unchanged, on a runtime
    whose [Number] leaves numbers as they are. *)
Theorem revised_normalize_is_idempotent rt candidate product :
  (forall n, Number_ rt (JNum n) = Normal n) ->
  ScanRevised.normalize rt candidate = Normal (Some product) ->
  ScanRevised.normalize rt product = Normal (Some product).
Proof.
  intros Hnum H.
  destruct (normalize_shape _ _ _ H) as (props & title & price & _ & _ & Hne
                                         & _ & Hle & ->).
  set (props' := setProp "price_eur" (JNum (Fin price))
                   (setProp "title" (JStr (trim title)) props)).
  assert (Ht : lookup "title" props' = Some (JStr (trim title))).
  { unfold props'. rewrite lookup_setProp_other by discriminate.
    apply lookup_setProp_same. }
  assert (Hp : lookup "price_eur" props' = Some (JNum (Fin price))).
  { apply lookup_setProp_same. }
  unfold ScanRevised.normalize. cbn [truthy typeof_object negb orb getProp].
  rewrite Ht, Hp. cbn [nullish]. rewrite Hnum, trim_idem.
  destruct (String.eqb_spec (trim title) ""); [contradiction |].
  cbn [isFinite negb orb]. rewrite Hle. cbn [ScanRevised.spreadProps].
  rewrite (setProp_same "title" _ props' Ht), (setProp_same "price_eur" _ props' Hp).
  reflexivity.
Qed.

Lemma revised_normalize_is_idempotent_witness :
  ScanRevised.normalize Sample.runtime
    (JObj [("title", JStr "iPhone 14"); ("price", num 500);
           ("seller", JStr "warehouse"); ("price_eur", num 500)])
  = Normal (Some (JObj [("title", JStr "iPhone 14"); ("price", num 500);
                        ("seller", JStr "warehouse"); ("price_eur", num 500)])).
Proof.
  apply (revised_normalize_is_idempotent Sample.runtime rawIphone).
  - reflexivity.
  - reflexivity.
Defined.

(** X19. The revised endpoint makes at most one call, the dispatch, and
    every product it dispatches is normalized. It answers 405, 500, 401 or
    400 without any call; it throws only when [Number] throws while a
    candidate is normalized, also before any call; otherwise it dispatches
    once and answers 202 on a success and 500 with the error on a failure. *)
Theorem revised_outcomes rt env req net tr :
  exists c new,
    ScanRevised.handler rt env req net tr = (c, (tr ++ new)%list)
    /\ ((new = []
         /\ ((exists response,
                 c = Normal response /\ In (code response) [405; 500; 401; 400])
             \/ (exists e,
                    c = Abrupt e
                    /\ ScanRevised.parseProducts rt (or_else (Scan.body req) (JObj []))
                       = Abrupt e)))
        \/ (exists products response,
               c = Normal response
               /\ ScanRevised.parseProducts rt (or_else (Scan.body req) (JObj []))
                  = Normal products
               /\ products <> [] /\ Forall normalized products
               /\ new = [forwardCall env products]
               /\ forwarded net tr (forwardCall env products) (List.length products)
                            response)).
Proof.
  unfold ScanRevised.handler.
  destruct (negb (Scan.method req =? "POST")).
  { eexists _, []. rewrite app_nil_r. split; [reflexivity |]. left.
    split; [reflexivity |]. left. eexists. split; [reflexivity |]. cbn. auto. }
  destruct (negb (present (env "SCAN_SECRET")) || (trim (tpl (env "SCAN_SECRET")) =? "")).
  { eexists _, []. rewrite app_nil_r. split; [reflexivity |]. left.
    split; [reflexivity |]. left. eexists. split; [reflexivity |]. cbn. auto. }
  destruct (negb (match Scan.headers req "authorization" with
                  | Some h => h
                  | None => ""
                  end =? "Bearer " ++ trim (tpl (env "SCAN_SECRET")))).
  { eexists _, []. rewrite app_nil_r. split; [reflexivity |]. left.
    split; [reflexivity |]. left. eexists. split; [reflexivity |]. cbn. auto. }
  destruct (negb (present (env "GITHUB_TOKEN")) || negb (present (env "GITHUB_OWNER"))
            || negb (present (env "GITHUB_REPO"))).
  { eexists _, []. rewrite app_nil_r. split; [reflexivity |]. left.
    split; [reflexivity |]. left. eexists. split; [reflexivity |]. cbn. auto. }
  unfold bind, lift.
  destruct (ScanRevised.parseProducts rt (or_else (Scan.body req) (JObj [])))
    as [products | e] eqn:Hparse.
  - destruct products as [| p ps].
    + eexists _, []. rewrite app_nil_r. split; [reflexivity |]. left.
      split; [reflexivity |]. left. eexists. split; [reflexivity |]. cbn. auto 6.
    + pose proof (parseProducts_normalized _ _ _ Hparse) as Hnorm.
      cbn [List.length Nat.eqb]. cbv beta iota. rewrite forward_run.
      destruct (net tr (forwardCall env (p :: ps))) as [e | r] eqn:En;
        [| destruct (ok r) eqn:Eo];
        (eexists _, _; split; [reflexivity |]; right;
         eexists (p :: ps), _; split; [reflexivity |]; split; [reflexivity |];
         split; [discriminate |]; split; [exact Hnorm |]; split; [reflexivity |];
         unfold forwarded; rewrite En; try rewrite Eo; reflexivity).
  - eexists _, []. rewrite app_nil_r. split; [reflexivity |]. left.
    split; [reflexivity |]. right. eauto.
Qed.


End TriggerMore.

(* ================================================================== *)
(** ** The [/scan] command *)

Module ScanCommand.

Import Webhook RouterSpec MoreSpec.






(** [/scan] on an array inside a code fence that holds one product among a
    number and a [null]: the product alone is dispatched. On the number 7
    alone, which is JSON and holds no object: a reply, no dispatch. *)
Example scan_keeps_the_objects :
  Sample.run "" ("/scan ```json" ++ nl ++ Sample.mixedText ++ nl ++ "```") Sample.allOk
  = (Normal ok200,
     [Dispatch "ghp_test" "owner" "repo" "scan"
        (JObj [("source", JStr "telegram"); ("command", JStr "scan");
               ("chat_id", JStr "123"); ("user_id", JStr "999");
               ("products", JArr [Sample.iphone])]);
      SendMessage "token" (JNum (Fin 123))
        "Scan accodato su GitHub Actions (1 prodotti)."])
  /\ fenceStripped ("```json" ++ nl ++ Sample.mixedText ++ nl ++ "```") Sample.mixedText
  /\ productObjects Sample.mixed = [Sample.iphone].
Proof.
  split; [vm_compute; reflexivity |]. split; [| reflexivity].
  apply (fenced "json" (nl ++ Sample.mixedText ++ nl)); reflexivity.
Qed.

End ScanCommand.
